(** * ISA memory-expansion boards (src/device/isamem.c)

    A shallow embedding of the ISA memory board emulation: the translators
    [ram_readb]/[ram_writeb]/[ram_readw]/[ram_writew] for plain regions, the
    paged translators [ems_readb]/[ems_writeb]/[ems_readw]/[ems_writew], the
    EMS register handlers [ems_read]/[ems_write] and the layout construction
    of [isamem_init].

    Conventions.  A C integer of width w is a [Z] with the wrap-around
    written where the C code converts ([uint8], [uint16], [uint32], [int8]).
    A pointer into the board's RAM is the byte offset from [dev->ram]
    ([None] is the NULL pointer).  An access outside the allocated buffer is
    undefined behaviour in C: the translators return [None] there. *)

From Stdlib Require Import ZArith List Bool Lia String.
Import ListNotations.
Local Open Scope Z_scope.

Set Primitive Projections.

(** ** Fixed-width integers *)

Module Int.

Definition uint8 (x : Z) : Z := x mod 256.
Definition uint16 (x : Z) : Z := x mod 65536.
Definition uint32 (x : Z) : Z := x mod 4294967296.
(** Conversion to [int8_t]: two's complement wrap-around. *)
Definition int8 (x : Z) : Z := (x + 128) mod 256 - 128.

End Int.
Import Int.

(** ** Constants of the source *)

Definition RAM_TOPMEM : Z := Eval cbv in Z.shiftl 640 10.   (* end of low memory *)
Definition RAM_UMAMEM : Z := Eval cbv in Z.shiftl 384 10.   (* upper memory block *)
Definition RAM_EXTMEM : Z := Eval cbv in Z.shiftl 1024 10.  (* start of high memory *)

Definition EMS_MAXSIZE : Z := Eval cbv in Z.shiftl 2048 10. (* max EMS memory size *)
Definition EMS_PGSIZE : Z := Eval cbv in Z.shiftl 16 10.    (* one page is this big *)
Definition EMS_MAXPAGE : Z := 4.                            (* number of viewport pages *)

Definition FLAG_CONFIG : Z := 0x01.  (* card is configured *)
Definition FLAG_WIDE : Z := 0x10.    (* card uses 16b mode *)
Definition FLAG_FAST : Z := 0x20.    (* fast (<= 120ns) chips *)
Definition FLAG_EMS : Z := 0x40.     (* card has EMS mode enabled *)

(** A C condition: an integer that is not zero. *)
Definition nonzero (x : Z) : bool := negb (x =? 0).

(** [flags & F] read as a C condition. *)
Definition flag_set (flags F : Z) : bool := nonzero (Z.land flags F).

(** ** The RAM buffer *)

(** [malloc]ed storage: its size in bytes and its contents by offset. *)
Record buffer : Type := mkBuffer {
  buf_size : Z;
  buf_data : Z -> Z
}.

(** [malloc(k)] followed by [memset(.., 0x00, k)]. *)
Definition calloc (k : Z) : buffer :=
  {| buf_size := k; buf_data := fun _ => 0 |}.

Definition in_buffer (b : buffer) (off : Z) : bool :=
  (0 <=? off) && (off <? buf_size b).

(** [*(uint8_t * )(ram + off)] *)
Definition load8 (b : buffer) (off : Z) : option Z :=
  if in_buffer b off then Some (buf_data b off) else None.

(** [*(uint8_t * )(ram + off) = v] *)
Definition store8 (b : buffer) (off v : Z) : option buffer :=
  if in_buffer b off
  then Some {| buf_size := buf_size b;
               buf_data := fun o => if o =? off then v else buf_data b o |}
  else None.

(** [*(uint16_t * )(ram + off)], low byte first (the hosts are little-endian). *)
Definition load16 (b : buffer) (off : Z) : option Z :=
  match load8 b off, load8 b (off + 1) with
  | Some lo, Some hi => Some (lo + 256 * hi)
  | _, _ => None
  end.

(** [*(uint16_t * )(ram + off) = v] *)
Definition store16 (b : buffer) (off v : Z) : option buffer :=
  match store8 b off (v mod 256) with
  | Some b1 => store8 b1 (off + 1) (v / 256 mod 256)
  | None => None
  end.

(** ** Host memory mappings *)

(** Which byte/word handlers a mapping was registered with. *)
Inductive handlers : Type :=
| NoHandlers
| RamHandlers    (* ram_readb, ram_writeb, ... *)
| EmsHandlers.   (* ems_readb, ems_writeb, ... *)

(** The fields of the host's [mem_mapping_t] this device relies on. *)
Record mem_mapping : Type := mkMapping {
  map_enable : bool;
  map_base : Z;
  map_size : Z;
  map_handlers : handlers;
  map_word : bool;          (* word handlers were given (not NULL) *)
  map_exec : option Z       (* backing pointer *)
}.

(** A mapping inside a zero-filled device structure. *)
Definition mapping_zero : mem_mapping :=
  mkMapping false 0 0 NoHandlers false None.

(** Modelled from the spec: the host's region registration
    [mem_mapping_add] (mem.c is not part of the sources): it records base,
    size, handlers and backing pointer, and the new mapping routes guest
    accesses (the device disables it explicitly where it must start
    disabled). *)
Definition mem_mapping_add (base size : Z) (hd : handlers) (word : bool)
    (exec : option Z) : mem_mapping :=
  mkMapping true (uint32 base) (uint32 size) hd word exec.

(** Modelled from the spec: the host's [enable(handle)]. *)
Definition mem_mapping_enable (m : mem_mapping) : mem_mapping :=
  mkMapping true (map_base m) (map_size m) (map_handlers m) (map_word m) (map_exec m).

(** Modelled from the spec: the host's [disable(handle)]. *)
Definition mem_mapping_disable (m : mem_mapping) : mem_mapping :=
  mkMapping false (map_base m) (map_size m) (map_handlers m) (map_word m) (map_exec m).

(** Modelled from the spec: the host's [rebind(handle, new-backing-pointer)]. *)
Definition mem_mapping_set_exec (m : mem_mapping) (p : option Z) : mem_mapping :=
  mkMapping (map_enable m) (map_base m) (map_size m) (map_handlers m) (map_word m) p.

(** The address range a mapping covers. *)
Definition inside (m : mem_mapping) (addr : Z) : Prop :=
  map_base m <= addr < map_base m + map_size m.

(** The host state the device registers into: the shared remap window, the
    ranges marked as external RAM and the I/O port handlers (base, count). *)
Record host : Type := mkHost {
  ram_remapped_mapping : mem_mapping;
  mem_state : list (Z * Z);
  io_handlers : list (Z * Z)
}.

(** Modelled from the spec: the host's [mark-region-external(address-range)]
    ([mem_set_mem_state]). *)
Definition mem_set_mem_state (addr size : Z) (h : host) : host :=
  mkHost (ram_remapped_mapping h) ((uint32 addr, uint32 size) :: mem_state h) (io_handlers h).

(** Modelled from the spec: the host's I/O [register(port-base, count, ...)]
    ([io_sethandler]); the port base is a 16-bit value. *)
Definition io_sethandler (base count : Z) (h : host) : host :=
  mkHost (ram_remapped_mapping h) (mem_state h) ((uint16 base, count) :: io_handlers h).

Definition set_remapped (m : mem_mapping) (h : host) : host :=
  mkHost m (mem_state h) (io_handlers h).

(** ** Device structures *)

(** [emsreg_t] *)
Record emsreg : Type := mkEmsreg {
  enabled : Z;              (* int8_t, 1=ENABLED *)
  page : Z;                 (* uint8_t, page# in EMS RAM *)
  frame : Z;                (* uint8_t, (varies with board) *)
  addr : option Z;          (* start addr in EMS RAM *)
  mapping : mem_mapping     (* mapping entry for page *)
}.

Definition emsreg_zero : emsreg := mkEmsreg 0 0 0 None mapping_zero.

Definition set_enabled (v : Z) (r : emsreg) : emsreg :=
  mkEmsreg v (page r) (frame r) (addr r) (mapping r).
Definition set_page (v : Z) (r : emsreg) : emsreg :=
  mkEmsreg (enabled r) v (frame r) (addr r) (mapping r).
Definition set_frame (v : Z) (r : emsreg) : emsreg :=
  mkEmsreg (enabled r) (page r) v (addr r) (mapping r).
Definition set_addr (p : option Z) (r : emsreg) : emsreg :=
  mkEmsreg (enabled r) (page r) (frame r) p (mapping r).
Definition set_mapping (m : mem_mapping) (r : emsreg) : emsreg :=
  mkEmsreg (enabled r) (page r) (frame r) (addr r) m.

(** [memdev_t]; [ems] is the array [ems[EMS_MAXPAGE]] by index. *)
Record memdev : Type := mkMemdev {
  board : Z;                (* 6-bit board type *)
  flags : Z;                (* uint8_t *)
  total_size : Z;           (* uint16_t, configured size in KB *)
  base_addr : Z;            (* uint32_t, configured I/O address *)
  start_addr : Z;           (* uint32_t, configured memory start *)
  frame_addr : Z;           (* uint32_t, configured frame address *)
  ems_size : Z;             (* uint16_t, EMS size in KB *)
  ems_pages : Z;            (* uint16_t, EMS size in pages *)
  ems_start : Z;            (* uint32_t, start of EMS in RAM *)
  ram : buffer;             (* allocated RAM buffer *)
  low_mapping : mem_mapping;
  high_mapping : mem_mapping;
  ems : Z -> emsreg
}.

(** [malloc(sizeof(memdev_t))] and [memset(dev, 0x00, ...)]. *)
Definition memdev_zero : memdev :=
  mkMemdev 0 0 0 0 0 0 0 0 0 (calloc 0) mapping_zero mapping_zero (fun _ => emsreg_zero).

Definition set_board (v : Z) (d : memdev) : memdev :=
  mkMemdev v (flags d) (total_size d) (base_addr d) (start_addr d) (frame_addr d)
    (ems_size d) (ems_pages d) (ems_start d) (ram d) (low_mapping d) (high_mapping d) (ems d).
Definition set_flags (v : Z) (d : memdev) : memdev :=
  mkMemdev (board d) v (total_size d) (base_addr d) (start_addr d) (frame_addr d)
    (ems_size d) (ems_pages d) (ems_start d) (ram d) (low_mapping d) (high_mapping d) (ems d).
Definition set_total_size (v : Z) (d : memdev) : memdev :=
  mkMemdev (board d) (flags d) v (base_addr d) (start_addr d) (frame_addr d)
    (ems_size d) (ems_pages d) (ems_start d) (ram d) (low_mapping d) (high_mapping d) (ems d).
Definition set_base_addr (v : Z) (d : memdev) : memdev :=
  mkMemdev (board d) (flags d) (total_size d) v (start_addr d) (frame_addr d)
    (ems_size d) (ems_pages d) (ems_start d) (ram d) (low_mapping d) (high_mapping d) (ems d).
Definition set_start_addr (v : Z) (d : memdev) : memdev :=
  mkMemdev (board d) (flags d) (total_size d) (base_addr d) v (frame_addr d)
    (ems_size d) (ems_pages d) (ems_start d) (ram d) (low_mapping d) (high_mapping d) (ems d).
Definition set_frame_addr (v : Z) (d : memdev) : memdev :=
  mkMemdev (board d) (flags d) (total_size d) (base_addr d) (start_addr d) v
    (ems_size d) (ems_pages d) (ems_start d) (ram d) (low_mapping d) (high_mapping d) (ems d).
Definition set_ems_info (start size pages : Z) (d : memdev) : memdev :=
  mkMemdev (board d) (flags d) (total_size d) (base_addr d) (start_addr d) (frame_addr d)
    size pages start (ram d) (low_mapping d) (high_mapping d) (ems d).
Definition set_ram (b : buffer) (d : memdev) : memdev :=
  mkMemdev (board d) (flags d) (total_size d) (base_addr d) (start_addr d) (frame_addr d)
    (ems_size d) (ems_pages d) (ems_start d) b (low_mapping d) (high_mapping d) (ems d).
Definition set_low_mapping (m : mem_mapping) (d : memdev) : memdev :=
  mkMemdev (board d) (flags d) (total_size d) (base_addr d) (start_addr d) (frame_addr d)
    (ems_size d) (ems_pages d) (ems_start d) (ram d) m (high_mapping d) (ems d).
Definition set_high_mapping (m : mem_mapping) (d : memdev) : memdev :=
  mkMemdev (board d) (flags d) (total_size d) (base_addr d) (start_addr d) (frame_addr d)
    (ems_size d) (ems_pages d) (ems_start d) (ram d) (low_mapping d) m (ems d).
(** [dev->ems[i] = r] *)
Definition set_ems (i : Z) (r : emsreg) (d : memdev) : memdev :=
  mkMemdev (board d) (flags d) (total_size d) (base_addr d) (start_addr d) (frame_addr d)
    (ems_size d) (ems_pages d) (ems_start d) (ram d) (low_mapping d) (high_mapping d)
    (fun j => if j =? i then r else ems d j).

(** [dev->flags & FLAG_CONFIG] *)
Definition configured (d : memdev) : bool := flag_set (flags d) FLAG_CONFIG.

(** ** RamTranslator: plain regions *)

(** Read one byte from onboard RAM. *)
Definition ram_readb (address : Z) (map : mem_mapping) (dev : memdev) : option Z :=
  load8 (ram dev) (uint32 (address - map_base map)).

(** Read one word from onboard RAM. *)
Definition ram_readw (address : Z) (map : mem_mapping) (dev : memdev) : option Z :=
  load16 (ram dev) (uint32 (address - map_base map)).

(** Write one byte to onboard RAM. *)
Definition ram_writeb (address val : Z) (map : mem_mapping) (dev : memdev) : option memdev :=
  option_map (fun b => set_ram b dev) (store8 (ram dev) (uint32 (address - map_base map)) val).

(** Write one word to onboard RAM. *)
Definition ram_writew (address val : Z) (map : mem_mapping) (dev : memdev) : option memdev :=
  option_map (fun b => set_ram b dev) (store16 (ram dev) (uint32 (address - map_base map)) val).

(** ** RamTranslator: paged (EMS) regions *)

(** The viewport page number of a memory address. *)
Definition addr_vpage (address : Z) : Z := Z.land address 0xffff / EMS_PGSIZE.

(** [dev->ems[vpage].addr + (addr - map->base)] *)
Definition ems_ptr (address : Z) (map : mem_mapping) (dev : memdev) : option Z :=
  let vpage := addr_vpage address in
  match addr (ems dev vpage) with
  | Some p => Some (p + uint32 (address - map_base map))
  | None => None
  end.

(** Read one byte from onboard paged RAM. *)
Definition ems_readb (address : Z) (map : mem_mapping) (dev : memdev) : option Z :=
  match ems_ptr address map dev with
  | Some p => load8 (ram dev) p
  | None => None
  end.


(** Write one byte to onboard paged RAM. *)
Definition ems_writeb (address val : Z) (map : mem_mapping) (dev : memdev) : option memdev :=
  match ems_ptr address map dev with
  | Some p => option_map (fun b => set_ram b dev) (store8 (ram dev) p val)
  | None => None
  end.

(** Write one word to onboard paged RAM. *)
Definition ems_writew (address val : Z) (map : mem_mapping) (dev : memdev) : option memdev :=
  match ems_ptr address map dev with
  | Some p => option_map (fun b => set_ram b dev) (store16 (ram dev) p val)
  | None => None
  end.

(** ** ViewportController: the I/O registers *)

(** Both handlers start by splitting the port: [vpage = port / EMS_PGSIZE]
    and [port &= (EMS_PGSIZE - 1)], then switch on [port - dev->base_addr]
    (an unsigned 32-bit difference). *)
Definition port_vpage (port : Z) : Z := port / EMS_PGSIZE.

Definition port_reg (port : Z) (dev : memdev) : Z :=
  uint32 (Z.land port (EMS_PGSIZE - 1) - base_addr dev).

(** Handle a READ operation from one of our registers. *)
Definition ems_read (port : Z) (dev : memdev) : Z :=
  let ret := 0xff in
  let vpage := port_vpage port in
  match port_reg port dev with
  | 0 =>        (* page number register *)
      let ret := page (ems dev vpage) in
      if nonzero (enabled (ems dev vpage)) then uint8 (Z.lor ret 0x80) else ret
  | 1 => ret    (* W/O *)
  | _ => ret
  end.

(** The body of [case 0x0000] of [ems_write] on the register of [vpage]. *)
Definition page_select_write (val : Z) (dev : memdev) (r : emsreg) : emsreg :=
  (* Set the page number. *)
  let r := set_enabled (int8 (Z.land val 0x80)) r in
  let r := set_page (uint8 (Z.land val 0x7f)) r in
  (* Make sure we can do that.. *)
  if configured dev then
    let r :=
      if page r <? ems_pages dev
      then (* Pre-calculate the page address in EMS RAM. *)
        set_addr (Some (ems_start dev + Z.land val 0x7f * EMS_PGSIZE)) r
      else (* That page does not exist. *)
        set_enabled 0 r in
    if nonzero (enabled r)
    then (* Update the EMS RAM address for this page, and enable it. *)
      set_mapping (mem_mapping_enable (mem_mapping_set_exec (mapping r) (addr r))) r
    else (* Disable this page. *)
      set_mapping (mem_mapping_disable (mapping r)) r
  else r.

(** Handle a WRITE operation to one of our registers. *)
Definition ems_write (port val : Z) (dev : memdev) : memdev :=
  let vpage := port_vpage port in
  match port_reg port dev with
  | 0 =>        (* page mapping registers *)
      set_ems vpage (page_select_write val dev (ems dev vpage)) dev
  | 1 =>        (* page frame registers *)
      let dev := set_ems vpage (set_frame val (ems dev vpage)) dev in
      if nonzero val then set_flags (uint8 (Z.lor (flags dev) FLAG_CONFIG)) dev else dev
  | _ => dev
  end.

(** Guest accesses to the register ports: a read hands back a byte and the
    device as it was, a write hands back the updated device. *)
Inductive io_op : Type :=
| IoRead (port : Z)
| IoWrite (port val : Z).

Definition io_step (op : io_op) (dev : memdev) : memdev * option Z :=
  match op with
  | IoRead port => (dev, Some (ems_read port dev))
  | IoWrite port val => (ems_write port val dev, None)
  end.

Definition run_io (ops : list io_op) (dev : memdev) : memdev :=
  fold_left (fun d op => fst (io_step op d)) ops dev.

(** ** LayoutBuilder: [isamem_init] *)

(** The options [isamem_init] looks up ([device_get_config_int],
    [device_get_config_hex16], [device_get_config_hex20]), by name. *)
Record config : Type := mkConfig {
  cfg_size : Z;      (* "size"   *)
  cfg_start : Z;     (* "start"  *)
  cfg_length : Z;    (* "length" *)
  cfg_width : Z;     (* "width"  *)
  cfg_speed : Z;     (* "speed"  *)
  cfg_ems : Z;       (* "ems"    *)
  cfg_base : Z;      (* "base"   *)
  cfg_frame : Z      (* "frame"  *)
}.

Definition or_flag (F : Z) (d : memdev) : memdev :=
  set_flags (uint8 (Z.lor (flags d) F)) d.

(** Do per-board initialization: the device and [tot]. *)
Definition board_setup (local : Z) (cfg : config) : memdev * Z :=
  let dev := set_board (Z.land local 63) memdev_zero in
  let tot := 0 in
  match board dev with
  | 0 | 2 =>   (* IBM PC/XT Memory Expansion Card, Paradise Systems 5-PAK *)
      let dev := set_total_size (uint16 (cfg_size cfg)) dev in
      let dev := set_start_addr (uint32 (cfg_start cfg)) dev in
      (dev, total_size dev)
  | 1 =>       (* IBM PC/AT Memory Expansion Card *)
      let dev := set_total_size (uint16 (cfg_size cfg)) dev in
      let dev := set_start_addr (uint32 (cfg_start cfg)) dev in
      (or_flag FLAG_WIDE dev, total_size dev)
  | 3 =>       (* Micro Mainframe EMS-5150(T) *)
      let dev := set_base_addr (uint32 (cfg_base cfg)) dev in
      let dev := set_total_size (uint16 (cfg_size cfg)) dev in
      let dev := set_frame_addr 0xD0000 dev in
      (or_flag (Z.lor FLAG_EMS FLAG_CONFIG) dev, tot)
  | 10 =>      (* Everex EV-159 RAM 3000 *)
      let dev := set_base_addr (uint32 (cfg_base cfg)) dev in
      let dev := set_total_size (uint16 (cfg_size cfg)) dev in
      let dev := set_start_addr (uint32 (cfg_start cfg)) dev in
      let tot := uint32 (cfg_length cfg) in
      let dev := if nonzero (cfg_width cfg) then or_flag FLAG_WIDE dev else dev in
      let dev := if nonzero (cfg_speed cfg) then or_flag FLAG_FAST dev else dev in
      let dev := if nonzero (cfg_ems cfg) then or_flag FLAG_EMS dev else dev in
      (set_frame_addr 0xE0000 dev, tot)
  | 11 =>
      let dev := set_base_addr (uint32 (cfg_base cfg)) dev in
      let dev := set_total_size (uint16 (cfg_size cfg)) dev in
      let dev := set_start_addr (uint32 (cfg_start cfg)) dev in
      let dev := set_frame_addr (uint32 (cfg_frame cfg)) dev in
      let dev := if nonzero (cfg_width cfg) then or_flag FLAG_WIDE dev else dev in
      let dev := if nonzero (cfg_speed cfg) then or_flag FLAG_FAST dev else dev in
      (dev, tot)
  | _ => (dev, tot)
  end.

(** The locals of [isamem_init] while the RAM is handed out: the device, the
    host, [k] (bytes left for EMS), [tot] (bytes still to map), [addr] (the
    cursor in the address space) and [ptr] (the cursor in the RAM buffer, as
    an offset from [dev->ram]). *)
Record layout : Type := mkLayout {
  l_dev : memdev;
  l_host : host;
  l_k : Z;
  l_tot : Z;
  l_addr : Z;
  l_ptr : Z
}.

(** First, see if we have to expand the conventional (low) memory area. *)
Definition carve_low (l : layout) : layout :=
  let dev := l_dev l in
  let t := if l_addr l <? RAM_TOPMEM then uint32 (RAM_TOPMEM - l_addr l) else 0 in
  if 0 <? t then
    (* If the board doesn't have that much, grab as much as we can. *)
    let t := if l_tot l <? t then l_tot l else t in
    (* Create, initialize and enable the low-memory mapping. *)
    let dev := set_low_mapping
                 (mem_mapping_add (l_addr l) t RamHandlers
                    (flag_set (flags dev) FLAG_WIDE) (Some (l_ptr l))) dev in
    (* Tell the memory system this is external RAM. *)
    let h := mem_set_mem_state (l_addr l) t (l_host l) in
    (* Update pointers. *)
    mkLayout dev h (l_k l) (uint32 (l_tot l - t)) (uint32 (l_addr l + t)) (l_ptr l + t)
  else l.

(** Skip to high memory if needed: the next 384K go into the shared remap
    window. *)
Definition carve_uma (l : layout) : layout :=
  if (l_addr l =? RAM_TOPMEM) && (RAM_UMAMEM <=? l_tot l) then
    let t := RAM_UMAMEM in
    (* Update and enable the remap ([mem_mapping_del] drops the window's
       previous registration, which the new one replaces). *)
    let m := mem_mapping_add (l_addr l + l_tot l) t RamHandlers true (Some (l_ptr l)) in
    let m := mem_mapping_set_exec m (Some (l_ptr l)) in
    let m := mem_mapping_disable m in
    let h := set_remapped m (l_host l) in
    (* Tell the memory system this is external RAM. *)
    let h := mem_set_mem_state (l_addr l + l_tot l) t h in
    (* Update pointers. *)
    mkLayout (l_dev l) h (l_k l) (uint32 (l_tot l - t)) (uint32 (l_addr l + t)) (l_ptr l + t)
  else l.

(** The block guarded by [addr > 0 && tot > 0]. *)
Definition carve_conventional (l : layout) : layout :=
  if (0 <? l_addr l) && (0 <? l_tot l) then
    (* Adjust K for the RAM we will use. *)
    let l := mkLayout (l_dev l) (l_host l) (uint32 (l_k l - l_tot l))
               (l_tot l) (l_addr l) (l_ptr l) in
    carve_uma (carve_low l)
  else l.

(** Next, on systems that support it (80286 and up), add the rest as
    Extended Memory. *)
Definition carve_high (AT : bool) (l : layout) : layout :=
  if AT && (0 <? l_addr l) && (0 <? l_tot l) then
    let t := l_tot l in
    (* Create, initialize and enable the high-memory mapping. *)
    let dev := set_high_mapping
                 (mem_mapping_add (l_addr l) t RamHandlers true (Some (l_ptr l)))
                 (l_dev l) in
    (* Tell the memory system this is external RAM. *)
    let h := mem_set_mem_state (l_addr l) t (l_host l) in
    (* Update pointers. *)
    mkLayout dev h (l_k l) (uint32 (l_tot l - t)) (uint32 (l_addr l + t)) (l_ptr l + t)
  else l.

(** One round of the loop over the viewports: create, initialize and
    disable the page mapping, and set up the I/O port handler. *)
Definition ems_setup_page (ptr : Z) (dh : memdev * host) (i : Z) : memdev * host :=
  let '(dev, h) := dh in
  let m := mem_mapping_add (frame_addr dev + EMS_PGSIZE * i) EMS_PGSIZE EmsHandlers
             (flag_set (flags dev) FLAG_WIDE) (Some ptr) in
  (* For now, disable it. *)
  let m := mem_mapping_disable m in
  let dev := set_ems i (set_mapping m (ems dev i)) dev in
  (* Set up an I/O port handler. *)
  let h := io_sethandler (base_addr dev + EMS_PGSIZE * i) 2 h in
  (dev, h).

(** If EMS is enabled, use the remainder for EMS. *)
Definition setup_ems (l : layout) : memdev * host :=
  let dev := l_dev l in
  if flag_set (flags dev) FLAG_EMS then
    (* EMS 3.2 cannot have more than 2048KB per board. *)
    let t := l_k l in
    let t := if EMS_MAXSIZE <? t then EMS_MAXSIZE else t in
    (* Set up where EMS begins in local RAM, and how much we have. *)
    let dev := set_ems_info (uint32 (l_ptr l)) (uint16 (Z.shiftr t 10))
                 (uint16 (t / EMS_PGSIZE)) dev in
    fold_left (ems_setup_page (l_ptr l)) [0; 1; 2; 3] (dev, l_host l)
  else (dev, l_host l).

(** [isamem_init] up to the allocation of the RAM: the locals with which the
    RAM is then handed out.  [AT] is the host's machine-class macro, [local]
    the board type of the catalog entry ([info->local]). *)
Definition init_board (AT : bool) (local : Z) (cfg : config) (h : host) : layout :=
  (* Do per-board initialization. *)
  let '(dev, tot) := board_setup local cfg in
  (* Fix up the memory start address. *)
  let dev := set_start_addr (uint32 (Z.shiftl (start_addr dev) 10)) dev in
  (* Force (back to) 8-bit bus if needed. *)
  let dev := if negb AT && flag_set (flags dev) FLAG_WIDE
             then set_flags (Z.land (flags dev) (Z.lnot FLAG_WIDE)) dev
             else dev in
  (* Allocate and initialize our RAM ([total_size] has 16 bits, the shift
     is done on [int] and does not overflow). *)
  let k := Z.shiftl (total_size dev) 10 in
  let dev := set_ram (calloc k) dev in
  let ptr := 0 in
  let tot := uint32 (Z.shiftl tot 10) in
  let addr := start_addr dev in
  mkLayout dev h k tot addr ptr.

(** Initialize the device for use. *)
Definition isamem_init (AT : bool) (local : Z) (cfg : config) (h : host) : memdev * host :=
  let l := init_board AT local cfg h in
  let l := carve_conventional l in
  let l := carve_high AT l in
  setup_ems l.

(** The host before any board is attached. *)
Definition host_empty : host := mkHost mapping_zero [] [].

(** ** Viewport state, device histories and example boards *)

(** The viewport register's state, the [enabled] field that [ems_read]
    reports in bit 7. *)
Definition viewport_enabled (d : memdev) (i : Z) : bool := nonzero (enabled (ems d i)).

(** The state of the viewport's mapped 16 KB window in the host. *)
Definition window_enabled (d : memdev) (i : Z) : bool := map_enable (mapping (ems d i)).

(** What every register of a device satisfies after [isamem_init] and any
    accesses: the page number has 7 bits, and a window that routes guest
    accesses belongs to a configured board, shows an existing page, and is
    bound to that page's address. *)
Definition reg_ok (d : memdev) (r : emsreg) : Prop :=
  0 <= page r < 128 /\
  (map_enable (mapping r) = true ->
     configured d = true /\ page r < ems_pages d /\ nonzero (enabled r) = true /\
     addr r = Some (ems_start d + page r * EMS_PGSIZE) /\
     map_exec (mapping r) = addr r).

Definition viewports_ok (d : memdev) : Prop := forall i, reg_ok d (ems d i).

(** An Everex EV-159 option set: size, start, contiguous length (KB), EMS
    mode and I/O base; 8-bit, standard speed. *)
Definition ev159_cfg (size start length ems base : Z) : config :=
  mkConfig size start length 0 0 ems base 0.

(** ** Sizes of a layout *)

(** The allocated RAM in bytes ([k] as first computed). *)
Definition ram_bytes (AT : bool) (local : Z) (cfg : config) : Z :=
  l_k (init_board AT local cfg host_empty).

(** The contiguous-RAM amount in bytes ([tot] after [tot <<= 10]): the
    board size, or the "length" option on the EV-159. *)
Definition tot_bytes (AT : bool) (local : Z) (cfg : config) : Z :=
  l_tot (init_board AT local cfg host_empty).

(** The condition of the block that hands out contiguous RAM. *)
Definition carving (AT : bool) (local : Z) (cfg : config) : bool :=
  (0 <? l_addr (init_board AT local cfg host_empty)) && (0 <? tot_bytes AT local cfg).

(** The contiguous amount does not exceed the board's RAM. *)
Definition contiguous_fits (AT : bool) (local : Z) (cfg : config) : Prop :=
  tot_bytes AT local cfg <= ram_bytes AT local cfg.

(** What [isamem_init] leaves for EMS by design: the RAM minus the whole
    contiguous amount when RAM is handed out, all of it otherwise. *)
Definition reserved_pool_bytes (AT : bool) (local : Z) (cfg : config) : Z :=
  if carving AT local cfg
  then ram_bytes AT local cfg - tot_bytes AT local cfg
  else ram_bytes AT local cfg.

(** The bounds a mapped region has to respect to lie in [K] bytes of RAM. *)
Definition region_ok (K : Z) (m : mem_mapping) : Prop :=
  0 <= map_base m /\ 0 <= map_size m <= K.

(** While RAM is handed out: [ptr] bytes are used, [tot] are still to map,
    of [T] in all, and the regions registered so far fit in [K] bytes. *)
Definition carved (K T : Z) (l : layout) : Prop :=
  0 <= l_tot l /\ 0 <= l_ptr l /\ l_ptr l + l_tot l = T /\
  0 <= l_addr l < 4294967296 /\
  region_ok K (low_mapping (l_dev l)) /\ region_ok K (high_mapping (l_dev l)).

(** Two devices that differ in their two plain mappings at most. *)
Definition same_board (d d' : memdev) : Prop :=
  board d' = board d /\ flags d' = flags d /\ total_size d' = total_size d /\
  base_addr d' = base_addr d /\ start_addr d' = start_addr d /\
  frame_addr d' = frame_addr d /\ ems_size d' = ems_size d /\
  ems_pages d' = ems_pages d /\ ems_start d' = ems_start d /\
  ram d' = ram d /\ ems d' = ems d.

(** ** Statements about the viewport registers *)

(** A freshly attached EV-159 with 512 KB, all of it EMS, at I/O base 258H
    (the catalog's default base); the driver has not configured it yet. *)
Definition ev159_fresh : memdev :=
  fst (isamem_init false 10 (ev159_cfg 512 0 0 1 0x258) host_empty).

(** "A viewport is enabled only if the board is configured and its selected
    page exists", read on the viewport register's [enabled] state. *)
Definition enabled_only_if_valid (d : memdev) : Prop :=
  forall i, viewport_enabled d i = true ->
    configured d = true /\ page (ems d i) < ems_pages d.

(** "A page-select write before the board is configured leaves the viewport
    disabled, whatever the enable bit asks for." *)
Definition unconfigured_write_disables (d : memdev) (port val : Z) : Prop :=
  configured d = false -> port_reg port d = 0 ->
  viewport_enabled (ems_write port val d) (port_vpage port) = false.

(** "The access to port (base + i*16384 + o) mod 65536 is decoded to
    viewport i and register o." *)
Definition decodes (d : memdev) (i o : Z) : Prop :=
  let port := uint16 (base_addr d + EMS_PGSIZE * i + o) in
  port_vpage port = i /\ port_reg port d = o.

(** The two cases in which the specification's page-select write forces
    the viewport disabled: the board is not configured yet, or the page
    does not exist. *)
Definition spec_forced_disabled (d : memdev) (val : Z) : bool :=
  negb (configured d) || (ems_pages d <=? Z.land val 0x7f).

(** ** Statements about the layout *)

(** The RAM-buffer bytes remaining once conventional, remap-window and
    extended RAM are handed out: the buffer minus the bytes [ptr] has
    advanced over, which [isamem_init] records as [ems_start]. *)
Definition remaining_after_carving (d : memdev) : Z :=
  buf_size (ram d) - ems_start d.


(** "The EMS pool lies within the allocated RAM buffer." *)
Definition pool_in_ram (d : memdev) : Prop :=
  ems_start d + ems_pages d * EMS_PGSIZE <= total_size d * 1024.

(** Scenario A: the conventional extension [262144, 655360) is plain RAM,
    there is no extended region, and with EMS enabled there are 40 pages. *)
Definition scenario_A (d : memdev) : Prop :=
  map_enable (low_mapping d) = true /\
  map_base (low_mapping d) = 262144 /\ map_size (low_mapping d) = 393216 /\
  map_handlers (low_mapping d) = RamHandlers /\
  high_mapping d = mapping_zero /\
  (flag_set (flags d) FLAG_EMS = true -> ems_pages d = 40).

(** The window of viewport [i] as Scenario B expects it: 16 KB at
    [frame + i*16384], registered with the paged handlers and disabled. *)
Definition window_at (frame : Z) (d : memdev) (i : Z) : Prop :=
  map_base (mapping (ems d i)) = frame + EMS_PGSIZE * i /\
  map_size (mapping (ems d i)) = EMS_PGSIZE /\
  map_handlers (mapping (ems d i)) = EmsHandlers /\
  window_enabled d i = false /\ viewport_enabled d i = false.

(** ** Device histories *)

(** One step of a device's life after [isamem_init]: a register access, or
    a byte or word written through a plain or a paged translator. *)
Inductive step : memdev -> memdev -> Prop :=
| step_io op d : step d (fst (io_step op d))
| step_ram_writeb a v m d d' : ram_writeb a v m d = Some d' -> step d d'
| step_ram_writew a v m d d' : ram_writew a v m d = Some d' -> step d d'
| step_ems_writeb a v m d d' : ems_writeb a v m d = Some d' -> step d d'
| step_ems_writew a v m d d' : ems_writew a v m d = Some d' -> step d d'.

Inductive reachable (d0 : memdev) : memdev -> Prop :=
| reach_init : reachable d0 d0
| reach_step d d' : reachable d0 d -> step d d' -> reachable d0 d'.

(** What no step changes: the configuration, the pool, the plain mappings,
    the size of the RAM and the place of the viewport windows. *)
Definition same_layout (d0 d : memdev) : Prop :=
  base_addr d = base_addr d0 /\ frame_addr d = frame_addr d0 /\
  total_size d = total_size d0 /\
  ems_pages d = ems_pages d0 /\ ems_start d = ems_start d0 /\
  low_mapping d = low_mapping d0 /\ high_mapping d = high_mapping d0 /\
  buf_size (ram d) = buf_size (ram d0) /\
  (forall i, map_base (mapping (ems d i)) = map_base (mapping (ems d0 i)) /\
             map_size (mapping (ems d i)) = map_size (mapping (ems d0 i))).

(** ** Detaching a board: [isamem_close] *)

Fixpoint remove_first (e : Z * Z) (l : list (Z * Z)) : list (Z * Z) :=
  match l with
  | [] => []
  | x :: r =>
      if (fst x =? fst e) && (snd x =? snd e) then r else x :: remove_first e r
  end.

(** Modelled from the spec: the host's I/O [unregister] matching
    [io_sethandler] ([io_removehandler]); it takes the latest registration
    of that port base and count out of the table. *)
Definition io_removehandler (base count : Z) (h : host) : host :=
  mkHost (ram_remapped_mapping h) (mem_state h)
    (remove_first (uint16 base, count) (io_handlers h)).

(** Remove the device from the system: what is left is the host (the RAM
    and the device structure are freed). *)
Definition isamem_close (dev : memdev) (h : host) : host :=
  if flag_set (flags dev) FLAG_EMS then
    fold_left (fun h i => io_removehandler (base_addr dev + EMS_PGSIZE * i) 2 h)
      [0; 1; 2; 3] h
  else h.

(** ** The board catalog *)

(** The fields of the host's [device_t] the catalog functions read. *)
Record device : Type := mkDevice {
  dev_name : string;
  dev_local : Z
}.

Definition ibmxt_device : device := mkDevice "IBM PC/XT Memory Expansion" 0.
Definition ibmat_device : device := mkDevice "IBM PC/AT Memory Expansion" 1.
Definition p5pak_device : device := mkDevice "Paradise Systems 5-PAK" 2.
Definition ems5150_device : device := mkDevice "Micro Mainframe EMS-5150(T)" 3.
Definition ev159_device : device := mkDevice "Everex EV-159 RAM 3000 Deluxe" 10.

(** One line of [boards]: the internal name and the device, either of which
    can be NULL. *)
Definition board_entry : Type := (option string * option device)%type.

(** [boards], as built without the optional BRAT, RAMpage and IAB boards;
    the last line is the terminator. *)
Definition boards : list board_entry :=
  [ (Some "none"%string, None);
    (Some "ibmxt"%string, Some ibmxt_device);
    (Some "ibmat"%string, Some ibmat_device);
    (Some "p5pak"%string, Some p5pak_device);
    (Some "ems5150"%string, Some ems5150_device);
    (Some "ev159"%string, Some ev159_device);
    (None, None) ].

(** [tbl[board]]; [None] is an index outside the array, which C leaves
    undefined. *)
Definition table_at (tbl : list board_entry) (board : Z) : option board_entry :=
  if board <? 0 then None else nth_error tbl (Z.to_nat board).

(** [isamem_get_name]: the result of a defined call is the device's name,
    or NULL ([None]) when the line has no device. *)
Definition isamem_get_name (board : Z) : option (option string) :=
  match table_at boards board with
  | Some (_, None) => Some None
  | Some (_, Some dev) => Some (Some (dev_name dev))
  | None => None
  end.

(** [isamem_get_internal_name] *)
Definition isamem_get_internal_name (board : Z) : option (option string) :=
  option_map fst (table_at boards board).

(** [isamem_get_device] *)
Definition isamem_get_device (board : Z) : option (option device) :=
  option_map snd (table_at boards board).

(** The loop of [isamem_get_from_internal_name] from line [c] of the table
    on; running off a table without terminator is undefined ([None]). *)
Fixpoint find_internal_name (s : string) (tbl : list board_entry) (c : Z) : option Z :=
  match tbl with
  | [] => None
  | (None, _) :: _ => Some 0            (* Not found. *)
  | (Some n, _) :: rest =>
      if String.eqb n s then Some c else find_internal_name s rest (c + 1)
  end.

(** [isamem_get_from_internal_name] *)
Definition isamem_get_from_internal_name (s : string) : option Z :=
  find_internal_name s boards 0.

(** The "base" selections of the EMS-5150 and of the EV-159 option tables. *)
Definition ems5150_bases : list Z := [0; 0x0208; 0x020a; 0x020c; 0x020e].
Definition ev159_bases : list Z :=
  [0x0208; 0x0218; 0x0258; 0x0268; 0x02A8; 0x02B8; 0x02E8].

(** * Properties

    From here on: lemmas about the definitions above, and the theorems on
    the layout, the viewport registers and the translators. *)

(** * Facts about the integer conversions and bit operations *)

Lemma uint8_range x : 0 <= uint8 x < 256.
Proof. unfold uint8. apply Z.mod_pos_bound. lia. Qed.

Lemma uint16_range x : 0 <= uint16 x < 65536.
Proof. unfold uint16. apply Z.mod_pos_bound. lia. Qed.

Lemma uint32_range x : 0 <= uint32 x < 4294967296.
Proof. unfold uint32. apply Z.mod_pos_bound. lia. Qed.

Lemma uint8_small x : 0 <= x < 256 -> uint8 x = x.
Proof. intros H. unfold uint8. apply Z.mod_small. exact H. Qed.

Lemma uint16_small x : 0 <= x < 65536 -> uint16 x = x.
Proof. intros H. unfold uint16. apply Z.mod_small. exact H. Qed.

Lemma uint32_small x : 0 <= x < 4294967296 -> uint32 x = x.
Proof. intros H. unfold uint32. apply Z.mod_small. exact H. Qed.

Lemma land_7f_mod v : Z.land v 0x7f = v mod 128.
Proof. change 0x7f with (Z.ones 7). rewrite Z.land_ones by lia. reflexivity. Qed.

Lemma land_7f_range v : 0 <= Z.land v 0x7f < 128.
Proof. rewrite land_7f_mod. apply Z.mod_pos_bound. lia. Qed.

Lemma land_pow2_cases f k : 0 <= k -> Z.land f (2 ^ k) = if Z.testbit f k then 2 ^ k else 0.
Proof.
  intros Hk. apply Z.bits_inj'. intros n Hn.
  rewrite Z.land_spec, Z.pow2_bits_eqb by lia.
  destruct (Z.eqb_spec k n) as [<- | Hne].
  - rewrite andb_true_r. destruct (Z.testbit f k).
    + symmetry. apply Z.pow2_bits_true. lia.
    + symmetry. apply Z.bits_0.
  - rewrite andb_false_r. destruct (Z.testbit f k).
    + symmetry. apply Z.pow2_bits_false. exact Hne.
    + symmetry. apply Z.bits_0.
Qed.

Lemma land_80_cases v : Z.land v 0x80 = if Z.testbit v 7 then 0x80 else 0.
Proof. exact (land_pow2_cases v 7 ltac:(lia)). Qed.

Lemma nonzero_int8_enable v : nonzero (int8 (Z.land v 0x80)) = Z.testbit v 7.
Proof. rewrite land_80_cases. destruct (Z.testbit v 7); reflexivity. Qed.

Lemma lor_80_small p : 0 <= p < 128 -> Z.lor p 0x80 = p + 128.
Proof.
  intros Hp.
  assert (Hl : Z.land p 0x80 = 0).
  { rewrite land_80_cases.
    replace (Z.testbit p 7) with false; [reflexivity|].
    symmetry. apply Z.testbit_false; [lia|].
    rewrite Z.div_small by (change (2 ^ 7) with 128; lia). reflexivity. }
  rewrite (Z.add_nocarry_lxor _ _ Hl). symmetry. apply Z.lxor_lor. exact Hl.
Qed.

Lemma testbit7_small p : 0 <= p < 128 -> Z.testbit p 7 = false.
Proof.
  intros Hp. apply Z.testbit_false; [lia|].
  rewrite Z.div_small by (change (2 ^ 7) with 128; lia). reflexivity.
Qed.

Lemma flag_set_testbit f k : 0 <= k -> flag_set f (2 ^ k) = Z.testbit f k.
Proof.
  intros Hk. unfold flag_set, nonzero. rewrite land_pow2_cases by exact Hk.
  destruct (Z.testbit f k).
  - assert (0 < 2 ^ k) by (apply Z.pow_pos_nonneg; lia).
    destruct (Z.eqb_spec (2 ^ k) 0); [lia | reflexivity].
  - reflexivity.
Qed.

Lemma configured_testbit d : configured d = Z.testbit (flags d) 0.
Proof. unfold configured. change FLAG_CONFIG with (2 ^ 0). apply flag_set_testbit. lia. Qed.

Lemma testbit_or_flag f F k : 0 <= k < 8 ->
  Z.testbit (uint8 (Z.lor f F)) k = Z.testbit f k || Z.testbit F k.
Proof.
  intros Hk. unfold uint8. change 256 with (2 ^ 8).
  rewrite Z.mod_pow2_bits_low by lia. apply Z.lor_spec.
Qed.

(** * The register handlers *)

Section Registers.

Variables (port val : Z) (d : memdev).

(** [ems_write] touches the flags and the viewport registers only. *)
Lemma ems_write_frame :
  base_addr (ems_write port val d) = base_addr d /\
  frame_addr (ems_write port val d) = frame_addr d /\
  ems_pages (ems_write port val d) = ems_pages d /\
  ems_start (ems_write port val d) = ems_start d /\
  total_size (ems_write port val d) = total_size d /\
  ram (ems_write port val d) = ram d /\
  low_mapping (ems_write port val d) = low_mapping d /\
  high_mapping (ems_write port val d) = high_mapping d.
Proof.
  unfold ems_write.
  destruct (port_reg port d) as [|[?|?|]|?]; try (cbn; tauto);
    destruct (nonzero val); cbn; tauto.
Qed.

Lemma ems_write_page_select : port_reg port d = 0 ->
  ems_write port val d =
  set_ems (port_vpage port) (page_select_write val d (ems d (port_vpage port))) d.
Proof. intros H. unfold ems_write. rewrite H. reflexivity. Qed.

Lemma ems_write_frame_config : port_reg port d = 1 ->
  ems_write port val d =
  let dev := set_ems (port_vpage port) (set_frame val (ems d (port_vpage port))) d in
  if nonzero val then set_flags (uint8 (Z.lor (flags dev) FLAG_CONFIG)) dev else dev.
Proof. intros H. unfold ems_write. rewrite H. reflexivity. Qed.

Lemma ems_write_other : port_reg port d <> 0 -> port_reg port d <> 1 ->
  ems_write port val d = d.
Proof.
  intros H0 H1. unfold ems_write.
  destruct (port_reg port d) as [|[?|?|]|?]; congruence.
Qed.

(** Once set, the configured flag stays set. *)
Lemma ems_write_configured :
  configured d = true -> configured (ems_write port val d) = true.
Proof.
  intros Hc. unfold ems_write.
  destruct (port_reg port d) as [|[?|?|]|?]; try exact Hc.
  destruct (nonzero val); [|exact Hc].
  rewrite configured_testbit in *. cbn [flags set_flags set_ems].
  rewrite testbit_or_flag by lia. rewrite Hc. reflexivity.
Qed.

End Registers.

Ltac reg_simpl :=
  cbn [enabled page frame addr mapping set_enabled set_page set_frame set_addr
       set_mapping map_enable map_exec map_base map_size mem_mapping_enable
       mem_mapping_disable mem_mapping_set_exec] in *.

(** The page-select write keeps a register well-formed. *)
Lemma page_select_write_ok val d r : reg_ok d r -> reg_ok d (page_select_write val d r).
Proof.
  intros [Hp Hw]. unfold page_select_write, reg_ok.
  pose proof (land_7f_range val) as Hr.
  assert (Hu : uint8 (Z.land val 0x7f) = Z.land val 0x7f) by (apply uint8_small; lia).
  destruct (configured d) eqn:Hc.
  - reg_simpl. rewrite Hu.
    destruct (Z.ltb_spec (Z.land val 0x7f) (ems_pages d)) as [Hlt | Hge].
    + reg_simpl.
      destruct (nonzero (int8 (Z.land val 128))) eqn:He; reg_simpl.
      * split; [exact Hr|]. intros _. repeat split; auto.
      * split; [exact Hr|]. discriminate.
    + reg_simpl. change (nonzero 0) with false. cbv iota. reg_simpl.
      split; [exact Hr|]. discriminate.
  - reg_simpl. rewrite Hu. split; [exact Hr|].
    intros Hen. destruct (Hw Hen) as [Hc' _]. congruence.
Qed.

Lemma reg_ok_configured d d' r :
  (configured d = true -> configured d' = true) ->
  ems_pages d' = ems_pages d -> ems_start d' = ems_start d ->
  reg_ok d r -> reg_ok d' r.
Proof.
  intros Hc Hp Hs [H1 H2]. split; [exact H1|].
  intros He. destruct (H2 He) as (A & B & C & D & E).
  rewrite Hp, Hs. auto.
Qed.

(** Every register write keeps the viewports well-formed. *)
Lemma ems_write_ok port val d : viewports_ok d -> viewports_ok (ems_write port val d).
Proof.
  intros Hok i.
  destruct (Z.eq_dec (port_reg port d) 0) as [H0 | H0].
  - rewrite ems_write_page_select by exact H0. cbn [ems set_ems].
    destruct (i =? port_vpage port).
    + apply (reg_ok_configured d); auto. apply page_select_write_ok, Hok.
    + apply (reg_ok_configured d); auto.
  - destruct (Z.eq_dec (port_reg port d) 1) as [H1 | H1].
    + pose proof (ems_write_configured port val d) as Hc.
      rewrite ems_write_frame_config in * by exact H1. cbv zeta in *.
      assert (Hr : forall r, reg_ok d r -> reg_ok d (set_frame val r)).
      { intros r Hr. exact Hr. }
      destruct (nonzero val); cbn [ems set_ems set_flags] in *;
        (destruct (i =? port_vpage port);
         [apply (reg_ok_configured d); auto; apply Hr, Hok
         |apply (reg_ok_configured d); auto]).
    + rewrite ems_write_other by assumption. apply Hok.
Qed.

Lemma io_step_ok op d : viewports_ok d -> viewports_ok (fst (io_step op d)).
Proof. destruct op; cbn; [auto | apply ems_write_ok]. Qed.

Lemma run_io_ok ops : forall d, viewports_ok d -> viewports_ok (run_io ops d).
Proof.
  unfold run_io. induction ops as [|op ops IH]; intros d Hd; cbn.
  - exact Hd.
  - apply IH, io_step_ok, Hd.
Qed.

(** * Layout construction *)

Ltac dev_simpl :=
  cbv beta iota zeta delta
    [or_flag set_board set_flags set_total_size set_base_addr set_start_addr
     set_frame_addr set_ems_info set_ram set_low_mapping set_high_mapping set_ems
     board flags total_size base_addr start_addr frame_addr ems_size ems_pages
     ems_start ram low_mapping high_mapping ems
     l_dev l_host l_k l_tot l_addr l_ptr fst snd] in *.

(** Case analysis on the board type that [board_setup] switches on. *)
Ltac board_cases b :=
  destruct b as [|p|p];
  [ | do 4 (try (destruct p as [p|p|])) | ].

(** What the per-board initialization leaves in the device: a 16-bit size,
    32-bit addresses, 8-bit flags, and nothing else touched. *)
Lemma board_setup_shape local cfg :
  exists f ts ba sa fa tot,
    board_setup local cfg =
      (mkMemdev (Z.land local 63) f ts ba sa fa 0 0 0 (calloc 0)
         mapping_zero mapping_zero (fun _ => emsreg_zero), tot) /\
    0 <= f < 256 /\ 0 <= ts < 65536 /\ 0 <= sa < 4294967296 /\
    0 <= tot < 4294967296 /\ 0 <= ba < 4294967296.
Proof.
  unfold board_setup, memdev_zero. dev_simpl.
  pose proof (uint32_range (cfg_base cfg)) as Hb.
  pose proof (uint16_range (cfg_size cfg)) as Hs.
  pose proof (uint32_range (cfg_start cfg)) as Ha.
  pose proof (uint32_range (cfg_length cfg)) as Hl.
  board_cases (Z.land local 63); dev_simpl;
    try (destruct (nonzero (cfg_width cfg)));
    try (destruct (nonzero (cfg_speed cfg)));
    try (destruct (nonzero (cfg_ems cfg)));
    dev_simpl;
    do 6 eexists; (split; [reflexivity|]);
    repeat apply conj;
    first [ lia | apply uint8_range | apply Z.lt_le_incl, uint8_range
          | apply uint32_range | apply Z.lt_le_incl, uint32_range ].
Qed.

Ltac consts :=
  unfold RAM_TOPMEM, RAM_UMAMEM, RAM_EXTMEM, EMS_MAXSIZE, EMS_PGSIZE, EMS_MAXPAGE in *.

(** Drop the 32-bit wrap-around where the value is in range. *)
Ltac u32 :=
  repeat match goal with
         | |- context [uint32 ?x] => rewrite (uint32_small x) by lia
         | H : context [uint32 ?x] |- _ => rewrite (uint32_small x) in H by lia
         end.

Ltac map_simpl :=
  unfold mem_mapping_add, mem_mapping_disable, mem_mapping_enable,
         mem_mapping_set_exec, mem_set_mem_state, io_sethandler, set_remapped in *;
  cbn [map_enable map_base map_size map_handlers map_word map_exec
       ram_remapped_mapping mem_state io_handlers] in *.

Lemma same_board_refl d : same_board d d.
Proof. unfold same_board. tauto. Qed.

Lemma same_board_trans d1 d2 d3 : same_board d1 d2 -> same_board d2 d3 -> same_board d1 d3.
Proof.
  unfold same_board. intros H1 H2.
  destruct H1 as (A1 & A2 & A3 & A4 & A5 & A6 & A7 & A8 & A9 & A10 & A11).
  destruct H2 as (B1 & B2 & B3 & B4 & B5 & B6 & B7 & B8 & B9 & B10 & B11).
  repeat split; congruence.
Qed.

Section Carving.

Variables K T : Z.
Hypothesis HT : 0 <= T <= K.
Hypothesis HK : K < 4294967296.

Lemma carve_low_carved l : carved K T l -> carved K T (carve_low l).
Proof.
  unfold carved, region_ok, carve_low. intros (H1 & H2 & H3 & H4 & H5 & H6).
  consts.
  destruct (Z.ltb_spec (l_addr l) 655360) as [Hlo | Hhi].
  - rewrite (uint32_small (655360 - l_addr l)) by lia.
    destruct (Z.ltb_spec 0 (655360 - l_addr l)); [|tauto].
    destruct (Z.ltb_spec (l_tot l) (655360 - l_addr l));
      dev_simpl; map_simpl; u32; repeat split; lia.
  - cbn. tauto.
Qed.

Lemma carve_uma_carved l : carved K T l -> carved K T (carve_uma l).
Proof.
  unfold carved, region_ok, carve_uma. intros (H1 & H2 & H3 & H4 & H5 & H6).
  consts.
  destruct (Z.eqb_spec (l_addr l) 655360) as [He | Hne]; cbn [andb]; [|tauto].
  destruct (Z.leb_spec 393216 (l_tot l)); [|tauto].
  dev_simpl. u32. repeat split; lia.
Qed.

Lemma carve_conventional_carved l :
  carved K T l -> carved K T (carve_conventional l).
Proof.
  intros H. unfold carve_conventional.
  destruct ((0 <? l_addr l) && (0 <? l_tot l)); [|exact H].
  apply carve_uma_carved, carve_low_carved. exact H.
Qed.

Lemma carve_high_carved AT l : carved K T l -> carved K T (carve_high AT l).
Proof.
  unfold carved, region_ok, carve_high. intros (H1 & H2 & H3 & H4 & H5 & H6).
  destruct (AT && (0 <? l_addr l) && (0 <? l_tot l)); [|tauto].
  dev_simpl. map_simpl.
  rewrite Z.sub_diag. change (uint32 0) with 0.
  match goal with
  | |- context [uint32 (?a + ?b)] => pose proof (uint32_range (a + b))
  end.
  u32. repeat split; lia.
Qed.

End Carving.

(** The stages leave the rest of the device alone. *)
Lemma carve_low_same l : same_board (l_dev l) (l_dev (carve_low l)) /\
  l_k (carve_low l) = l_k l /\
  io_handlers (l_host (carve_low l)) = io_handlers (l_host l).
Proof.
  unfold carve_low.
  destruct (0 <? _); dev_simpl; unfold same_board; dev_simpl; tauto.
Qed.

Lemma carve_uma_same l : l_dev (carve_uma l) = l_dev l /\
  l_k (carve_uma l) = l_k l /\
  io_handlers (l_host (carve_uma l)) = io_handlers (l_host l).
Proof.
  unfold carve_uma. destruct (_ && _); dev_simpl; tauto.
Qed.

Lemma carve_high_same AT l : same_board (l_dev l) (l_dev (carve_high AT l)) /\
  l_k (carve_high AT l) = l_k l /\
  io_handlers (l_host (carve_high AT l)) = io_handlers (l_host l).
Proof.
  unfold carve_high.
  destruct (_ && _); dev_simpl; unfold same_board; dev_simpl; tauto.
Qed.

Lemma carve_low_addr_pos l :
  0 <= l_tot l -> 0 < l_addr l < 4294967296 -> 0 < l_addr (carve_low l).
Proof.
  unfold carve_low. intros Ht Ha. consts.
  destruct (Z.ltb_spec (l_addr l) 655360) as [Hlo | Hhi].
  - rewrite (uint32_small (655360 - l_addr l)) by lia.
    destruct (Z.ltb_spec 0 (655360 - l_addr l)); [|lia].
    destruct (Z.ltb_spec (l_tot l) (655360 - l_addr l)); dev_simpl; u32; lia.
  - cbn. lia.
Qed.

Lemma carve_uma_addr_pos l : 0 < l_addr l -> 0 < l_addr (carve_uma l).
Proof.
  unfold carve_uma. intros Ha. consts.
  destruct (Z.eqb_spec (l_addr l) 655360) as [He | Hne]; cbn [andb]; [|exact Ha].
  destruct (393216 <=? l_tot l); [|exact Ha].
  dev_simpl. rewrite He. reflexivity.
Qed.

(** The locals when the RAM is about to be handed out. *)
Lemma init_board_shape AT local cfg h :
  exists f ts ba sa fa tot,
    init_board AT local cfg h =
      mkLayout (mkMemdev (Z.land local 63) f ts ba sa fa 0 0 0 (calloc (ts * 1024))
                  mapping_zero mapping_zero (fun _ => emsreg_zero))
        h (ts * 1024) tot sa 0 /\
    0 <= ts < 65536 /\ 0 <= sa < 4294967296 /\ 0 <= tot < 4294967296 /\
    0 <= ba < 4294967296.
Proof.
  unfold init_board.
  destruct (board_setup_shape local cfg)
    as (f & ts & ba & sa & fa & tot & E & Hf & Hts & Hsa & Htot & Hba).
  rewrite E. dev_simpl.
  destruct (negb AT && flag_set f FLAG_WIDE); dev_simpl;
    rewrite !Z.shiftl_mul_pow2 by lia; change (2 ^ 10) with 1024;
    do 6 eexists; (split; [reflexivity|]);
    pose proof (uint32_range (sa * 1024));
    pose proof (uint32_range (tot * 1024)); lia.
Qed.

Lemma init_board_host AT local cfg h h' :
  l_dev (init_board AT local cfg h) = l_dev (init_board AT local cfg h') /\
  l_k (init_board AT local cfg h) = l_k (init_board AT local cfg h') /\
  l_tot (init_board AT local cfg h) = l_tot (init_board AT local cfg h') /\
  l_addr (init_board AT local cfg h) = l_addr (init_board AT local cfg h') /\
  l_ptr (init_board AT local cfg h) = l_ptr (init_board AT local cfg h') /\
  l_host (init_board AT local cfg h) = h.
Proof. unfold init_board. destruct (board_setup local cfg). cbn. tauto. Qed.

(** The locals once conventional, remap-window and extended RAM are handed
    out, provided the contiguous amount fits in the board's RAM. *)
Lemma carve_bounds AT local cfg h :
  contiguous_fits AT local cfg ->
  let K := ram_bytes AT local cfg in
  let T := tot_bytes AT local cfg in
  let l0 := init_board AT local cfg h in
  let l2 := carve_high AT (carve_conventional l0) in
  carved K T l2 /\ same_board (l_dev l0) (l_dev l2) /\
  l_k l2 = reserved_pool_bytes AT local cfg /\
  io_handlers (l_host l2) = io_handlers h /\
  (carving AT local cfg = false -> l_ptr l2 = 0) /\
  (AT = true -> carving AT local cfg = true -> l_ptr l2 = T).
Proof.
  unfold contiguous_fits, reserved_pool_bytes, carving, ram_bytes, tot_bytes.
  destruct (init_board_host AT local cfg h host_empty) as (_ & <- & <- & <- & _ & Hh).
  destruct (init_board_shape AT local cfg h)
    as (f & ts & ba & sa & fa & tot & E & Hts & Hsa & Htot & _).
  rewrite E in *. cbn [l_k l_tot l_addr l_host] in *. clear E Hh.
  set (d0 := mkMemdev _ _ _ _ _ _ _ _ _ _ _ _ _).
  intros Hfit. cbv zeta.
  set (l0 := mkLayout d0 h (ts * 1024) tot sa 0).
  assert (HK : ts * 1024 < 4294967296) by lia.
  assert (HT : 0 <= tot <= ts * 1024) by lia.
  assert (C0 : carved (ts * 1024) tot l0).
  { unfold carved, region_ok. cbn. lia. }
  pose proof (carve_conventional_carved _ _ HT HK _ C0) as C1.
  pose proof (carve_high_carved _ _ HT HK AT _ C1) as C2.
  split; [exact C2|].
  destruct (carve_high_same AT (carve_conventional l0)) as (S2 & K2 & I2).
  assert (S1 : same_board d0 (l_dev (carve_conventional l0)) /\
               l_k (carve_conventional l0) =
                 (if (0 <? sa) && (0 <? tot) then ts * 1024 - tot else ts * 1024) /\
               io_handlers (l_host (carve_conventional l0)) = io_handlers h /\
               ((0 <? sa) && (0 <? tot) = false -> carve_conventional l0 = l0) /\
               ((0 <? sa) && (0 <? tot) = true -> 0 < l_addr (carve_conventional l0))).
  { unfold carve_conventional. subst l0. cbn [l_addr l_tot l_dev l_host l_k l_ptr].
    destruct ((0 <? sa) && (0 <? tot)) eqn:Hc.
    - rewrite (uint32_small (ts * 1024 - tot)) by lia.
      set (l1 := mkLayout d0 h (ts * 1024 - tot) tot sa 0).
      destruct (carve_uma_same (carve_low l1)) as (U1 & U2 & U3).
      destruct (carve_low_same l1) as (L1 & L2 & L3).
      rewrite U1, U2, U3, L2, L3. subst l1. cbn [l_dev l_k l_host].
      split; [exact L1|]. split; [reflexivity|]. split; [reflexivity|].
      split; [discriminate|].
      intros _. apply carve_uma_addr_pos, carve_low_addr_pos; cbn [l_tot l_addr]; [lia|].
      apply andb_true_iff in Hc. destruct Hc as [Hc _].
      apply Z.ltb_lt in Hc. lia.
    - split; [apply same_board_refl|]. split; [reflexivity|]. split; [reflexivity|].
      split; [reflexivity | discriminate]. }
  destruct S1 as (S1 & K1 & I1 & N1 & P1).
  split; [eapply same_board_trans; eassumption|].
  split; [congruence|]. split; [congruence|]. split.
  - intros Hc. rewrite (N1 Hc). unfold carve_high. subst l0. cbn [l_addr l_tot].
    rewrite <- andb_assoc, Hc, andb_false_r. reflexivity.
  - intros -> Hc. specialize (P1 Hc).
    destruct C1 as (A1 & A2 & A3 & A4 & _).
    unfold carve_high. cbn [andb].
    destruct (Z.ltb_spec 0 (l_addr (carve_conventional l0))); [|lia].
    cbn [andb].
    destruct (Z.ltb_spec 0 (l_tot (carve_conventional l0))); cbn [l_ptr]; lia.
Qed.

(** ** The EMS pool and the viewport windows *)

(** The window [setup_ems] registers for viewport [i]. *)
Lemma setup_ems_regs l : flag_set (flags (l_dev l)) FLAG_EMS = true ->
  forall i, 0 <= i < 4 ->
    ems (fst (setup_ems l)) i =
      set_mapping
        (mkMapping false (uint32 (frame_addr (l_dev l) + EMS_PGSIZE * i))
           (uint32 EMS_PGSIZE) EmsHandlers (flag_set (flags (l_dev l)) FLAG_WIDE)
           (Some (l_ptr l)))
        (ems (l_dev l) i).
Proof.
  intros He i Hi. unfold setup_ems. rewrite He.
  cbn [fold_left]. unfold ems_setup_page. dev_simpl. map_simpl.
  assert (Hc : i = 0 \/ i = 1 \/ i = 2 \/ i = 3) by lia.
  destruct Hc as [-> | [-> | [-> | ->]]]; reflexivity.
Qed.

Lemma setup_ems_other l : forall i, ~ 0 <= i < 4 ->
  ems (fst (setup_ems l)) i = ems (l_dev l) i.
Proof.
  intros i Hi. unfold setup_ems.
  destruct (flag_set (flags (l_dev l)) FLAG_EMS); [|reflexivity].
  cbn [fold_left]. unfold ems_setup_page. dev_simpl.
  destruct (Z.eqb_spec i 3); [lia|]. destruct (Z.eqb_spec i 2); [lia|].
  destruct (Z.eqb_spec i 1); [lia|]. destruct (Z.eqb_spec i 0); [lia|].
  reflexivity.
Qed.

(** What [setup_ems] records about the pool, and what it leaves alone. *)
Lemma setup_ems_info l : flag_set (flags (l_dev l)) FLAG_EMS = true ->
  let t := if EMS_MAXSIZE <? l_k l then EMS_MAXSIZE else l_k l in
  ems_start (fst (setup_ems l)) = uint32 (l_ptr l) /\
  ems_size (fst (setup_ems l)) = uint16 (Z.shiftr t 10) /\
  ems_pages (fst (setup_ems l)) = uint16 (t / EMS_PGSIZE) /\
  io_handlers (snd (setup_ems l)) =
    [ (uint16 (base_addr (l_dev l) + EMS_PGSIZE * 3), 2);
      (uint16 (base_addr (l_dev l) + EMS_PGSIZE * 2), 2);
      (uint16 (base_addr (l_dev l) + EMS_PGSIZE * 1), 2);
      (uint16 (base_addr (l_dev l) + EMS_PGSIZE * 0), 2) ] ++ io_handlers (l_host l).
Proof.
  intros He. unfold setup_ems. rewrite He.
  cbn [fold_left]. unfold ems_setup_page. dev_simpl. map_simpl.
  repeat split; reflexivity.
Qed.

Lemma setup_ems_off l : flag_set (flags (l_dev l)) FLAG_EMS = false ->
  setup_ems l = (l_dev l, l_host l).
Proof. intros He. unfold setup_ems. rewrite He. reflexivity. Qed.

Lemma setup_ems_same l :
  let d := fst (setup_ems l) in
  board d = board (l_dev l) /\ flags d = flags (l_dev l) /\
  total_size d = total_size (l_dev l) /\ base_addr d = base_addr (l_dev l) /\
  start_addr d = start_addr (l_dev l) /\ frame_addr d = frame_addr (l_dev l) /\
  ram d = ram (l_dev l) /\ low_mapping d = low_mapping (l_dev l) /\
  high_mapping d = high_mapping (l_dev l).
Proof.
  unfold setup_ems.
  destruct (flag_set (flags (l_dev l)) FLAG_EMS); cbn [fold_left];
    unfold ems_setup_page; dev_simpl; tauto.
Qed.

(** Only the EMS-5150 and the EV-159 ever have the EMS flag, and both have
    their frame on a 64 KB boundary. *)
Lemma init_board_ems AT local cfg h :
  let d := l_dev (init_board AT local cfg h) in
  flag_set (flags d) FLAG_EMS = true ->
  frame_addr d = 0xD0000 \/ frame_addr d = 0xE0000.
Proof.
  unfold init_board, board_setup, memdev_zero. dev_simpl.
  board_cases (Z.land local 63); dev_simpl;
    try (destruct (nonzero (cfg_width cfg)));
    try (destruct (nonzero (cfg_speed cfg)));
    try (destruct (nonzero (cfg_ems cfg)));
    dev_simpl;
    repeat match goal with
           | |- context [if ?b then _ else _] => destruct b; dev_simpl
           end;
    cbv zeta; dev_simpl; intros He; auto;
    try (exfalso; revert He; unfold flag_set, nonzero, FLAG_EMS, FLAG_WIDE, FLAG_FAST, uint8;
         vm_compute; discriminate).
Qed.

Lemma carve_conventional_same l :
  same_board (l_dev l) (l_dev (carve_conventional l)) /\
  io_handlers (l_host (carve_conventional l)) = io_handlers (l_host l).
Proof.
  unfold carve_conventional.
  destruct ((0 <? l_addr l) && (0 <? l_tot l)).
  - set (l1 := mkLayout _ _ _ _ _ _).
    destruct (carve_uma_same (carve_low l1)) as (U1 & _ & U3).
    destruct (carve_low_same l1) as (L1 & _ & L3).
    rewrite U1, U3, L3. split; [exact L1 | reflexivity].
  - split; [apply same_board_refl | reflexivity].
Qed.

Lemma carve_same AT l :
  same_board (l_dev l) (l_dev (carve_high AT (carve_conventional l))) /\
  io_handlers (l_host (carve_high AT (carve_conventional l))) = io_handlers (l_host l).
Proof.
  destruct (carve_conventional_same l) as (S1 & I1).
  destruct (carve_high_same AT (carve_conventional l)) as (S2 & _ & I2).
  split; [eapply same_board_trans; eassumption | congruence].
Qed.

(** The registers right after [isamem_init]: page 0, not enabled, no page
    address, and a window that does not route accesses. *)
Lemma isamem_init_regs AT local cfg h i :
  let r := ems (fst (isamem_init AT local cfg h)) i in
  enabled r = 0 /\ page r = 0 /\ frame r = 0 /\ addr r = None /\
  map_enable (mapping r) = false.
Proof.
  unfold isamem_init. cbv zeta.
  set (l0 := init_board AT local cfg h).
  set (l2 := carve_high AT (carve_conventional l0)).
  assert (E : ems (l_dev l2) = fun _ => emsreg_zero).
  { destruct (carve_same AT l0) as ((_ & _ & _ & _ & _ & _ & _ & _ & _ & _ & E) & _).
    fold l2 in E. rewrite E. subst l0.
    destruct (init_board_shape AT local cfg h) as (f & ts & ba & sa & fa & tot & E0 & _).
    rewrite E0. reflexivity. }
  destruct (Z_le_dec 0 i) as [H0 | H0]; [destruct (Z_lt_dec i 4) as [H4 | H4]|].
  - destruct (flag_set (flags (l_dev l2)) FLAG_EMS) eqn:He.
    + rewrite setup_ems_regs by (auto; lia). rewrite E. cbn. tauto.
    + rewrite setup_ems_off by exact He. cbn [fst]. rewrite E. cbn. tauto.
  - rewrite setup_ems_other by lia. rewrite E. cbn. tauto.
  - rewrite setup_ems_other by lia. rewrite E. cbn. tauto.
Qed.

Lemma isamem_init_ok AT local cfg h : viewports_ok (fst (isamem_init AT local cfg h)).
Proof.
  intros i. destruct (isamem_init_regs AT local cfg h i) as (_ & Hp & _ & _ & Hm).
  unfold reg_ok. rewrite Hp, Hm. split; [lia | discriminate].
Qed.

(** * The viewport registers: page select and frame configuration *)

Lemma port_reg_base p d d' : base_addr d' = base_addr d -> port_reg p d' = port_reg p d.
Proof. unfold port_reg. intros ->. reflexivity. Qed.

Lemma port_reg_ems_write p port val d : port_reg p (ems_write port val d) = port_reg p d.
Proof. apply port_reg_base. apply ems_write_frame. Qed.

Lemma run_io_base_addr ops : forall d, base_addr (run_io ops d) = base_addr d.
Proof.
  unfold run_io. induction ops as [|op ops IH]; intros d; cbn [fold_left]; [reflexivity|].
  rewrite IH. destruct op; cbn [io_step fst]; [reflexivity | apply ems_write_frame].
Qed.

(** The page of the written register after a page-select write, and its
    state and window in each of the three cases of the code. *)
Lemma page_select_write_cases val d r :
  let r' := page_select_write val d r in
  page r' = Z.land val 0x7f /\
  (configured d = false ->
     nonzero (enabled r') = Z.testbit val 7 /\ mapping r' = mapping r) /\
  (configured d = true -> ems_pages d <= Z.land val 0x7f ->
     nonzero (enabled r') = false /\ map_enable (mapping r') = false) /\
  (configured d = true -> Z.land val 0x7f < ems_pages d ->
     nonzero (enabled r') = Z.testbit val 7 /\
     map_enable (mapping r') = Z.testbit val 7 /\
     addr r' = Some (ems_start d + Z.land val 0x7f * EMS_PGSIZE) /\
     (Z.testbit val 7 = true -> map_exec (mapping r') = addr r')).
Proof.
  cbv zeta. unfold page_select_write.
  pose proof (land_7f_range val) as Hr.
  assert (Hu : uint8 (Z.land val 0x7f) = Z.land val 0x7f) by (apply uint8_small; lia).
  pose proof (nonzero_int8_enable val) as Hb.
  destruct (configured d); reg_simpl; rewrite ?Hu.
  - destruct (Z.ltb_spec (Z.land val 0x7f) (ems_pages d)) as [Hlt | Hge]; reg_simpl.
    + destruct (nonzero (int8 (Z.land val 128))) eqn:He; reg_simpl; rewrite ?Hu, ?He;
        repeat split; try discriminate; try lia; auto; intros; try congruence; lia.
    + change (nonzero 0) with false. cbv iota. reg_simpl. rewrite ?Hu.
      repeat split; try discriminate; auto; intros; lia.
  - repeat split; try discriminate; auto.
Qed.

(** What a read of the page-select register hands back. *)
Lemma ems_read_page_select port d :
  port_reg port d = 0 -> 0 <= page (ems d (port_vpage port)) < 128 ->
  ems_read port d =
    Z.lor (Z.land (page (ems d (port_vpage port))) 0x7f)
          (if viewport_enabled d (port_vpage port) then 0x80 else 0) /\
  Z.testbit (ems_read port d) 7 = viewport_enabled d (port_vpage port).
Proof.
  intros H0 Hp. unfold ems_read, viewport_enabled. rewrite H0.
  rewrite land_7f_mod, Z.mod_small by exact Hp.
  destruct (nonzero (enabled (ems d (port_vpage port)))).
  - rewrite lor_80_small by exact Hp. rewrite uint8_small by lia.
    split; [reflexivity|].
    rewrite <- lor_80_small by exact Hp.
    rewrite Z.lor_spec. rewrite orb_true_iff. right. reflexivity.
  - rewrite Z.lor_0_r. split; [reflexivity|]. apply testbit7_small. exact Hp.
Qed.

(** C1, as the specification states it, fails on the code: on an EV-159 the
    driver has not configured yet, writing 85H (enable, page 5) to viewport
    0's page-select register leaves the viewport's [enabled] state set while
    the configured flag is clear: the write is recorded whole, enable bit
    included, and nothing forces the viewport disabled. *)
Lemma enabled_before_configured :
  configured ev159_fresh = false /\
  port_reg 0x258 ev159_fresh = 0 /\
  viewport_enabled (run_io [IoWrite 0x258 0x85] ev159_fresh) 0 = true /\
  ~ enabled_only_if_valid (run_io [IoWrite 0x258 0x85] ev159_fresh) /\
  ~ unconfigured_write_disables ev159_fresh 0x258 0x85.
Proof.
  split; [vm_compute; reflexivity|]. split; [vm_compute; reflexivity|].
  split; [vm_compute; reflexivity|]. split.
  - intros H. destruct (H 0) as [Hc _]; [vm_compute; reflexivity|].
    vm_compute in Hc. discriminate.
  - intros H. unfold unconfigured_write_disables in H.
    assert (E : viewport_enabled (ems_write 0x258 0x85 ev159_fresh) (port_vpage 0x258) = false)
      by (apply H; vm_compute; reflexivity).
    vm_compute in E. discriminate.
Qed.

(** C1 (amended): after [isamem_init] and any sequence of register
    accesses, a viewport's mapped window is enabled only if the board is
    configured, the selected page exists ([page < ems_pages]) and the
    viewport's enabled state is set.  A page-select write always records the
    low seven bits as the page.  On a configured board a write naming a page
    [>= ems_pages] leaves the viewport disabled and its window disabled, and
    a write naming an existing page makes both follow the enable bit.  On a
    board that is not configured yet the write records the requested enable
    bit as well, and the window stays disabled. *)
Theorem window_enabled_only_if_valid AT local cfg h ops :
  let d := run_io ops (fst (isamem_init AT local cfg h)) in
  (forall i, window_enabled d i = true ->
     configured d = true /\ page (ems d i) < ems_pages d /\
     viewport_enabled d i = true) /\
  (forall port val, port_reg port d = 0 ->
     let d' := ems_write port val d in
     let i := port_vpage port in
     page (ems d' i) = Z.land val 0x7f /\
     (configured d = true -> ems_pages d <= Z.land val 0x7f ->
        viewport_enabled d' i = false /\ window_enabled d' i = false) /\
     (configured d = true -> Z.land val 0x7f < ems_pages d ->
        viewport_enabled d' i = Z.testbit val 7 /\
        window_enabled d' i = Z.testbit val 7) /\
     (configured d = false ->
        viewport_enabled d' i = Z.testbit val 7 /\ window_enabled d' i = false)).
Proof.
  cbv zeta.
  pose proof (run_io_ok ops _ (isamem_init_ok AT local cfg h)) as Hok.
  set (d := run_io ops (fst (isamem_init AT local cfg h))) in *.
  split.
  - intros i Hw. destruct (Hok i) as [_ H]. unfold window_enabled in Hw.
    destruct (H Hw) as (A & B & C & _). auto.
  - intros port val H0. rewrite ems_write_page_select by exact H0.
    unfold viewport_enabled, window_enabled. cbn [ems set_ems].
    rewrite Z.eqb_refl.
    destruct (page_select_write_cases val d (ems d (port_vpage port)))
      as (P & U & I & V).
    split; [exact P|]. split; [exact I|]. split.
    + intros Hc Hlt. destruct (V Hc Hlt) as (A & B & _). auto.
    + intros Hc. destruct (U Hc) as (A & B). split; [exact A|]. rewrite B.
      destruct (map_enable (mapping (ems d (port_vpage port)))) eqn:Hm; [|reflexivity].
      destruct (Hok (port_vpage port)) as [_ H]. destruct (H Hm) as (C & _). congruence.
Qed.

(** A configured EV-159 with 32 pages: page 40 does not exist and the
    viewport is forced disabled; page 5 is mapped. *)
Lemma window_enabled_only_if_valid_witness :
  let d := run_io [IoWrite 0x259 0x80] ev159_fresh in
  port_reg 0x8258 d = 0 /\ configured d = true /\ ems_pages d <= Z.land 0xA8 0x7f /\
  viewport_enabled (ems_write 0x8258 0xA8 d) 2 = false /\
  window_enabled (ems_write 0x8258 0xA8 d) 2 = false.
Proof.
  cbv zeta.
  assert (H0 : port_reg 0x8258 (run_io [IoWrite 0x259 0x80] ev159_fresh) = 0)
    by (vm_compute; reflexivity).
  assert (Hc : configured (run_io [IoWrite 0x259 0x80] ev159_fresh) = true)
    by (vm_compute; reflexivity).
  assert (Hp : ems_pages (run_io [IoWrite 0x259 0x80] ev159_fresh) <= Z.land 0xA8 0x7f)
    by (vm_compute; discriminate).
  split; [exact H0|]. split; [exact Hc|]. split; [exact Hp|].
  exact (proj1 (proj2 (proj2 (window_enabled_only_if_valid false 10
           (ev159_cfg 512 0 0 1 0x258) host_empty [IoWrite 0x259 0x80])
           0x8258 0xA8 H0)) Hc Hp).
Defined.

(** C2, as the specification states it, fails on the code: the
    specification counts a page-select write on a board that is not
    configured yet as forced disabled, and yet, on the fresh EV-159, the
    read after writing 85H hands back 85H, enable bit included, while the
    viewport's window is disabled. *)
Lemma read_reflects_unconfigured_enable :
  spec_forced_disabled ev159_fresh 0x85 = true /\
  port_reg 0x258 ev159_fresh = 0 /\
  ems_read 0x258 (ems_write 0x258 0x85 ev159_fresh) = 0x85 /\
  Z.testbit (ems_read 0x258 (ems_write 0x258 0x85 ev159_fresh)) 7 = true /\
  window_enabled (ems_write 0x258 0x85 ev159_fresh) 0 = false.
Proof. repeat split; vm_compute; reflexivity. Qed.

(** C2 (amended): a read of a viewport's page-select register leaves the
    device as it is and hands back [page & 0x7f] with bit 7 set iff the
    viewport's enabled state is set.  So a read after a page-select write
    hands back the written low seven bits, or-ed with 80H iff the viewport
    is enabled after the write.  When the write was forced disabled because
    its page does not exist (the board is configured and the page is
    [>= ems_pages]) the read shows the page alone, whatever enable bit was
    written; a write before the board is configured is not forced disabled,
    and the read hands back its enable bit as written. *)
Theorem page_select_read AT local cfg h ops port :
  let d := run_io ops (fst (isamem_init AT local cfg h)) in
  let i := port_vpage port in
  port_reg port d = 0 ->
  io_step (IoRead port) d = (d, Some (ems_read port d)) /\
  ems_read port d =
    Z.lor (Z.land (page (ems d i)) 0x7f) (if viewport_enabled d i then 0x80 else 0) /\
  Z.testbit (ems_read port d) 7 = viewport_enabled d i /\
  forall val,
    let d' := ems_write port val d in
    ems_read port d' =
      Z.lor (Z.land val 0x7f) (if viewport_enabled d' i then 0x80 else 0) /\
    Z.testbit (ems_read port d') 7 = viewport_enabled d' i /\
    (configured d = true -> ems_pages d <= Z.land val 0x7f ->
       viewport_enabled d' i = false /\ ems_read port d' = Z.land val 0x7f) /\
    (configured d = false ->
       viewport_enabled d' i = Z.testbit val 7 /\
       ems_read port d' =
         Z.lor (Z.land val 0x7f) (if Z.testbit val 7 then 0x80 else 0)).
Proof.
  cbv zeta.
  pose proof (run_io_ok ops _ (isamem_init_ok AT local cfg h)) as Hok.
  set (d := run_io ops (fst (isamem_init AT local cfg h))) in *.
  intros H0. split; [reflexivity|].
  destruct (ems_read_page_select port d H0) as [R1 R2]; [apply Hok|].
  split; [exact R1|]. split; [exact R2|].
  intros val.
  pose proof (ems_write_ok port val d Hok) as Hok'.
  assert (H0' : port_reg port (ems_write port val d) = 0)
    by (rewrite port_reg_ems_write; exact H0).
  destruct (ems_read_page_select port _ H0') as [W1 W2]; [apply Hok'|].
  assert (Hp : page (ems (ems_write port val d) (port_vpage port)) = Z.land val 0x7f).
  { rewrite ems_write_page_select by exact H0. cbn [ems set_ems].
    rewrite Z.eqb_refl. apply page_select_write_cases. }
  rewrite Hp in W1.
  assert (Hi : Z.land (Z.land val 0x7f) 0x7f = Z.land val 0x7f).
  { rewrite <- Z.land_assoc. reflexivity. }
  rewrite Hi in W1.
  split; [exact W1|]. split; [exact W2|]. split.
  - intros Hc Hge.
    assert (Hd : viewport_enabled (ems_write port val d) (port_vpage port) = false).
    { unfold viewport_enabled. rewrite ems_write_page_select by exact H0.
      cbn [ems set_ems]. rewrite Z.eqb_refl.
      apply page_select_write_cases; assumption. }
    split; [exact Hd|]. rewrite W1, Hd. apply Z.lor_0_r.
  - intros Hc.
    assert (Hd : viewport_enabled (ems_write port val d) (port_vpage port) =
                 Z.testbit val 7).
    { unfold viewport_enabled. rewrite ems_write_page_select by exact H0.
      cbn [ems set_ems]. rewrite Z.eqb_refl.
      destruct (page_select_write_cases val d (ems d (port_vpage port)))
        as (_ & U & _).
      apply (U Hc). }
    split; [exact Hd|]. rewrite W1, Hd. reflexivity.
Qed.

(** On the configured board, viewport 2 reads back 05H after 85H was written. *)
Lemma page_select_read_witness :
  let d := run_io [IoWrite 0x259 0x80] ev159_fresh in
  port_reg 0x8258 d = 0 /\
  ems_read 0x8258 (ems_write 0x8258 0x85 d) =
    Z.lor (Z.land 0x85 0x7f)
      (if viewport_enabled (ems_write 0x8258 0x85 d) 2 then 0x80 else 0).
Proof.
  cbv zeta.
  assert (H0 : port_reg 0x8258 (run_io [IoWrite 0x259 0x80] ev159_fresh) = 0)
    by (vm_compute; reflexivity).
  split; [exact H0|].
  exact (proj1 (proj2 (proj2 (proj2 (page_select_read false 10
           (ev159_cfg 512 0 0 1 0x258) host_empty [IoWrite 0x259 0x80] 0x8258 H0)))
           0x85)).
Defined.

(** C8: a write to a viewport's frame register stores the value; a nonzero
    value sets the board's configured flag, zero leaves the flags as they
    are; and no viewport's enabled state, selected page, page address or
    mapping changes. *)
Theorem frame_config_write d port val :
  port_reg port d = 1 ->
  let d' := ems_write port val d in
  (val <> 0 -> configured d' = true) /\
  (val = 0 -> flags d' = flags d /\ configured d' = configured d) /\
  frame (ems d' (port_vpage port)) = val /\
  (forall i, enabled (ems d' i) = enabled (ems d i) /\
             page (ems d' i) = page (ems d i) /\
             addr (ems d' i) = addr (ems d i) /\
             mapping (ems d' i) = mapping (ems d i) /\
             viewport_enabled d' i = viewport_enabled d i /\
             window_enabled d' i = window_enabled d i).
Proof.
  intros H1. cbv zeta. rewrite ems_write_frame_config by exact H1. cbv zeta.
  unfold viewport_enabled, window_enabled.
  destruct (Z.eqb_spec val 0) as [-> | Hnz].
  - change (nonzero 0) with false. cbv iota. cbn [ems set_ems flags].
    rewrite Z.eqb_refl.
    split; [congruence|]. split; [intros _; split; reflexivity|].
    split; [reflexivity|].
    intros i. destruct (Z.eqb_spec i (port_vpage port)) as [-> | _];
        repeat split; reflexivity.
  - unfold nonzero. destruct (Z.eqb_spec val 0); [contradiction|]. cbn [negb].
    split.
    + intros _. rewrite configured_testbit. cbn [flags set_flags set_ems].
      rewrite testbit_or_flag by lia. apply orb_true_r.
    + split; [intros; contradiction|].
      cbn [ems set_ems set_flags]. rewrite Z.eqb_refl.
      split; [reflexivity|].
      intros i. destruct (Z.eqb_spec i (port_vpage port)) as [-> | _];
        repeat split; reflexivity.
Qed.

(** Writing 80H to the frame register of viewport 0 configures the board. *)
Lemma frame_config_write_witness :
  port_reg 0x259 ev159_fresh = 1 /\
  configured (ems_write 0x259 0x80 ev159_fresh) = true.
Proof.
  assert (H1 : port_reg 0x259 ev159_fresh = 1) by (vm_compute; reflexivity).
  split; [exact H1|].
  apply (proj1 (frame_config_write ev159_fresh 0x259 0x80 H1)). discriminate.
Defined.

(** C10: a read of a viewport's frame register (offset 1) hands back FFH and
    leaves the device as it is, whatever was written to the register, or to
    any register, before. *)
Theorem frame_config_read d port :
  port_reg port d = 1 ->
  ems_read port d = 0xff /\
  io_step (IoRead port) d = (d, Some 0xff) /\
  (forall val, ems_read port (ems_write port val d) = 0xff) /\
  (forall ops, ems_read port (run_io ops d) = 0xff).
Proof.
  intros H1.
  assert (R : forall d', base_addr d' = base_addr d -> ems_read port d' = 0xff).
  { intros d' Hb. unfold ems_read. rewrite (port_reg_base port d d' Hb), H1. reflexivity. }
  split; [apply R; reflexivity|].
  split; [cbn [io_step]; rewrite R by reflexivity; reflexivity|].
  split.
  - intros val. apply R. apply ems_write_frame.
  - intros ops. apply R. apply run_io_base_addr.
Qed.

(** After E0H was written to it, the frame register still reads FFH. *)
Lemma frame_config_read_witness :
  port_reg 0x259 ev159_fresh = 1 /\
  ems_read 0x259 (ems_write 0x259 0xE0 ev159_fresh) = 0xff.
Proof.
  assert (H1 : port_reg 0x259 ev159_fresh = 1) by (vm_compute; reflexivity).
  split; [exact H1|].
  exact (proj1 (proj2 (proj2 (frame_config_read ev159_fresh 0x259 H1))) 0xE0).
Defined.

(** * Port decoding *)

Lemma isamem_init_dev AT local cfg h :
  let l2 := carve_high AT (carve_conventional (init_board AT local cfg h)) in
  let d := fst (isamem_init AT local cfg h) in
  isamem_init AT local cfg h = setup_ems l2 /\
  flags d = flags (l_dev (init_board AT local cfg h)) /\
  base_addr d = base_addr (l_dev (init_board AT local cfg h)) /\
  frame_addr d = frame_addr (l_dev (init_board AT local cfg h)) /\
  total_size d = total_size (l_dev (init_board AT local cfg h)) /\
  ram d = ram (l_dev (init_board AT local cfg h)) /\
  low_mapping d = low_mapping (l_dev l2) /\
  high_mapping d = high_mapping (l_dev l2) /\
  flags (l_dev l2) = flags (l_dev (init_board AT local cfg h)) /\
  base_addr (l_dev l2) = base_addr (l_dev (init_board AT local cfg h)) /\
  frame_addr (l_dev l2) = frame_addr (l_dev (init_board AT local cfg h)) /\
  ems (l_dev l2) = ems (l_dev (init_board AT local cfg h)) /\
  start_addr d = start_addr (l_dev (init_board AT local cfg h)).
Proof.
  cbv zeta. unfold isamem_init. cbv zeta.
  set (l0 := init_board AT local cfg h).
  destruct (carve_same AT l0)
    as ((S1 & S2 & S3 & S4 & S5 & S6 & S7 & S8 & S9 & S10 & S11) & _).
  destruct (setup_ems_same (carve_high AT (carve_conventional l0)))
    as (T1 & T2 & T3 & T4 & T5 & T6 & T7 & T8 & T9).
  repeat split; congruence.
Qed.

(** C7, as the specification states it, fails on the code: with the I/O
    base 4208H the access to port base + 0*16384 + 0 is decoded to viewport
    1, and to neither register. *)
Lemma decode_wrong_above_16k :
  let d := fst (isamem_init false 10 (ev159_cfg 512 0 0 1 0x4208) host_empty) in
  base_addr d = 0x4208 /\
  port_vpage (uint16 (base_addr d + EMS_PGSIZE * 0 + 0)) = 1 /\
  port_reg (uint16 (base_addr d + EMS_PGSIZE * 0 + 0)) d = 4294950912 /\
  ~ decodes d 0 0.
Proof.
  cbv zeta. split; [vm_compute; reflexivity|]. split; [vm_compute; reflexivity|].
  split; [vm_compute; reflexivity|].
  intros [H _]. vm_compute in H. discriminate.
Qed.

(** C7 (amended): [isamem_init] registers the register pair of viewport i
    at port (base + i*16384) mod 65536, for i = 0..3.  On an access the
    handlers take the viewport index as the port divided by 16384 and the
    register as (port mod 16384) - base, an unsigned 32-bit difference.
    Provided the pair lies below 16384 (base + 1 < 16384, as for every base
    the board catalog offers), the access to port
    (base + i*16384 + o) mod 65536 is decoded to viewport i and register o,
    for i in 0..3 and o in 0..1. *)
Theorem port_decode AT local cfg h :
  let d := fst (isamem_init AT local cfg h) in
  let h' := snd (isamem_init AT local cfg h) in
  (flag_set (flags d) FLAG_EMS = true ->
   io_handlers h' =
     [ (uint16 (base_addr d + EMS_PGSIZE * 3), 2);
       (uint16 (base_addr d + EMS_PGSIZE * 2), 2);
       (uint16 (base_addr d + EMS_PGSIZE * 1), 2);
       (uint16 (base_addr d + EMS_PGSIZE * 0), 2) ] ++ io_handlers h) /\
  (forall port,
     port_vpage port = port / 16384 /\
     port_reg port d = uint32 (port mod 16384 - base_addr d)) /\
  (base_addr d + 1 < EMS_PGSIZE ->
   forall i o, 0 <= i <= 3 -> 0 <= o <= 1 -> decodes d i o).
Proof.
  cbv zeta.
  destruct (isamem_init_dev AT local cfg h)
    as (E & Hf & Hb & _ & _ & _ & _ & _ & Hf2 & Hb2 & _).
  split; [|split].
  - intros He. rewrite Hf, <- Hf2 in He.
    destruct (setup_ems_info _ He) as (_ & _ & _ & I).
    rewrite Hb, <- Hb2, E, I.
    destruct (carve_same AT (init_board AT local cfg h)) as (_ & ->).
    destruct (init_board_host AT local cfg h h) as (_ & _ & _ & _ & _ & ->).
    reflexivity.
  - intros port. split; [reflexivity|].
    unfold port_reg. change (EMS_PGSIZE - 1) with (Z.ones 14).
    rewrite Z.land_ones by lia. reflexivity.
  - intros Hlt i o Hi Ho. unfold decodes, port_vpage, port_reg.
    assert (H0 : 0 <= base_addr (fst (isamem_init AT local cfg h))).
    { rewrite Hb.
      destruct (init_board_shape AT local cfg h)
        as (f & ts & ba & sa & fa & tot & E0 & _ & _ & _ & Hba).
      rewrite E0. cbn. lia. }
    set (b := base_addr (fst (isamem_init AT local cfg h))) in *.
    consts.
    rewrite uint16_small by lia.
    change (16384 - 1) with (Z.ones 14). rewrite Z.land_ones by lia.
    change (2 ^ 14) with 16384.
    replace (b + 16384 * i + o) with ((b + o) + i * 16384) by lia.
    rewrite Z.div_add, Z.mod_add by lia.
    rewrite Z.div_small, Z.mod_small by lia.
    split; [lia|]. replace (b + o - b) with o by lia. apply uint32_small. lia.
Qed.

(** On the EV-159 at base 258H, port C259H is register 1 of viewport 3. *)
Lemma port_decode_witness :
  let d := ev159_fresh in
  base_addr d + 1 < EMS_PGSIZE /\
  port_vpage 0xC259 = 3 /\ port_reg 0xC259 d = 1.
Proof.
  cbv zeta.
  assert (Hlt : base_addr ev159_fresh + 1 < EMS_PGSIZE) by (vm_compute; reflexivity).
  split; [exact Hlt|].
  exact (proj2 (proj2 (port_decode false 10 (ev159_cfg 512 0 0 1 0x258) host_empty))
           Hlt 3 1 ltac:(lia) ltac:(lia)).
Defined.

(** * The layout [isamem_init] builds *)

Lemma ram_bytes_total AT local cfg h :
  let d := fst (isamem_init AT local cfg h) in
  ram_bytes AT local cfg = total_size d * 1024 /\
  buf_size (ram d) = total_size d * 1024 /\
  0 <= total_size d < 65536.
Proof.
  cbv zeta. unfold ram_bytes.
  destruct (isamem_init_dev AT local cfg h) as (_ & _ & _ & _ & Ht & Hr & _).
  rewrite Ht, Hr.
  destruct (init_board_host AT local cfg h host_empty) as (_ & <- & _).
  destruct (init_board_shape AT local cfg h)
    as (f & ts & ba & sa & fa & tot & E & Hts & _).
  rewrite E. cbn. lia.
Qed.

(** The pool and the plain regions of a board whose contiguous amount fits
    in its RAM. *)
Lemma isamem_init_pool AT local cfg h :
  contiguous_fits AT local cfg ->
  let d := fst (isamem_init AT local cfg h) in
  let K := ram_bytes AT local cfg in
  region_ok K (low_mapping d) /\ region_ok K (high_mapping d) /\
  0 <= reserved_pool_bytes AT local cfg <= K /\
  (flag_set (flags d) FLAG_EMS = true ->
     ems_pages d = Z.min (reserved_pool_bytes AT local cfg) EMS_MAXSIZE / EMS_PGSIZE /\
     0 <= ems_start d /\
     ems_start d + reserved_pool_bytes AT local cfg <= K /\
     (carving AT local cfg = false -> ems_start d = 0) /\
     (AT = true -> ems_start d + reserved_pool_bytes AT local cfg = K)) /\
  (flag_set (flags d) FLAG_EMS = false -> ems_pages d = 0 /\ ems_start d = 0).
Proof.
  intros Hfit. cbv zeta.
  destruct (carve_bounds AT local cfg h Hfit) as (C & S & Kk & _ & P0 & PT).
  destruct (isamem_init_dev AT local cfg h)
    as (E & Hf & _ & _ & _ & _ & Hl & Hh & Hf2 & _).
  set (l2 := carve_high AT (carve_conventional (init_board AT local cfg h))) in *.
  destruct C as (C1 & C2 & C3 & C4 & C5 & C6).
  rewrite Hl, Hh. split; [exact C5|]. split; [exact C6|].
  assert (HR : 0 <= reserved_pool_bytes AT local cfg <= ram_bytes AT local cfg /\
               (carving AT local cfg = true ->
                  reserved_pool_bytes AT local cfg =
                    ram_bytes AT local cfg - tot_bytes AT local cfg) /\
               (carving AT local cfg = false ->
                  reserved_pool_bytes AT local cfg = ram_bytes AT local cfg) /\
               0 <= tot_bytes AT local cfg /\ ram_bytes AT local cfg < 4294967296).
  { unfold contiguous_fits in Hfit. unfold reserved_pool_bytes.
    assert (0 <= tot_bytes AT local cfg /\ ram_bytes AT local cfg < 4294967296) as [Ht Hk].
    { unfold tot_bytes, ram_bytes.
      destruct (init_board_shape AT local cfg host_empty)
        as (f & ts & ba & sa & fa & tot & E0 & Hts & _ & Htot & _).
      rewrite E0. cbn. lia. }
    destruct (carving AT local cfg); repeat split; intros; try discriminate; lia. }
  destruct HR as (HR & HRc & HRn & Ht & Hk).
  unfold contiguous_fits in Hfit.
  split; [exact HR|]. split.
  - intros He. rewrite E. rewrite Hf, <- Hf2 in He.
    destruct (setup_ems_info l2 He) as (I1 & _ & I3 & _).
    rewrite I1, I3, Kk. clear I1 I3.
    assert (Hs : uint32 (l_ptr l2) = l_ptr l2) by (apply uint32_small; lia).
    rewrite Hs. consts.
    assert (Hm : (if 2097152 <? reserved_pool_bytes AT local cfg
                  then 2097152 else reserved_pool_bytes AT local cfg) =
                 Z.min (reserved_pool_bytes AT local cfg) 2097152).
    { destruct (Z.ltb_spec 2097152 (reserved_pool_bytes AT local cfg)); lia. }
    rewrite Hm.
    assert (Hq : 0 <= Z.min (reserved_pool_bytes AT local cfg) 2097152 / 16384 <= 128).
    { split; [apply Z.div_pos; lia|].
      apply Z.div_le_upper_bound; lia. }
    rewrite uint16_small by lia.
    split; [reflexivity|]. split; [lia|].
    destruct (carving AT local cfg) eqn:Hc.
    + rewrite (HRc eq_refl). split; [lia|]. split; [discriminate|].
      intros HAT. rewrite (PT HAT eq_refl). lia.
    + rewrite (P0 eq_refl), (HRn eq_refl). split; [lia|]. split; [reflexivity|].
      intros _. lia.
  - intros He. rewrite E. rewrite Hf, <- Hf2 in He.
    rewrite (setup_ems_off l2 He). cbn [fst].
    destruct S as (_ & _ & _ & _ & _ & _ & _ & S8 & S9 & _).
    fold l2 in S8, S9. rewrite S8, S9.
    destruct (init_board_shape AT local cfg h)
      as (f & ts & ba & sa & fa & tot & E0 & _).
    rewrite E0. cbn. split; reflexivity.
Qed.

(** The pool lies in the RAM buffer whenever the contiguous amount fits in
    the board's RAM. *)
Lemma pool_in_ram_fits AT local cfg h :
  contiguous_fits AT local cfg ->
  let d := fst (isamem_init AT local cfg h) in
  pool_in_ram d /\ 0 <= ems_start d /\ 0 <= ems_pages d.
Proof.
  intros Hfit. cbv zeta. unfold pool_in_ram.
  destruct (isamem_init_pool AT local cfg h Hfit) as (_ & _ & HR & He & Hn).
  destruct (ram_bytes_total AT local cfg h) as (HK & _ & _). rewrite <- HK.
  destruct (flag_set (flags (fst (isamem_init AT local cfg h))) FLAG_EMS).
  - destruct (He eq_refl) as (P & S0 & S1 & _). rewrite P. consts.
    pose proof (Z.mul_div_le (Z.min (reserved_pool_bytes AT local cfg) 2097152) 16384).
    assert (0 <= Z.min (reserved_pool_bytes AT local cfg) 2097152 / 16384)
      by (apply Z.div_pos; lia).
    lia.
  - destruct (Hn eq_refl) as (-> & ->). lia.
Qed.

(** C9 fails on the code at an EV-159 with 512 KB whose contiguous length is
    set to 1024 KB (start 256 KB, EMS on, no extended bus): [k -= tot] wraps
    around below zero, the pool is capped to 128 pages, and it is recorded
    at offset 786432, beyond the 524288 bytes that were allocated. *)
Theorem pool_outside_ram :
  let d := fst (isamem_init false 10 (ev159_cfg 512 256 1024 1 0x258) host_empty) in
  total_size d = 512 /\ buf_size (ram d) = 524288 /\
  ems_start d = 786432 /\ ems_pages d = 128 /\
  ~ pool_in_ram d.
Proof.
  cbv zeta. repeat split; try (vm_compute; reflexivity).
  unfold pool_in_ram. vm_compute. intros H. apply H. reflexivity.
Qed.


Lemma start_zero_no_carving AT local cfg h :
  start_addr (fst (isamem_init AT local cfg h)) = 0 -> carving AT local cfg = false.
Proof.
  destruct (isamem_init_dev AT local cfg h)
    as (_ & _ & _ & _ & _ & _ & _ & _ & _ & _ & _ & _ & Hs).
  rewrite Hs. unfold carving.
  destruct (init_board_host AT local cfg h host_empty) as (_ & _ & _ & <- & _).
  destruct (init_board_shape AT local cfg h)
    as (f & ts & ba & sa & fa & tot & E & _).
  rewrite E. cbn. intros ->. reflexivity.
Qed.



(** * The two layout scenarios *)

(** C5, as the specification states it, fails on the code: an EV-159 with
    size 1024 and start 256 whose contiguous length is the whole board
    reserves all of its RAM for contiguous memory, and has no EMS page. *)
Lemma scenario_A_without_length :
  let cfg := ev159_cfg 1024 256 1024 1 0x258 in
  let d := fst (isamem_init false 10 cfg host_empty) in
  cfg_size cfg = 1024 /\ cfg_start cfg = 256 /\
  flag_set (flags d) FLAG_EMS = true /\ ems_pages d = 0 /\
  ~ scenario_A d.
Proof.
  cbv zeta. repeat split; try (vm_compute; reflexivity).
  intros (_ & _ & _ & _ & _ & H).
  assert (E : ems_pages (fst (isamem_init false 10 (ev159_cfg 1024 256 1024 1 0x258)
                host_empty)) = 40) by (apply H; vm_compute; reflexivity).
  vm_compute in E. discriminate.
Qed.

(** C5 (amended): for a board configured with size 1024 KB and start 256 KB
    on a system without extended bus, whose contiguous amount is the whole
    board (the IBM PC/XT and PC/AT cards and the 5-PAK, which have no EMS)
    or 384 KB (the EV-159 with its length option at 384), [isamem_init]
    registers the conventional extension [262144, 655360) (384 KB) as plain
    RAM with byte handlers, marks it external, registers no extended region,
    and on the EV-159 with EMS enabled the other 640 KB are the pool: it
    starts at offset 393216 and has 40 pages. *)
Theorem scenario_A_layout local cfg h :
  cfg_size cfg = 1024 -> cfg_start cfg = 256 ->
  local = 0 \/ local = 1 \/ local = 2 \/ (local = 10 /\ cfg_length cfg = 384) ->
  let d := fst (isamem_init false local cfg h) in
  let h' := snd (isamem_init false local cfg h) in
  scenario_A d /\
  low_mapping d = mkMapping true 262144 393216 RamHandlers false (Some 0) /\
  In (262144, 393216) (mem_state h') /\
  (flag_set (flags d) FLAG_EMS = true ->
     local = 10 /\ ems_start d = 393216 /\ ems_size d = 640 /\ ems_pages d = 40).
Proof.
  destruct cfg as [sz st len w sp em ba fr]. cbn [cfg_size cfg_start cfg_length].
  intros -> -> Hb. cbv zeta. unfold scenario_A, isamem_init, init_board, board_setup.
  cbn [cfg_size cfg_start cfg_length cfg_width cfg_speed cfg_ems cfg_base cfg_frame].
  destruct Hb as [-> | [-> | [-> | [-> ->]]]];
    try (destruct (nonzero w)); try (destruct (nonzero sp));
    try (destruct (nonzero em));
    vm_compute;
    repeat split; intros; try reflexivity; try discriminate;
    try (left; reflexivity); try (right; left; reflexivity).
Qed.

(** The EV-159 with 1024 KB, start 256 KB, length 384 KB and EMS on. *)
Lemma scenario_A_layout_witness :
  let cfg := ev159_cfg 1024 256 384 1 0x258 in
  cfg_size cfg = 1024 /\ cfg_start cfg = 256 /\ cfg_length cfg = 384 /\
  scenario_A (fst (isamem_init false 10 cfg host_empty)).
Proof.
  cbv zeta. split; [reflexivity|]. split; [reflexivity|]. split; [reflexivity|].
  exact (proj1 (scenario_A_layout 10 (ev159_cfg 1024 256 384 1 0x258) host_empty
                  eq_refl eq_refl
                  (or_intror (or_intror (or_intror (conj eq_refl eq_refl)))))).
Defined.

(** The only board with EMS enabled and its frame at E0000H is the EV-159
    with its EMS option on. *)
Lemma ems_frame_E0000 AT local cfg h :
  let d := l_dev (init_board AT local cfg h) in
  flag_set (flags d) FLAG_EMS = true -> frame_addr d = 0xE0000 ->
  Z.land local 63 = 10 /\ nonzero (cfg_ems cfg) = true.
Proof.
  unfold init_board, board_setup, memdev_zero. dev_simpl.
  remember (Z.land local 63) as b eqn:Eb. clear Eb.
  board_cases b; dev_simpl;
    try (destruct (nonzero (cfg_width cfg)));
    try (destruct (nonzero (cfg_speed cfg)));
    try (destruct (nonzero (cfg_ems cfg)));
    dev_simpl;
    repeat match goal with
           | |- context [if ?c then _ else _] => destruct c; dev_simpl
           end;
    intros He Hf; try discriminate Hf;
    try (split; reflexivity);
    exfalso; revert He; vm_compute; discriminate.
Qed.

(** C6: for a board with EMS enabled and its frame at E0000H (the EV-159)
    configured with size 512 KB and start 0, [isamem_init] hands out no
    conventional and no extended RAM, the whole 512 KB buffer is the EMS
    pool, starting at offset 0, with 32 pages, and the four viewport windows
    are registered, 16 KB each, at E0000H, E4000H, E8000H and EC000H, all
    disabled. *)
Theorem scenario_B_layout AT local cfg h :
  let d := fst (isamem_init AT local cfg h) in
  let h' := snd (isamem_init AT local cfg h) in
  flag_set (flags d) FLAG_EMS = true -> frame_addr d = 0xE0000 ->
  cfg_size cfg = 512 -> cfg_start cfg = 0 ->
  low_mapping d = mapping_zero /\ high_mapping d = mapping_zero /\
  ram_remapped_mapping h' = ram_remapped_mapping h /\
  mem_state h' = mem_state h /\
  buf_size (ram d) = 524288 /\
  ems_start d = 0 /\ ems_size d = 512 /\ ems_pages d = 32 /\
  remaining_after_carving d = 524288 /\
  window_at 0xE0000 d 0 /\ window_at 0xE0000 d 1 /\
  window_at 0xE0000 d 2 /\ window_at 0xE0000 d 3 /\
  map_base (mapping (ems d 0)) = 0xE0000 /\ map_base (mapping (ems d 1)) = 0xE4000 /\
  map_base (mapping (ems d 2)) = 0xE8000 /\ map_base (mapping (ems d 3)) = 0xEC000.
Proof.
  cbv zeta. intros He Hf Hsz Hst.
  destruct (isamem_init_dev AT local cfg h) as (_ & Hf1 & _ & Hf3 & _).
  rewrite Hf1 in He. rewrite Hf3 in Hf.
  destruct (ems_frame_E0000 AT local cfg h He Hf) as (Hb & Hem). clear He Hf Hf1 Hf3.
  assert (E : exists F tot,
             isamem_init AT local cfg h =
               setup_ems
                 (mkLayout
                    (mkMemdev 10 F 512 (uint32 (cfg_base cfg)) 0 0xE0000 0 0 0
                       (calloc 524288) mapping_zero mapping_zero
                       (fun _ => emsreg_zero))
                    h 524288 tot 0 0) /\
             flag_set F FLAG_EMS = true).
  { destruct cfg as [sz st len w sp em ba fr].
    cbn [cfg_size cfg_start cfg_ems cfg_base] in *. subst sz st.
    unfold isamem_init, init_board, board_setup.
    cbn [cfg_size cfg_start cfg_length cfg_width cfg_speed cfg_ems cfg_base cfg_frame].
    unfold memdev_zero. dev_simpl. rewrite Hb, Hem.
    destruct AT; destruct (nonzero w); destruct (nonzero sp);
      do 2 eexists; (split; [reflexivity | vm_compute; reflexivity]). }
  destruct E as (F & tot & -> & HF).
  unfold remaining_after_carving, window_at, viewport_enabled, window_enabled,
    setup_ems.
  cbn [l_dev flags]. rewrite HF. cbn [fold_left]. unfold ems_setup_page.
  dev_simpl. map_simpl.
  repeat split; reflexivity.
Qed.

(** The EV-159 of Scenario B at base 258H. *)
Lemma scenario_B_layout_witness :
  let d := ev159_fresh in
  flag_set (flags d) FLAG_EMS = true /\ frame_addr d = 0xE0000 /\
  ems_pages d = 32 /\ map_base (mapping (ems d 3)) = 0xEC000.
Proof.
  cbv zeta.
  assert (He : flag_set (flags ev159_fresh) FLAG_EMS = true) by (vm_compute; reflexivity).
  assert (Hf : frame_addr ev159_fresh = 0xE0000) by (vm_compute; reflexivity).
  split; [exact He|]. split; [exact Hf|].
  pose proof (scenario_B_layout false 10 (ev159_cfg 512 0 0 1 0x258) host_empty
                He Hf eq_refl eq_refl) as H.
  split; [apply H | apply H].
Defined.

(** * RamTranslator: write, then read *)

Section Buffer.

Variable b : buffer.

Lemma store8_size off v b' : store8 b off v = Some b' -> buf_size b' = buf_size b.
Proof.
  unfold store8. destruct (in_buffer b off); [|discriminate].
  intros [= <-]. reflexivity.
Qed.


Lemma load8_store8 off v b' : store8 b off v = Some b' -> load8 b' off = Some v.
Proof.
  unfold store8, load8. destruct (in_buffer b off) eqn:Hin; [|discriminate].
  intros [= <-]. unfold in_buffer in *. cbn [buf_size buf_data].
  rewrite Hin, Z.eqb_refl. reflexivity.
Qed.

Lemma store16_size off v b' : store16 b off v = Some b' -> buf_size b' = buf_size b.
Proof.
  unfold store16. destruct (store8 b off (v mod 256)) as [b1|] eqn:E1; [|discriminate].
  intros E2. unfold store8 in E1, E2.
  destruct (in_buffer b off); [|discriminate]. injection E1 as <-.
  destruct (in_buffer _ (off + 1)); [|discriminate]. injection E2 as <-.
  reflexivity.
Qed.

Lemma store16_defined off v :
  in_buffer b off = true -> in_buffer b (off + 1) = true ->
  exists b', store16 b off v = Some b'.
Proof.
  intros H0 H1. unfold store16, store8. rewrite H0.
  unfold in_buffer in *. cbn [buf_size]. rewrite H1. eexists. reflexivity.
Qed.

Lemma load16_store16 off v b' :
  0 <= v < 65536 -> store16 b off v = Some b' -> load16 b' off = Some v.
Proof.
  intros Hv. unfold store16, store8.
  destruct (in_buffer b off) eqn:H0; [|discriminate].
  unfold in_buffer in *. cbn [buf_size].
  destruct ((0 <=? off + 1) && (off + 1 <? buf_size b)) eqn:H1; [|discriminate].
  intros [= <-]. unfold load16, load8, in_buffer. cbn [buf_size buf_data].
  rewrite H0, H1, Z.eqb_refl.
  destruct (Z.eqb_spec off (off + 1)); [lia|]. rewrite Z.eqb_refl.
  f_equal. pose proof (Z.div_mod v 256 ltac:(lia)).
  rewrite (Z.mod_small (v / 256)); [lia|].
  split; [apply Z.div_pos; lia | apply Z.div_lt_upper_bound; lia].
Qed.

End Buffer.


Lemma ram_word_round_trip a v m d :
  region_ok (buf_size (ram d)) m -> buf_size (ram d) < 4294967296 ->
  inside m a -> inside m (a + 1) -> 0 <= v < 65536 ->
  exists d', ram_writew a v m d = Some d' /\ ram_readw a m d' = Some v.
Proof.
  unfold region_ok, inside, ram_writew, ram_readw. intros (Hb & Hs) HK Ha Ha1 Hv.
  rewrite uint32_small by lia.
  destruct (store16_defined (ram d) (a - map_base m) v) as [b' E].
  { unfold in_buffer. apply andb_true_iff. split; [apply Z.leb_le | apply Z.ltb_lt]; lia. }
  { unfold in_buffer. apply andb_true_iff. split; [apply Z.leb_le | apply Z.ltb_lt]; lia. }
  rewrite E. cbn [option_map]. eexists. split; [reflexivity|].
  cbn [ram set_ram]. eapply load16_store16; eassumption.
Qed.

(** The viewport a guest address falls into, for a frame on a 64 KB
    boundary. *)
Lemma addr_vpage_window frame i o :
  frame mod 65536 = 0 -> 0 <= i < 4 -> 0 <= o < EMS_PGSIZE ->
  addr_vpage (frame + EMS_PGSIZE * i + o) = i.
Proof.
  intros Hf Hi Ho. unfold addr_vpage. consts.
  change 0xffff with (Z.ones 16). rewrite Z.land_ones by lia.
  change (2 ^ 16) with 65536.
  replace (frame + 16384 * i + o) with ((16384 * i + o) + frame) by lia.
  rewrite <- Z.add_mod_idemp_r, Hf, Z.add_0_r by lia.
  rewrite Z.mod_small by lia.
  replace (16384 * i + o) with (o + i * 16384) by lia.
  rewrite Z.div_add by lia. rewrite Z.div_small by lia. lia.
Qed.



(** ** What the steps preserve *)

Lemma same_layout_refl d : same_layout d d.
Proof. unfold same_layout. repeat split; reflexivity. Qed.

Lemma set_ram_layout d b :
  buf_size b = buf_size (ram d) ->
  same_layout d (set_ram b d) /\ (viewports_ok d -> viewports_ok (set_ram b d)).
Proof.
  intros Hb. split.
  - unfold same_layout. cbn. repeat split; auto.
  - intros H i. exact (H i).
Qed.

Lemma page_select_write_window val d r :
  map_base (mapping (page_select_write val d r)) = map_base (mapping r) /\
  map_size (mapping (page_select_write val d r)) = map_size (mapping r).
Proof.
  unfold page_select_write.
  destruct (configured d); [|split; reflexivity].
  reg_simpl.
  destruct (uint8 (Z.land val 127) <? ems_pages d); reg_simpl;
    destruct (nonzero _); split; reflexivity.
Qed.

Lemma ems_write_layout port val d : same_layout d (ems_write port val d).
Proof.
  destruct (ems_write_frame port val d) as (A & B & C & D & E & F & G & H).
  unfold same_layout. rewrite A, B, C, D, E, F, G, H.
  repeat split; try reflexivity.
  - destruct (Z.eq_dec (port_reg port d) 0) as [H0 | H0].
    + rewrite ems_write_page_select by exact H0. cbn [ems set_ems].
      destruct (Z.eqb_spec i (port_vpage port)) as [-> | _]; [|reflexivity].
      apply page_select_write_window.
    + destruct (Z.eq_dec (port_reg port d) 1) as [H1 | H1].
      * rewrite ems_write_frame_config by exact H1. cbv zeta.
        destruct (nonzero val); cbn [ems set_ems set_flags];
          destruct (Z.eqb_spec i (port_vpage port)) as [-> | _]; reflexivity.
      * rewrite ems_write_other by assumption. reflexivity.
  - destruct (Z.eq_dec (port_reg port d) 0) as [H0 | H0].
    + rewrite ems_write_page_select by exact H0. cbn [ems set_ems].
      destruct (Z.eqb_spec i (port_vpage port)) as [-> | _]; [|reflexivity].
      apply page_select_write_window.
    + destruct (Z.eq_dec (port_reg port d) 1) as [H1 | H1].
      * rewrite ems_write_frame_config by exact H1. cbv zeta.
        destruct (nonzero val); cbn [ems set_ems set_flags];
          destruct (Z.eqb_spec i (port_vpage port)) as [-> | _]; reflexivity.
      * rewrite ems_write_other by assumption. reflexivity.
Qed.

Lemma same_layout_trans d0 d1 d2 :
  same_layout d0 d1 -> same_layout d1 d2 -> same_layout d0 d2.
Proof.
  unfold same_layout.
  intros (A1 & A2 & A3 & A4 & A5 & A6 & A7 & A8 & A9)
         (B1 & B2 & B3 & B4 & B5 & B6 & B7 & B8 & B9).
  repeat split; try congruence.
  - destruct (A9 i) as [X _], (B9 i) as [Y _]. congruence.
  - destruct (A9 i) as [_ X], (B9 i) as [_ Y]. congruence.
Qed.

Lemma step_preserves d d' :
  step d d' -> same_layout d d' /\ (viewports_ok d -> viewports_ok d').
Proof.
  intros S. destruct S as [op d | a v m d d' E | a v m d d' E | a v m d d' E | a v m d d' E].
  - destruct op as [port | port val]; cbn [io_step fst].
    + split; [apply same_layout_refl | auto].
    + split; [apply ems_write_layout | apply ems_write_ok].
  - unfold ram_writeb in E.
    destruct (store8 _ _ _) as [b'|] eqn:Eb; [|discriminate]. injection E as <-.
    apply set_ram_layout. eapply store8_size. exact Eb.
  - unfold ram_writew in E.
    destruct (store16 _ _ _) as [b'|] eqn:Eb; [|discriminate]. injection E as <-.
    apply set_ram_layout. eapply store16_size. exact Eb.
  - unfold ems_writeb in E. destruct (ems_ptr a m d); [|discriminate].
    destruct (store8 _ _ _) as [b'|] eqn:Eb; [|discriminate]. injection E as <-.
    apply set_ram_layout. eapply store8_size. exact Eb.
  - unfold ems_writew in E. destruct (ems_ptr a m d); [|discriminate].
    destruct (store16 _ _ _) as [b'|] eqn:Eb; [|discriminate]. injection E as <-.
    apply set_ram_layout. eapply store16_size. exact Eb.
Qed.

Lemma reachable_preserves d0 d :
  reachable d0 d -> viewports_ok d0 -> same_layout d0 d /\ viewports_ok d.
Proof.
  intros R H0. induction R as [|d d' R IH S].
  - split; [apply same_layout_refl | exact H0].
  - destruct IH as [L V]. destruct (step_preserves d d' S) as [L' V'].
    split; [eapply same_layout_trans; eassumption | auto].
Qed.

(** The viewport windows [isamem_init] registers on a board with EMS. *)
Lemma isamem_init_windows AT local cfg h :
  let d := fst (isamem_init AT local cfg h) in
  flag_set (flags d) FLAG_EMS = true ->
  (frame_addr d = 0xD0000 \/ frame_addr d = 0xE0000) /\
  forall i, 0 <= i < 4 ->
    map_base (mapping (ems d i)) = frame_addr d + EMS_PGSIZE * i /\
    map_size (mapping (ems d i)) = EMS_PGSIZE.
Proof.
  cbv zeta. intros He.
  destruct (isamem_init_dev AT local cfg h)
    as (E & Hf & _ & Hfr & _ & _ & _ & _ & Hf2 & _ & Hfr2 & _).
  rewrite Hf in He.
  pose proof (init_board_ems AT local cfg h He) as HF.
  rewrite Hfr. split; [exact HF|].
  intros i Hi. rewrite E.
  rewrite setup_ems_regs by (try rewrite Hf2; assumption).
  cbn [mapping set_mapping map_base map_size]. rewrite Hfr2. consts.
  split; [|reflexivity].
  apply uint32_small. destruct HF as [-> | ->]; lia.
Qed.







(** * More on the viewport registers *)

(** X1: on a configured board a page-select write naming an existing page
    records the page and pre-calculates its address,
    [ems_start + page * 16384], whatever the enable bit; with the enable
    bit set the viewport is enabled and its window is enabled and rebound to
    that address; with the enable bit clear the viewport and its window are
    disabled and the window keeps the backing pointer it had.  The window's
    base and size never move. *)
Theorem page_select_maps_page d port val :
  port_reg port d = 0 -> configured d = true -> Z.land val 0x7f < ems_pages d ->
  let i := port_vpage port in
  let r := ems d i in
  let r' := ems (ems_write port val d) i in
  page r' = Z.land val 0x7f /\
  addr r' = Some (ems_start d + Z.land val 0x7f * EMS_PGSIZE) /\
  viewport_enabled (ems_write port val d) i = Z.testbit val 7 /\
  map_enable (mapping r') = Z.testbit val 7 /\
  map_exec (mapping r') =
    (if Z.testbit val 7 then addr r' else map_exec (mapping r)) /\
  map_base (mapping r') = map_base (mapping r) /\
  map_size (mapping r') = map_size (mapping r) /\
  frame r' = frame r.
Proof.
  intros H0 Hc Hlt. cbv zeta. rewrite ems_write_page_select by exact H0.
  unfold viewport_enabled. cbn [ems set_ems]. rewrite Z.eqb_refl.
  unfold page_select_write. rewrite Hc.
  pose proof (land_7f_range val) as Hr.
  assert (Hu : uint8 (Z.land val 0x7f) = Z.land val 0x7f) by (apply uint8_small; lia).
  reg_simpl. rewrite Hu.
  destruct (Z.ltb_spec (Z.land val 0x7f) (ems_pages d)) as [_ | Hge]; [|lia].
  reg_simpl. rewrite nonzero_int8_enable.
  destruct (Z.testbit val 7) eqn:Hb; reg_simpl; rewrite ?Hu, ?nonzero_int8_enable, ?Hb;
    repeat split; reflexivity.
Qed.

(** Scenario C: 85H written to viewport 2's page select on the configured
    EV-159 with 32 pages maps page 5, at offset 5 * 16384. *)
Lemma page_select_maps_page_witness :
  let d := run_io [IoWrite 0x259 0x80] ev159_fresh in
  port_reg 0x8258 d = 0 /\ configured d = true /\ Z.land 0x85 0x7f < ems_pages d /\
  page (ems (ems_write 0x8258 0x85 d) 2) = 5 /\
  addr (ems (ems_write 0x8258 0x85 d) 2) = Some (ems_start d + 5 * EMS_PGSIZE).
Proof.
  cbv zeta.
  assert (H0 : port_reg 0x8258 (run_io [IoWrite 0x259 0x80] ev159_fresh) = 0)
    by (vm_compute; reflexivity).
  assert (Hc : configured (run_io [IoWrite 0x259 0x80] ev159_fresh) = true)
    by (vm_compute; reflexivity).
  assert (Hp : Z.land 0x85 0x7f < ems_pages (run_io [IoWrite 0x259 0x80] ev159_fresh))
    by (vm_compute; reflexivity).
  split; [exact H0|]. split; [exact Hc|]. split; [exact Hp|].
  pose proof (page_select_maps_page _ 0x8258 0x85 H0 Hc Hp) as H.
  split; [exact (proj1 H) | exact (proj1 (proj2 H))].
Defined.

(** X2: a register write touches the register of the viewport the port
    belongs to and no other: every other viewport keeps its enabled state,
    page, frame byte, page address and mapping. *)
Theorem ems_write_other_viewports port val d j :
  j <> port_vpage port -> ems (ems_write port val d) j = ems d j.
Proof.
  intros Hj.
  destruct (Z.eq_dec (port_reg port d) 0) as [H0 | H0].
  - rewrite ems_write_page_select by exact H0. cbn [ems set_ems].
    destruct (Z.eqb_spec j (port_vpage port)); [contradiction | reflexivity].
  - destruct (Z.eq_dec (port_reg port d) 1) as [H1 | H1].
    + rewrite ems_write_frame_config by exact H1. cbv zeta.
      destruct (nonzero val); cbn [ems set_ems set_flags];
        (destruct (Z.eqb_spec j (port_vpage port)); [contradiction | reflexivity]).
    + rewrite ems_write_other by assumption. reflexivity.
Qed.

(** Mapping page 5 into viewport 2 leaves viewport 0 as it was. *)
Lemma ems_write_other_viewports_witness :
  0 <> port_vpage 0x8258 /\
  ems (ems_write 0x8258 0x85 ev159_fresh) 0 = ems ev159_fresh 0.
Proof.
  assert (H : 0 <> port_vpage 0x8258) by (vm_compute; discriminate).
  split; [exact H|].
  exact (ems_write_other_viewports 0x8258 0x85 ev159_fresh 0 H).
Defined.

Lemma ems_write_flags port val d :
  flags (ems_write port val d) = flags d \/
  flags (ems_write port val d) = uint8 (Z.lor (flags d) FLAG_CONFIG).
Proof.
  unfold ems_write.
  destruct (port_reg port d) as [|[?|?|]|?]; try (left; reflexivity).
  destruct (nonzero val); [right | left]; reflexivity.
Qed.

Lemma flag_set_or_config f k : 1 <= k < 8 ->
  flag_set (uint8 (Z.lor f FLAG_CONFIG)) (2 ^ k) = flag_set f (2 ^ k).
Proof.
  intros Hk. rewrite !flag_set_testbit by lia. rewrite testbit_or_flag by lia.
  change FLAG_CONFIG with (2 ^ 0). rewrite Z.pow2_bits_false by lia.
  apply orb_false_r.
Qed.

Lemma ems_write_keeps_flags port val d :
  (configured d = true -> configured (ems_write port val d) = true) /\
  flag_set (flags (ems_write port val d)) FLAG_WIDE = flag_set (flags d) FLAG_WIDE /\
  flag_set (flags (ems_write port val d)) FLAG_FAST = flag_set (flags d) FLAG_FAST /\
  flag_set (flags (ems_write port val d)) FLAG_EMS = flag_set (flags d) FLAG_EMS.
Proof.
  split; [apply ems_write_configured|].
  destruct (ems_write_flags port val d) as [-> | ->]; [repeat split; reflexivity|].
  change FLAG_WIDE with (2 ^ 4). change FLAG_FAST with (2 ^ 5).
  change FLAG_EMS with (2 ^ 6).
  repeat split; apply flag_set_or_config; lia.
Qed.

(** X3: no sequence of register accesses does anything but set the
    configured flag and rewrite viewport registers: a board that is
    configured stays configured, the 16-bit, fast and EMS flags keep their
    value, the RAM contents are untouched, and the I/O base, the frame, the
    pool, the plain mappings and the place of the windows stay as they are. *)
Theorem run_io_keeps_board ops : forall d,
  (configured d = true -> configured (run_io ops d) = true) /\
  flag_set (flags (run_io ops d)) FLAG_WIDE = flag_set (flags d) FLAG_WIDE /\
  flag_set (flags (run_io ops d)) FLAG_FAST = flag_set (flags d) FLAG_FAST /\
  flag_set (flags (run_io ops d)) FLAG_EMS = flag_set (flags d) FLAG_EMS /\
  ram (run_io ops d) = ram d /\
  same_layout d (run_io ops d).
Proof.
  unfold run_io. induction ops as [|op ops IH]; intros d; cbn [fold_left].
  - split; [auto|]. do 4 (split; [reflexivity|]). apply same_layout_refl.
  - destruct (IH (fst (io_step op d))) as (A & B & C & D & E & F).
    destruct op as [port | port val]; cbn [io_step fst] in *.
    + exact (conj A (conj B (conj C (conj D (conj E F))))).
    + destruct (ems_write_keeps_flags port val d) as (A' & B' & C' & D').
      destruct (ems_write_frame port val d) as (_ & _ & _ & _ & _ & E' & _).
      split; [auto|]. split; [congruence|]. split; [congruence|].
      split; [congruence|]. split; [congruence|].
      eapply same_layout_trans; [apply ems_write_layout | exact F].
Qed.

(** X4: an access to a port that is neither register of a pair is ignored:
    the write leaves the device as it is and the read hands back FFH. *)
Theorem other_ports_ignored port val d :
  port_reg port d <> 0 -> port_reg port d <> 1 ->
  ems_write port val d = d /\ ems_read port d = 0xff.
Proof.
  intros H0 H1. split; [apply ems_write_other; assumption|].
  unfold ems_read. destruct (port_reg port d) as [|[?|?|]|?]; congruence.
Qed.

(** Port 25AH is past the pair at 258H. *)
Lemma other_ports_ignored_witness :
  port_reg 0x25A ev159_fresh <> 0 /\ port_reg 0x25A ev159_fresh <> 1 /\
  ems_write 0x25A 0x85 ev159_fresh = ev159_fresh.
Proof.
  assert (H0 : port_reg 0x25A ev159_fresh <> 0) by (vm_compute; discriminate).
  assert (H1 : port_reg 0x25A ev159_fresh <> 1) by (vm_compute; discriminate).
  split; [exact H0|]. split; [exact H1|].
  exact (proj1 (other_ports_ignored 0x25A 0x85 ev159_fresh H0 H1)).
Defined.

(** * More on the translators *)

Lemma load8_store8_other b off v b' off' :
  store8 b off v = Some b' -> off' <> off -> load8 b' off' = load8 b off'.
Proof.
  unfold store8, load8. destruct (in_buffer b off); [|discriminate].
  intros [= <-] Hne. unfold in_buffer. cbn [buf_size buf_data].
  destruct (Z.eqb_spec off' off); [contradiction | reflexivity].
Qed.

Lemma run_io_ram ops : forall d, ram (run_io ops d) = ram d.
Proof.
  unfold run_io. induction ops as [|op ops IH]; intros d; cbn [fold_left]; [reflexivity|].
  rewrite IH. destruct op; cbn [io_step fst]; [reflexivity | apply ems_write_frame].
Qed.

Lemma reachable_run_io d0 ops : forall d, reachable d0 d -> reachable d0 (run_io ops d).
Proof.
  unfold run_io. induction ops as [|op ops IH]; intros d R; cbn [fold_left]; [exact R|].
  apply IH. eapply reach_step; [exact R | apply step_io].
Qed.

(** X5: a byte written through a plain translator changes that byte alone:
    a read at any other buffer offset, through any mapping, gives what it
    gave before, and the registers, flags and layout are untouched. *)
Theorem ram_writeb_other_bytes a v m d d' a' m' :
  ram_writeb a v m d = Some d' ->
  uint32 (a' - map_base m') <> uint32 (a - map_base m) ->
  ram_readb a' m' d' = ram_readb a' m' d /\
  ems d' = ems d /\ flags d' = flags d /\ same_layout d d'.
Proof.
  intros E Hne. unfold ram_writeb in E.
  destruct (store8 (ram d) (uint32 (a - map_base m)) v) as [b'|] eqn:Eb; [|discriminate].
  injection E as <-. split.
  - unfold ram_readb. cbn [ram set_ram]. eapply load8_store8_other; eassumption.
  - split; [reflexivity|]. split; [reflexivity|].
    apply set_ram_layout. eapply store8_size. exact Eb.
Qed.

(** On the IBM PC/XT card with 128 KB at 256 KB: writing at 300000 leaves
    the byte at 300001 as it was. *)
Lemma ram_writeb_other_bytes_witness :
  let d := fst (isamem_init false 0 (mkConfig 128 256 0 0 0 0 0 0) host_empty) in
  exists d', ram_writeb 300000 0xAB (low_mapping d) d = Some d' /\
             ram_readb 300001 (low_mapping d) d' = ram_readb 300001 (low_mapping d) d.
Proof.
  cbv zeta.
  set (d := fst (isamem_init false 0 (mkConfig 128 256 0 0 0 0 0 0) host_empty)).
  destruct (ram_writeb 300000 0xAB (low_mapping d) d) as [d'|] eqn:E.
  - exists d'. split; [reflexivity|].
    refine (proj1 (ram_writeb_other_bytes 300000 0xAB (low_mapping d) d d' 300001
              (low_mapping d) E _)).
    vm_compute. discriminate.
  - exfalso. vm_compute in E. discriminate.
Defined.

(** X19: the plain translators index the RAM buffer by [addr - map->base]
    alone, from the start of the buffer, whatever the mapping's backing
    pointer is: a byte written through one mapping is the byte read through
    any mapping at the same distance from its base. *)
Theorem ram_translators_share_offsets a1 m1 a2 m2 v d d' :
  ram_writeb a1 v m1 d = Some d' ->
  uint32 (a2 - map_base m2) = uint32 (a1 - map_base m1) ->
  ram_readb a2 m2 d' = Some v.
Proof.
  intros E Ho. unfold ram_writeb in E.
  destruct (store8 (ram d) (uint32 (a1 - map_base m1)) v) as [b'|] eqn:Eb; [|discriminate].
  injection E as <-. unfold ram_readb. cbn [ram set_ram]. rewrite Ho.
  eapply load8_store8. exact Eb.
Qed.

(** The IBM PC/AT card with 1024 KB from 512 KB on an AT: the extended
    mapping at 1 MB has its backing pointer 512 KB into the buffer, yet the
    byte written at its first address is read at the first address of the
    conventional mapping. *)
Lemma ram_translators_share_offsets_witness :
  let d := fst (isamem_init true 1 (mkConfig 1024 512 0 0 0 0 0 0) host_empty) in
  map_base (low_mapping d) = 524288 /\ map_exec (low_mapping d) = Some 0 /\
  map_base (high_mapping d) = 1048576 /\ map_exec (high_mapping d) = Some 524288 /\
  exists d', ram_writeb 1048576 0x5A (high_mapping d) d = Some d' /\
             ram_readb 524288 (low_mapping d) d' = Some 0x5A.
Proof.
  cbv zeta.
  set (d := fst (isamem_init true 1 (mkConfig 1024 512 0 0 0 0 0 0) host_empty)).
  split; [vm_compute; reflexivity|]. split; [vm_compute; reflexivity|].
  split; [vm_compute; reflexivity|]. split; [vm_compute; reflexivity|].
  destruct (ram_writeb 1048576 0x5A (high_mapping d) d) as [d'|] eqn:E.
  - exists d'. split; [reflexivity|].
    refine (ram_translators_share_offsets 1048576 (high_mapping d) 524288
              (low_mapping d) 0x5A d d' E _).
    vm_compute. reflexivity.
  - exfalso. vm_compute in E. discriminate.
Defined.

(** Where an access through the window of an enabled viewport lands: in
    the page the viewport shows, at the distance from the window's base,
    inside the RAM buffer. *)
Lemma window_ptr AT local cfg h d i a :
  contiguous_fits AT local cfg ->
  reachable (fst (isamem_init AT local cfg h)) d ->
  0 <= i < 4 -> window_enabled d i = true -> inside (mapping (ems d i)) a ->
  let o := a - map_base (mapping (ems d i)) in
  0 <= o < EMS_PGSIZE /\
  0 <= page (ems d i) < ems_pages d /\
  ems_ptr a (mapping (ems d i)) d =
    Some (ems_start d + page (ems d i) * EMS_PGSIZE + o) /\
  0 <= ems_start d /\
  ems_start d + ems_pages d * EMS_PGSIZE <= buf_size (ram d).
Proof.
  intros Hfit R Hi Hw Ha. cbv zeta.
  destruct (reachable_preserves _ _ R (isamem_init_ok AT local cfg h)) as [L V].
  destruct L as (_ & Lf & _ & Lp & Ls & _ & _ & Lb & Lw).
  destruct (isamem_init_pool AT local cfg h Hfit) as (_ & _ & _ & _ & Hn).
  destruct (pool_in_ram_fits AT local cfg h Hfit) as (Hpool & Hs0 & Hp0).
  destruct (ram_bytes_total AT local cfg h) as (_ & HB & HT).
  set (d0 := fst (isamem_init AT local cfg h)) in *.
  destruct (V i) as [Hpg Hen]. unfold window_enabled in Hw.
  destruct (Hen Hw) as (_ & Hlt & _ & Haddr & _).
  assert (He : flag_set (flags d0) FLAG_EMS = true).
  { destruct (flag_set (flags d0) FLAG_EMS) eqn:He; [reflexivity|].
    destruct (Hn eq_refl) as (Hz & _). rewrite Lp, Hz in Hlt. lia. }
  destruct (isamem_init_windows AT local cfg h He) as (HF & HW).
  fold d0 in HF, HW.
  destruct (HW i Hi) as (Wb & Wsz). destruct (Lw i) as (Lwb & Lwsz).
  unfold pool_in_ram in Hpool. unfold inside in Ha.
  rewrite Lwb, Wb, Lwsz, Wsz in Ha. rewrite Lwb, Wb, Ls, Lp, Lb, HB.
  consts.
  set (o := a - (frame_addr d0 + 16384 * i)).
  assert (Ho : 0 <= o < 16384) by (subst o; lia).
  assert (Hmod : frame_addr d0 mod 65536 = 0) by (destruct HF as [-> | ->]; reflexivity).
  assert (Hvp : addr_vpage a = i).
  { replace a with (frame_addr d0 + EMS_PGSIZE * i + o) by (subst o; consts; lia).
    apply addr_vpage_window; assumption. }
  split; [exact Ho|]. split; [rewrite Lp in Hlt; lia|]. split.
  - unfold ems_ptr. rewrite Hvp, Haddr, Ls, Lwb, Wb. consts.
    rewrite uint32_small by (subst o; lia). reflexivity.
  - split; [exact Hs0 | lia].
Qed.

Lemma window_ptr_in_buffer AT local cfg h d i a p :
  contiguous_fits AT local cfg ->
  reachable (fst (isamem_init AT local cfg h)) d ->
  0 <= i < 4 -> window_enabled d i = true -> inside (mapping (ems d i)) a ->
  ems_ptr a (mapping (ems d i)) d = Some p -> in_buffer (ram d) p = true.
Proof.
  intros Hfit R Hi Hw Ha Hp.
  destruct (window_ptr AT local cfg h d i a Hfit R Hi Hw Ha) as (Ho & Hpg & E & Hs & Hb).
  rewrite E in Hp. injection Hp as <-. consts.
  unfold in_buffer. apply andb_true_iff. split; [apply Z.leb_le | apply Z.ltb_lt]; nia.
Qed.

(** X6: what is written into a page stays in the page while the viewports
    are switched.  A byte written through the window of an enabled viewport
    i is, after any sequence of register accesses, the byte read through the
    window of whichever enabled viewport j then shows the same page, at the
    same distance from the window's base. *)
Theorem page_contents_persist AT local cfg h d ops i j a v d1 :
  contiguous_fits AT local cfg ->
  reachable (fst (isamem_init AT local cfg h)) d ->
  0 <= i < 4 -> 0 <= j < 4 ->
  window_enabled d i = true -> inside (mapping (ems d i)) a ->
  ems_writeb a v (mapping (ems d i)) d = Some d1 ->
  let d2 := run_io ops d1 in
  window_enabled d2 j = true -> page (ems d2 j) = page (ems d i) ->
  ems_readb (a + EMS_PGSIZE * (j - i)) (mapping (ems d2 j)) d2 = Some v.
Proof.
  intros Hfit R Hi Hj Hw Ha E. cbv zeta. intros Hw2 Hpage.
  assert (R1 : reachable (fst (isamem_init AT local cfg h)) d1).
  { eapply reach_step; [exact R | eapply step_ems_writeb; exact E]. }
  pose proof (reachable_run_io _ ops _ R1) as R2.
  destruct (reachable_preserves _ _ R (isamem_init_ok AT local cfg h)) as [L _].
  destruct (reachable_preserves _ _ R2 (isamem_init_ok AT local cfg h)) as [L2 _].
  destruct L as (_ & _ & _ & _ & Ls & _ & _ & _ & Lw).
  destruct L2 as (_ & _ & _ & _ & Ls2 & _ & _ & _ & Lw2).
  destruct (window_ptr AT local cfg h d i a Hfit R Hi Hw Ha) as (Ho & _ & P & _).
  set (d0 := fst (isamem_init AT local cfg h)) in *.
  (* the windows are 16 KB apart *)
  assert (He : flag_set (flags d0) FLAG_EMS = true).
  { destruct (flag_set (flags d0) FLAG_EMS) eqn:He; [reflexivity|].
    destruct (isamem_init_pool AT local cfg h Hfit) as (_ & _ & _ & _ & Hn).
    destruct (Hn He) as (Hz & _).
    destruct (reachable_preserves _ _ R (isamem_init_ok AT local cfg h)) as [L V].
    destruct L as (_ & _ & _ & Lp & _). destruct (V i) as [Hpg Hen].
    destruct (Hen Hw) as (_ & Hlt & _).
    rewrite Lp in Hlt. fold d0 in Hz. rewrite Hz in Hlt. lia. }
  destruct (isamem_init_windows AT local cfg h He) as (_ & HW). fold d0 in HW.
  destruct (HW i Hi) as (Wi & Wis). destruct (HW j Hj) as (Wj & Wjs).
  destruct (Lw i) as (Bi & Si). destruct (Lw2 j) as (Bj & Sj).
  assert (Ha2 : inside (mapping (ems (run_io ops d1) j)) (a + EMS_PGSIZE * (j - i))).
  { unfold inside in *. rewrite Bj, Wj, Sj, Wjs. rewrite Bi, Wi, Si, Wis in Ha.
    consts. lia. }
  destruct (window_ptr AT local cfg h _ j _ Hfit R2 Hj Hw2 Ha2) as (_ & _ & P2 & _).
  unfold ems_readb. rewrite P2, Hpage, Ls2, <- Ls.
  replace (a + EMS_PGSIZE * (j - i) - map_base (mapping (ems (run_io ops d1) j)))
    with (a - map_base (mapping (ems d i))) by (rewrite Bj, Wj, Bi, Wi; consts; lia).
  rewrite run_io_ram.
  unfold ems_writeb in E. rewrite P in E.
  destruct (store8 (ram d) _ v) as [b'|] eqn:Eb; [|discriminate].
  injection E as <-. cbn [ram set_ram]. eapply load8_store8. exact Eb.
Qed.

(** The EV-159 with 384 KB conventional RAM and 40 pages, configured, with
    page 5 in viewport 2: the byte written at E8010H is read at E0010H once
    viewport 2 has been switched to page 3 and viewport 0 to page 5. *)
Lemma page_contents_persist_witness :
  let cfg := ev159_cfg 1024 256 384 1 0x258 in
  let d0 := fst (isamem_init false 10 cfg host_empty) in
  let d := ems_write 0x8258 0x85 (ems_write 0x259 0x80 d0) in
  let ops := [IoWrite 0x8258 0x83; IoWrite 0x258 0x85] in
  exists d1, ems_writeb 0xE8010 0x77 (mapping (ems d 2)) d = Some d1 /\
    page (ems (run_io ops d1) 0) = page (ems d 2) /\
    ems_readb 0xE0010 (mapping (ems (run_io ops d1) 0)) (run_io ops d1) = Some 0x77.
Proof.
  cbv zeta.
  set (cfg := ev159_cfg 1024 256 384 1 0x258).
  set (d0 := fst (isamem_init false 10 cfg host_empty)).
  set (d := ems_write 0x8258 0x85 (ems_write 0x259 0x80 d0)).
  set (ops := [IoWrite 0x8258 0x83; IoWrite 0x258 0x85]).
  assert (Hfit : contiguous_fits false 10 cfg) by (vm_compute; discriminate).
  assert (R : reachable d0 d).
  { exact (reach_step d0 _ _
             (reach_step d0 _ _ (reach_init d0) (step_io (IoWrite 0x259 0x80) d0))
             (step_io (IoWrite 0x8258 0x85) (ems_write 0x259 0x80 d0))). }
  assert (V2 : 0 <= 2 < 4) by (split; [discriminate | reflexivity]).
  assert (V0 : 0 <= 0 < 4) by (split; [discriminate | reflexivity]).
  assert (W : window_enabled d 2 = true) by (vm_compute; reflexivity).
  assert (I : inside (mapping (ems d 2)) 0xE8010)
    by (vm_compute; split; [discriminate | reflexivity]).
  destruct (ems_writeb 0xE8010 0x77 (mapping (ems d 2)) d) as [d1|] eqn:E.
  - exists d1. split; [reflexivity|].
    assert (E1 : d1 = set_ram (ram d1) d).
    { unfold ems_writeb in E. destruct (ems_ptr _ _ d); [|discriminate].
      destruct (store8 _ _ _); [|discriminate]. injection E as <-. reflexivity. }
    assert (W2 : window_enabled (run_io ops d1) 0 = true)
      by (rewrite E1; vm_compute; reflexivity).
    assert (P : page (ems (run_io ops d1) 0) = page (ems d 2))
      by (rewrite E1; vm_compute; reflexivity).
    split; [exact P|].
    exact (page_contents_persist false 10 cfg host_empty d ops 2 0 0xE8010 0x77 d1
             Hfit R V2 V0 W I E W2 P).
  - exfalso. vm_compute in E. discriminate.
Defined.

(** X7: pages do not overlap.  A byte written through the window of an
    enabled viewport leaves every byte seen through an enabled viewport
    that shows another page as it was. *)
Theorem other_pages_untouched AT local cfg h d i j a a' v d1 :
  contiguous_fits AT local cfg ->
  reachable (fst (isamem_init AT local cfg h)) d ->
  0 <= i < 4 -> 0 <= j < 4 ->
  window_enabled d i = true -> window_enabled d j = true ->
  inside (mapping (ems d i)) a -> inside (mapping (ems d j)) a' ->
  page (ems d j) <> page (ems d i) ->
  ems_writeb a v (mapping (ems d i)) d = Some d1 ->
  ems_readb a' (mapping (ems d j)) d1 = ems_readb a' (mapping (ems d j)) d.
Proof.
  intros Hfit R Hi Hj Hwi Hwj Ha Ha' Hne E.
  destruct (window_ptr AT local cfg h d i a Hfit R Hi Hwi Ha) as (Ho & _ & P & _).
  destruct (window_ptr AT local cfg h d j a' Hfit R Hj Hwj Ha') as (Ho' & _ & P' & _).
  unfold ems_writeb in E. rewrite P in E.
  destruct (store8 (ram d) _ v) as [b'|] eqn:Eb; [|discriminate].
  injection E as <-. unfold ems_readb.
  assert (P1 : ems_ptr a' (mapping (ems d j)) (set_ram b' d) =
               ems_ptr a' (mapping (ems d j)) d) by reflexivity.
  rewrite P1, P'. cbn [ram set_ram].
  eapply load8_store8_other; [exact Eb|]. consts. lia.
Qed.

(** With page 5 in viewport 2 and page 3 in viewport 0, a write at E8010H
    leaves the byte at E0010H as it was. *)
Lemma other_pages_untouched_witness :
  let cfg := ev159_cfg 1024 256 384 1 0x258 in
  let d0 := fst (isamem_init false 10 cfg host_empty) in
  let d := run_io [IoWrite 0x259 0x80; IoWrite 0x8258 0x85; IoWrite 0x258 0x83] d0 in
  page (ems d 0) <> page (ems d 2) /\
  exists d1, ems_writeb 0xE8010 0x77 (mapping (ems d 2)) d = Some d1 /\
    ems_readb 0xE0010 (mapping (ems d 0)) d1 = ems_readb 0xE0010 (mapping (ems d 0)) d.
Proof.
  cbv zeta.
  set (cfg := ev159_cfg 1024 256 384 1 0x258).
  set (d0 := fst (isamem_init false 10 cfg host_empty)).
  set (d := run_io [IoWrite 0x259 0x80; IoWrite 0x8258 0x85; IoWrite 0x258 0x83] d0).
  assert (Hfit : contiguous_fits false 10 cfg) by (vm_compute; discriminate).
  assert (R : reachable d0 d) by (apply reachable_run_io; apply reach_init).
  assert (V2 : 0 <= 2 < 4) by (split; [discriminate | reflexivity]).
  assert (V0 : 0 <= 0 < 4) by (split; [discriminate | reflexivity]).
  assert (W2 : window_enabled d 2 = true) by (vm_compute; reflexivity).
  assert (W0 : window_enabled d 0 = true) by (vm_compute; reflexivity).
  assert (I2 : inside (mapping (ems d 2)) 0xE8010)
    by (vm_compute; split; [discriminate | reflexivity]).
  assert (I0 : inside (mapping (ems d 0)) 0xE0010)
    by (vm_compute; split; [discriminate | reflexivity]).
  assert (N : page (ems d 0) <> page (ems d 2)) by (vm_compute; discriminate).
  split; [exact N|].
  destruct (ems_writeb 0xE8010 0x77 (mapping (ems d 2)) d) as [d1|] eqn:E.
  - exists d1. split; [reflexivity|].
    exact (other_pages_untouched false 10 cfg host_empty d 2 0 0xE8010 0xE0010 0x77 d1
             Hfit R V2 V0 W2 W0 I2 I0 N E).
  - exfalso. vm_compute in E. discriminate.
Defined.

(** * More on the layout *)

Lemma carve_low_mapping l :
  low_mapping (l_dev (carve_low l)) = low_mapping (l_dev l) \/
  map_word (low_mapping (l_dev (carve_low l))) = flag_set (flags (l_dev l)) FLAG_WIDE.
Proof.
  unfold carve_low. destruct (0 <? _); [right | left]; reflexivity.
Qed.

Lemma no_carving_identity AT l :
  (0 <? l_addr l) && (0 <? l_tot l) = false ->
  carve_high AT (carve_conventional l) = l.
Proof.
  intros Hc. unfold carve_conventional. rewrite Hc.
  unfold carve_high. rewrite <- andb_assoc, Hc, andb_false_r. reflexivity.
Qed.

Lemma init_board_8bit local cfg h :
  flag_set (flags (l_dev (init_board false local cfg h))) FLAG_WIDE = false /\
  flag_set (flags (l_dev (init_board false local cfg h))) FLAG_EMS =
    flag_set (flags (fst (board_setup local cfg))) FLAG_EMS.
Proof.
  unfold init_board. destruct (board_setup local cfg) as [dev tot]. dev_simpl.
  cbn [negb andb].
  match goal with
  | |- context [if ?c then _ else _] => destruct c eqn:Hw
  end; dev_simpl; [|split; [exact Hw | reflexivity]].
  change FLAG_WIDE with (2 ^ 4). change FLAG_EMS with (2 ^ 6).
  rewrite !flag_set_testbit by lia. rewrite !Z.land_spec, !Z.lnot_spec by lia.
  rewrite Z.pow2_bits_true by lia. rewrite Z.pow2_bits_false by lia.
  split; [apply andb_false_r | apply andb_true_r].
Qed.

(** X8: on a system that is not AT class the board is forced to 8 bits and
    gets no extended memory: after [isamem_init] the 16-bit flag is clear
    (and the EMS flag is as the per-board setup left it), no extended
    mapping is registered, and neither the conventional mapping nor any
    viewport window has word handlers. *)
Theorem not_AT_is_8bit local cfg h :
  let d := fst (isamem_init false local cfg h) in
  flag_set (flags d) FLAG_WIDE = false /\
  flag_set (flags d) FLAG_EMS = flag_set (flags (fst (board_setup local cfg))) FLAG_EMS /\
  high_mapping d = mapping_zero /\
  map_word (low_mapping d) = false /\
  forall i, map_word (mapping (ems d i)) = false.
Proof.
  cbv zeta.
  destruct (isamem_init_dev false local cfg h)
    as (E & Hf & _ & _ & _ & _ & Hl & Hh & Hf2 & _ & _ & He & _).
  destruct (init_board_8bit local cfg h) as (Hw & Hems).
  destruct (init_board_shape false local cfg h)
    as (f & ts & ba & sa & fa & tot & E0 & _).
  set (l0 := init_board false local cfg h) in *.
  assert (Hch : carve_high false (carve_conventional l0) = carve_conventional l0)
    by reflexivity.
  rewrite Hch in *.
  split; [congruence|]. split; [congruence|]. split; [|split].
  - rewrite Hh. destruct (carve_conventional_same l0)
      as ((_ & _ & _ & _ & _ & _ & _ & _ & _ & _ & _) & _).
    unfold carve_conventional.
    destruct ((0 <? l_addr l0) && (0 <? l_tot l0)).
    + set (l1 := mkLayout _ _ _ _ _ _).
      destruct (carve_uma_same (carve_low l1)) as (-> & _).
      unfold carve_low. destruct (0 <? _); subst l1; dev_simpl; rewrite E0; reflexivity.
    + rewrite E0. reflexivity.
  - rewrite Hl. unfold carve_conventional.
    destruct ((0 <? l_addr l0) && (0 <? l_tot l0)).
    + set (l1 := mkLayout _ _ _ _ _ _).
      destruct (carve_uma_same (carve_low l1)) as (-> & _).
      destruct (carve_low_mapping l1) as [-> | ->].
      * subst l1. cbn [l_dev]. rewrite E0. reflexivity.
      * exact Hw.
    + rewrite E0. reflexivity.
  - intros i. rewrite E.
    destruct (Z_le_dec 0 i) as [H0 | H0]; [destruct (Z_lt_dec i 4) as [H4 | H4]|].
    + destruct (flag_set (flags (l_dev (carve_conventional l0))) FLAG_EMS) eqn:Hems'.
      * rewrite setup_ems_regs by (auto; lia). cbn [mapping set_mapping map_word].
        rewrite Hf2. exact Hw.
      * rewrite setup_ems_off by exact Hems'. cbn [fst]. rewrite He, E0. reflexivity.
    + rewrite setup_ems_other by lia. rewrite He, E0. reflexivity.
    + rewrite setup_ems_other by lia. rewrite He, E0. reflexivity.
Qed.

Lemma board_setup_ems local cfg :
  flag_set (flags (fst (board_setup local cfg))) FLAG_EMS = true <->
  (Z.land local 63 = 3 \/ (Z.land local 63 = 10 /\ nonzero (cfg_ems cfg) = true)).
Proof.
  unfold board_setup, memdev_zero. dev_simpl.
  remember (Z.land local 63) as b eqn:Eb. clear Eb.
  board_cases b; dev_simpl;
    try (destruct (nonzero (cfg_width cfg)));
    try (destruct (nonzero (cfg_speed cfg)));
    try (destruct (nonzero (cfg_ems cfg)));
    dev_simpl;
    (split; intros H;
     [ first [ left; reflexivity | right; split; reflexivity
             | exfalso; vm_compute in H; discriminate ]
     | first [ vm_compute; reflexivity
             | exfalso; destruct H as [H | [H1 H2]];
               first [ discriminate H | discriminate H1 | discriminate H2 ] ] ]).
Qed.

Lemma init_flags_ems AT local cfg h :
  flag_set (flags (fst (isamem_init AT local cfg h))) FLAG_EMS =
  flag_set (flags (fst (board_setup local cfg))) FLAG_EMS.
Proof.
  destruct (isamem_init_dev AT local cfg h) as (_ & -> & _).
  destruct AT.
  - unfold init_board. destruct (board_setup local cfg) as [dev tot]. reflexivity.
  - apply init_board_8bit.
Qed.

Lemma setup_ems_host l :
  mem_state (snd (setup_ems l)) = mem_state (l_host l) /\
  ram_remapped_mapping (snd (setup_ems l)) = ram_remapped_mapping (l_host l).
Proof.
  unfold setup_ems. destruct (flag_set (flags (l_dev l)) FLAG_EMS); [|split; reflexivity].
  cbn [fold_left]. unfold ems_setup_page. dev_simpl. map_simpl. split; reflexivity.
Qed.

(** X9: only the EMS-5150, and the EV-159 with its EMS option on, come out
    of [isamem_init] with EMS enabled.  Every other board registers no I/O
    handler, keeps its viewport registers zeroed and has no pool. *)
Theorem ems_only_on_ems_boards AT local cfg h :
  let d := fst (isamem_init AT local cfg h) in
  let h' := snd (isamem_init AT local cfg h) in
  (flag_set (flags d) FLAG_EMS = true <->
     (Z.land local 63 = 3 \/ (Z.land local 63 = 10 /\ nonzero (cfg_ems cfg) = true))) /\
  (flag_set (flags d) FLAG_EMS = false ->
     io_handlers h' = io_handlers h /\ (forall i, ems d i = emsreg_zero) /\
     ems_pages d = 0 /\ ems_size d = 0 /\ ems_start d = 0).
Proof.
  cbv zeta. split.
  - rewrite init_flags_ems. apply board_setup_ems.
  - intros He.
    destruct (isamem_init_dev AT local cfg h)
      as (E & Hf & _ & _ & _ & _ & _ & _ & Hf2 & _ & _ & Hems & _).
    rewrite Hf, <- Hf2 in He. rewrite E, (setup_ems_off _ He). cbn [fst snd].
    destruct (carve_same AT (init_board AT local cfg h))
      as ((_ & _ & _ & _ & _ & _ & S7 & S8 & S9 & _) & I).
    rewrite I, Hems, S7, S8, S9.
    destruct (init_board_shape AT local cfg h)
      as (f & ts & ba & sa & fa & tot & E0 & _).
    rewrite E0. cbn. repeat split; reflexivity.
Qed.

(** The IBM PC/XT card has no EMS. *)
Lemma ems_only_on_ems_boards_witness :
  let d := fst (isamem_init false 0 (mkConfig 128 256 0 0 0 0 0 0) host_empty) in
  flag_set (flags d) FLAG_EMS = false /\ ems_pages d = 0.
Proof.
  cbv zeta.
  assert (He : flag_set (flags (fst (isamem_init false 0
                 (mkConfig 128 256 0 0 0 0 0 0) host_empty))) FLAG_EMS = false)
    by (vm_compute; reflexivity).
  split; [exact He|].
  exact (proj1 (proj2 (proj2 (proj2 (ems_only_on_ems_boards false 0
           (mkConfig 128 256 0 0 0 0 0 0) host_empty) He)))).
Defined.

(** X10: the memory start address 0 adds no memory: [isamem_init] then
    registers neither the conventional nor the extended mapping, marks no
    range as external RAM and leaves the shared remap window alone. *)
Theorem start_zero_adds_no_memory AT local cfg h :
  let d := fst (isamem_init AT local cfg h) in
  let h' := snd (isamem_init AT local cfg h) in
  start_addr d = 0 ->
  low_mapping d = mapping_zero /\ high_mapping d = mapping_zero /\
  mem_state h' = mem_state h /\
  ram_remapped_mapping h' = ram_remapped_mapping h.
Proof.
  cbv zeta. intros Hs.
  pose proof (start_zero_no_carving AT local cfg h Hs) as Hc.
  destruct (isamem_init_dev AT local cfg h) as (E & _ & _ & _ & _ & _ & Hl & Hh & _).
  unfold carving, tot_bytes in Hc.
  destruct (init_board_host AT local cfg h host_empty) as (_ & _ & Ht & Ha & _ & Hh0).
  rewrite <- Ht, <- Ha in Hc.
  rewrite Hl, Hh, E. destruct (setup_ems_host
    (carve_high AT (carve_conventional (init_board AT local cfg h)))) as (-> & ->).
  rewrite (no_carving_identity AT _ Hc), Hh0.
  destruct (init_board_shape AT local cfg h)
    as (f & ts & ba & sa & fa & tot & E0 & _).
  rewrite E0. cbn. repeat split; reflexivity.
Qed.

(** The EV-159 of Scenario B starts at 0. *)
Lemma start_zero_adds_no_memory_witness :
  start_addr ev159_fresh = 0 /\ low_mapping ev159_fresh = mapping_zero.
Proof.
  assert (Hs : start_addr ev159_fresh = 0) by (vm_compute; reflexivity).
  split; [exact Hs|].
  exact (proj1 (start_zero_adds_no_memory false 10 (ev159_cfg 512 0 0 1 0x258)
                  host_empty Hs)).
Defined.

(** The conventional region [carve_low] registers, and the cursors it
    leaves. *)
Lemma carve_low_regions d0 h k tot sa :
  low_mapping d0 = mapping_zero ->
  0 < sa < 4294967296 -> 0 < tot < 4294967296 ->
  let l' := carve_low (mkLayout d0 h k tot sa 0) in
  let lo := low_mapping (l_dev l') in
  (lo = mapping_zero \/
   (map_enable lo = true /\ map_base lo = sa /\ 0 < map_size lo /\
    map_base lo + map_size lo <= RAM_TOPMEM /\ map_exec lo = Some 0)) /\
  high_mapping (l_dev l') = high_mapping d0 /\
  ram_remapped_mapping (l_host l') = ram_remapped_mapping h /\
  l_ptr l' = map_size lo /\ 0 <= l_ptr l' /\ 0 <= l_tot l' /\
  l_ptr l' + l_tot l' = tot /\
  0 < l_addr l' < 4294967296 /\ (0 < l_tot l' -> RAM_TOPMEM <= l_addr l').
Proof.
  intros Hl Ha Ht. cbv zeta. unfold carve_low. consts.
  cbv beta iota delta [l_dev l_host l_k l_tot l_addr l_ptr].
  destruct (Z.ltb_spec sa 655360) as [Hlo | Hhi].
  - rewrite (uint32_small (655360 - sa)) by lia.
    destruct (Z.ltb_spec 0 (655360 - sa)) as [_ | Hn]; [|lia].
    destruct (Z.ltb_spec tot (655360 - sa)) as [Hmin | Hmin];
      dev_simpl; map_simpl; u32;
      (split; [right; repeat split; try reflexivity; lia|]);
      repeat split; try reflexivity; lia.
  - destruct (Z.ltb_spec 0 0) as [Hq | _]; [lia|].
    cbv beta iota delta [l_dev l_host l_k l_tot l_addr l_ptr].
    rewrite Hl. cbn [map_size mapping_zero].
    split; [left; reflexivity|]. repeat split; try reflexivity; lia.
Qed.

(** The remap window [carve_uma] registers, if any. *)
Lemma carve_uma_regions l :
  0 <= l_tot l < 4294967296 ->
  let l' := carve_uma l in
  l_dev l' = l_dev l /\
  ((ram_remapped_mapping (l_host l') = ram_remapped_mapping (l_host l) /\
    l_ptr l' = l_ptr l /\ l_tot l' = l_tot l /\ l_addr l' = l_addr l) \/
   (map_enable (ram_remapped_mapping (l_host l')) = false /\
    map_size (ram_remapped_mapping (l_host l')) = RAM_UMAMEM /\
    map_exec (ram_remapped_mapping (l_host l')) = Some (l_ptr l) /\
    l_ptr l' = l_ptr l + RAM_UMAMEM /\ l_tot l' = l_tot l - RAM_UMAMEM /\
    0 <= l_tot l' /\ l_addr l' = RAM_EXTMEM)).
Proof.
  intros Ht. cbv zeta. unfold carve_uma. consts.
  destruct (Z.eqb_spec (l_addr l) 655360) as [He | Hne]; cbn [andb].
  - destruct (Z.leb_spec 393216 (l_tot l)) as [Hu | Hu].
    + split; [reflexivity|]. right. dev_simpl. map_simpl. u32. rewrite He.
      repeat split; try reflexivity; lia.
    + split; [reflexivity|]. left. repeat split; reflexivity.
  - split; [reflexivity|]. left. repeat split; reflexivity.
Qed.

(** The extended region [carve_high] registers, if any. *)
Lemma carve_high_regions AT l :
  high_mapping (l_dev l) = mapping_zero ->
  0 <= l_tot l < 4294967296 -> 0 <= l_addr l < 4294967296 ->
  (0 < l_tot l -> RAM_TOPMEM <= l_addr l) ->
  let l' := carve_high AT l in
  let hi := high_mapping (l_dev l') in
  low_mapping (l_dev l') = low_mapping (l_dev l) /\
  ram_remapped_mapping (l_host l') = ram_remapped_mapping (l_host l) /\
  ((hi = mapping_zero /\ l_ptr l' = l_ptr l) \/
   (AT = true /\ map_enable hi = true /\ RAM_TOPMEM <= map_base hi /\
    0 < map_size hi /\ map_exec hi = Some (l_ptr l) /\
    l_ptr l' = l_ptr l + map_size hi /\ map_size hi = l_tot l)).
Proof.
  intros Hh Ht Ha Hpos. cbv zeta. unfold carve_high. consts.
  destruct AT; cbn [andb].
  - destruct (Z.ltb_spec 0 (l_addr l)) as [Hap | Han]; cbn [andb].
    + destruct (Z.ltb_spec 0 (l_tot l)) as [Htp | Htn].
      * dev_simpl. map_simpl. u32.
        split; [reflexivity|]. split; [reflexivity|]. right.
        repeat split; try reflexivity; lia.
      * split; [reflexivity|]. split; [reflexivity|]. left. split; [exact Hh | reflexivity].
    + split; [reflexivity|]. split; [reflexivity|]. left. split; [exact Hh | reflexivity].
  - split; [reflexivity|]. split; [reflexivity|]. left. split; [exact Hh | reflexivity].
Qed.

(** The regions and the cursor once all plain RAM is handed out. *)
Lemma carve_regions AT d0 h k tot sa :
  low_mapping d0 = mapping_zero -> high_mapping d0 = mapping_zero ->
  0 <= tot < 4294967296 -> 0 <= sa < 4294967296 ->
  let l2 := carve_high AT (carve_conventional (mkLayout d0 h k tot sa 0)) in
  let lo := low_mapping (l_dev l2) in
  let hi := high_mapping (l_dev l2) in
  let rm := ram_remapped_mapping (l_host l2) in
  (lo = mapping_zero \/
   (map_enable lo = true /\ map_base lo = sa /\ 0 < map_size lo /\
    map_base lo + map_size lo <= RAM_TOPMEM /\ map_exec lo = Some 0)) /\
  (hi = mapping_zero \/
   (AT = true /\ map_enable hi = true /\ RAM_TOPMEM <= map_base hi /\
    0 < map_size hi)) /\
  ((rm = ram_remapped_mapping h /\
    (hi = mapping_zero \/ map_exec hi = Some (map_size lo)) /\
    l_ptr l2 = map_size lo + map_size hi) \/
   (map_enable rm = false /\ map_size rm = RAM_UMAMEM /\
    map_exec rm = Some (map_size lo) /\
    (hi = mapping_zero \/ map_exec hi = Some (map_size lo + RAM_UMAMEM)) /\
    l_ptr l2 = map_size lo + RAM_UMAMEM + map_size hi)) /\
  0 <= l_ptr l2 <= tot.
Proof.
  intros Hl Hh Ht Ha. cbv zeta.
  destruct ((0 <? sa) && (0 <? tot)) eqn:Hg.
  - apply andb_true_iff in Hg. destruct Hg as [Hsa Htot].
    apply Z.ltb_lt in Hsa. apply Z.ltb_lt in Htot.
    unfold carve_conventional. cbn [l_addr l_tot l_dev l_host l_k l_ptr].
    destruct (Z.ltb_spec 0 sa) as [_|]; [|lia].
    destruct (Z.ltb_spec 0 tot) as [_|]; [|lia]. cbn [andb].
    destruct (carve_low_regions d0 h (uint32 (k - tot)) tot sa Hl)
      as (Lo & Lh & Lr & Lp & Lp0 & Lt & Ls & Laddr & Lpos); [lia | lia |].
    set (lA := carve_low _) in *.
    destruct (carve_uma_regions lA) as (Ud & Ur); [lia|].
    set (lB := carve_uma lA) in *.
    assert (HB : high_mapping (l_dev lB) = mapping_zero) by (rewrite Ud, Lh; exact Hh).
    assert (HBt : 0 <= l_tot lB < 4294967296 /\ 0 <= l_addr lB < 4294967296 /\
                  (0 < l_tot lB -> RAM_TOPMEM <= l_addr lB)).
    { destruct Ur as [(_ & _ & -> & ->) | (_ & _ & _ & _ & Et & Ht0 & ->)].
      - repeat split; try lia; try exact Lpos.
      - consts. repeat split; try lia. }
    destruct HBt as (HBt & HBa & HBpos).
    destruct (carve_high_regions AT lB HB HBt HBa HBpos) as (Hlo & Hrm & Hhi).
    rewrite Hlo, Hrm, Ud.
    split; [exact Lo|]. split.
    { destruct Hhi as [(-> & _) | (A1 & A2 & A3 & A4 & _)];
        [left; reflexivity | right; auto]. }
    split.
    + destruct Ur as [(Er & Ep & Et & Ea) | (R1 & R2 & R3 & Ep & Et & Ht0 & Ea)].
      * left. split; [congruence|].
        destruct Hhi as [(-> & Ep2) | (_ & _ & _ & _ & Ex & Ep2 & _)].
        -- split; [left; reflexivity|]. cbn [map_size mapping_zero]. lia.
        -- split; [right; rewrite Ex; f_equal; lia | lia].
      * right. split; [exact R1|]. split; [exact R2|].
        split; [rewrite R3; f_equal; lia|].
        destruct Hhi as [(-> & Ep2) | (_ & _ & _ & _ & Ex & Ep2 & _)].
        -- split; [left; reflexivity|]. cbn [map_size mapping_zero]. lia.
        -- split; [right; rewrite Ex; f_equal; lia | lia].
    + destruct Ur as [(_ & Ep & Et & _) | (_ & _ & _ & Ep & Et & Ht0 & _)];
        destruct Hhi as [(_ & Ep2) | (_ & _ & _ & H4 & _ & Ep2 & Es)]; consts; lia.
  - rewrite (no_carving_identity AT (mkLayout d0 h k tot sa 0) Hg).
    cbv beta iota delta [l_dev l_host l_k l_tot l_addr l_ptr].
    rewrite Hl, Hh. cbn [map_size mapping_zero].
    split; [left; reflexivity|]. split; [left; reflexivity|].
    split; [left; split; [reflexivity|split; [left; reflexivity | reflexivity]] | lia].
Qed.

(** X11: where [isamem_init] puts the plain regions.  The conventional
    mapping, when registered, starts at the start address, is not empty,
    ends at or below 640 KB and is backed from offset 0 of the buffer.  The
    extended mapping is registered on AT-class systems only, starts at or
    above 640 KB (so the two never overlap) and is not empty.  The remap
    window is either left as it was, or registered disabled with 384 KB.
    The backing pointers follow one another in the order conventional,
    remap window, extended, and on a board with EMS the pool starts right
    behind them. *)
Theorem plain_regions_placed AT local cfg h :
  let d := fst (isamem_init AT local cfg h) in
  let h' := snd (isamem_init AT local cfg h) in
  let lo := low_mapping d in
  let hi := high_mapping d in
  let rm := ram_remapped_mapping h' in
  (lo = mapping_zero \/
   (map_enable lo = true /\ map_base lo = start_addr d /\ 0 < map_size lo /\
    map_base lo + map_size lo <= RAM_TOPMEM /\ map_exec lo = Some 0)) /\
  (hi = mapping_zero \/
   (AT = true /\ map_enable hi = true /\ RAM_TOPMEM <= map_base hi /\
    0 < map_size hi)) /\
  ((rm = ram_remapped_mapping h /\
    (hi = mapping_zero \/ map_exec hi = Some (map_size lo)) /\
    (flag_set (flags d) FLAG_EMS = true -> ems_start d = map_size lo + map_size hi)) \/
   (map_enable rm = false /\ map_size rm = RAM_UMAMEM /\
    map_exec rm = Some (map_size lo) /\
    (hi = mapping_zero \/ map_exec hi = Some (map_size lo + RAM_UMAMEM)) /\
    (flag_set (flags d) FLAG_EMS = true ->
       ems_start d = map_size lo + RAM_UMAMEM + map_size hi))).
Proof.
  cbv zeta.
  destruct (isamem_init_dev AT local cfg h)
    as (E & Hf & _ & _ & _ & _ & Hl & Hh & Hf2 & _ & _ & _ & Hs).
  assert (Hr : ram_remapped_mapping (snd (isamem_init AT local cfg h)) =
               ram_remapped_mapping
                 (l_host (carve_high AT (carve_conventional (init_board AT local cfg h)))))
    by (rewrite E; apply setup_ems_host).
  rewrite Hl, Hh, Hs, Hr.
  assert (Hst : flag_set (flags (fst (isamem_init AT local cfg h))) FLAG_EMS = true ->
            0 <= l_ptr (carve_high AT (carve_conventional (init_board AT local cfg h)))
              < 4294967296 ->
            ems_start (fst (isamem_init AT local cfg h)) =
            l_ptr (carve_high AT (carve_conventional (init_board AT local cfg h)))).
  { intros He Hxr. rewrite Hf, <- Hf2 in He. rewrite E.
    destruct (setup_ems_info _ He) as (-> & _). apply uint32_small. exact Hxr. }
  clear E Hf Hf2 Hl Hh Hs Hr.
  destruct (init_board_shape AT local cfg h)
    as (f & ts & ba & sa & fa & tot & E0 & Hts & Hsa & Htot & _).
  rewrite E0 in *. cbn [l_dev start_addr].
  match type of E0 with
  | _ = mkLayout ?d0 _ _ _ _ _ =>
      destruct (carve_regions AT d0 h (ts * 1024) tot sa eq_refl eq_refl Htot Hsa)
        as (Lo & Hi & Rm & Hp)
  end.
  assert (Hrange : 0 <= l_ptr (carve_high AT (carve_conventional
                      (mkLayout (mkMemdev (Z.land local 63) f ts ba sa fa 0 0 0
                         (calloc (ts * 1024)) mapping_zero mapping_zero
                         (fun _ => emsreg_zero)) h (ts * 1024) tot sa 0)))
                   < 4294967296).
  { destruct Hp as [Hp1 Hp2]. split; [exact Hp1|].
    eapply Z.le_lt_trans; [exact Hp2 | apply Htot]. }
  split; [exact Lo|]. split; [exact Hi|].
  destruct Rm as [(R1 & R2 & R3) | (R1 & R2 & R3 & R4 & R5)].
  - left. split; [exact R1|]. split; [exact R2|].
    intros He. rewrite (Hst He Hrange). exact R3.
  - right. split; [exact R1|]. split; [exact R2|]. split; [exact R3|].
    split; [exact R4|]. intros He. rewrite (Hst He Hrange). exact R5.
Qed.

(** The contiguous amount the per-board initialization asks for, against the
    board's size: the two are the same option on the IBM boards and the
    5-PAK, the amount is 0 on the EMS-5150, and on the EV-159 it is the
    "length" option. *)
Lemma board_setup_tot local cfg :
  (Z.land local 63 = 10 -> 0 <= cfg_length cfg <= cfg_size cfg /\ cfg_size cfg < 65536) ->
  0 <= snd (board_setup local cfg) <= total_size (fst (board_setup local cfg)).
Proof.
  intros H. unfold board_setup, memdev_zero. dev_simpl.
  pose proof (uint16_range (cfg_size cfg)) as Hs.
  remember (Z.land local 63) as b eqn:Eb. clear Eb.
  board_cases b; dev_simpl;
    try (destruct (nonzero (cfg_width cfg)));
    try (destruct (nonzero (cfg_speed cfg)));
    try (destruct (nonzero (cfg_ems cfg)));
    dev_simpl; try lia.
  all: specialize (H eq_refl);
    rewrite (uint16_small (cfg_size cfg)) by lia;
    rewrite (uint32_small (cfg_length cfg)) by lia; lia.
Qed.

Lemma board_fits AT local cfg :
  (Z.land local 63 = 10 -> 0 <= cfg_length cfg <= cfg_size cfg /\ cfg_size cfg < 65536) ->
  contiguous_fits AT local cfg.
Proof.
  intros H. pose proof (board_setup_tot local cfg H) as Ht.
  unfold contiguous_fits, tot_bytes, ram_bytes, init_board.
  destruct (board_setup_shape local cfg)
    as (f & ts & ba & sa & fa & tot & E & Hf & Hts & Hsa & Htot & Hba).
  rewrite E in *. dev_simpl.
  destruct (negb AT && flag_set f FLAG_WIDE); dev_simpl;
    rewrite !Z.shiftl_mul_pow2 by lia; change (2 ^ 10) with 1024;
    rewrite (uint32_small (tot * 1024)) by lia; lia.
Qed.

(** X12: the boards whose contiguous amount is their size or nothing (the
    IBM PC/XT and PC/AT expansions, the 5-PAK, the EMS-5150) always have
    their EMS pool and their plain regions inside the allocated RAM, and so
    has the EV-159 when its contiguous length does not exceed its size. *)
Theorem pool_within_ram AT local cfg h :
  (Z.land local 63 = 10 -> 0 <= cfg_length cfg <= cfg_size cfg /\ cfg_size cfg < 65536) ->
  let d := fst (isamem_init AT local cfg h) in
  pool_in_ram d /\ 0 <= ems_start d /\
  ems_start d + ems_pages d * EMS_PGSIZE <= buf_size (ram d) /\
  region_ok (buf_size (ram d)) (low_mapping d) /\
  region_ok (buf_size (ram d)) (high_mapping d).
Proof.
  intros H. cbv zeta. pose proof (board_fits AT local cfg H) as Hfit.
  destruct (pool_in_ram_fits AT local cfg h Hfit) as (P & S0 & _).
  destruct (isamem_init_pool AT local cfg h Hfit) as (L & Hi & _).
  destruct (ram_bytes_total AT local cfg h) as (HK & HB & _).
  rewrite HK, <- HB in L, Hi.
  split; [exact P|]. split; [exact S0|].
  split; [rewrite HB; exact P|]. split; [exact L | exact Hi].
Qed.

(** An EV-159 with 512 KB of which 256 KB are contiguous. *)
Lemma pool_within_ram_witness :
  (Z.land 10 63 = 10 ->
   0 <= cfg_length (ev159_cfg 512 256 256 1 0x258)
     <= cfg_size (ev159_cfg 512 256 256 1 0x258) /\
   cfg_size (ev159_cfg 512 256 256 1 0x258) < 65536) /\
  pool_in_ram (fst (isamem_init false 10 (ev159_cfg 512 256 256 1 0x258) host_empty)).
Proof.
  assert (H : Z.land 10 63 = 10 ->
              0 <= cfg_length (ev159_cfg 512 256 256 1 0x258)
                <= cfg_size (ev159_cfg 512 256 256 1 0x258) /\
              cfg_size (ev159_cfg 512 256 256 1 0x258) < 65536)
    by (intros _; simpl; lia).
  split; [exact H|].
  exact (proj1 (pool_within_ram false 10 (ev159_cfg 512 256 256 1 0x258) host_empty H)).
Defined.

(** X13: the four windows tile the 64 KB page frame, and the viewport the
    paged translators take from the address bits is the one whose window
    the address lies in.  On a board with EMS, after any history, every
    address of the frame is inside the window of viewport
    [(addr & 0xffff) / EMS_PGSIZE] and inside no other window. *)
Theorem windows_tile_frame AT local cfg h d a :
  reachable (fst (isamem_init AT local cfg h)) d ->
  flag_set (flags (fst (isamem_init AT local cfg h))) FLAG_EMS = true ->
  frame_addr d <= a < frame_addr d + EMS_MAXPAGE * EMS_PGSIZE ->
  0 <= addr_vpage a < EMS_MAXPAGE /\
  inside (mapping (ems d (addr_vpage a))) a /\
  (forall i, 0 <= i < EMS_MAXPAGE -> inside (mapping (ems d i)) a -> i = addr_vpage a).
Proof.
  intros R He Ha.
  destruct (reachable_preserves _ _ R (isamem_init_ok AT local cfg h)) as (L & _).
  destruct L as (_ & Hfr & _ & _ & _ & _ & _ & _ & Hw).
  destruct (isamem_init_windows AT local cfg h He) as (HF & HW).
  rewrite <- Hfr in HF, HW.
  set (F := frame_addr d) in *.
  assert (Hmod : F mod 65536 = 0) by (destruct HF as [-> | ->]; reflexivity).
  assert (Inside : forall i, 0 <= i < 4 ->
            (inside (mapping (ems d i)) a <->
             F + EMS_PGSIZE * i <= a < F + EMS_PGSIZE * i + EMS_PGSIZE)).
  { intros i Hi. unfold inside. destruct (Hw i) as (-> & ->).
    destruct (HW i Hi) as (-> & ->). tauto. }
  clearbody F. clear Hw HW Hfr He R HF. consts.
  assert (Ev : addr_vpage a = (a - F) / 16384).
  { replace a with (F + EMS_PGSIZE * ((a - F) / 16384) + (a - F) mod 16384) at 1.
    - apply addr_vpage_window; [exact Hmod | | consts].
      + split; [apply Z.div_pos; lia | apply Z.div_lt_upper_bound; lia].
      + apply Z.mod_pos_bound. lia.
    - consts. pose proof (Z.div_mod (a - F) 16384). lia. }
  pose proof (Z.div_mod (a - F) 16384 ltac:(lia)) as Hdm.
  pose proof (Z.mod_pos_bound (a - F) 16384 ltac:(lia)) as Hmb.
  assert (Hq : 0 <= (a - F) / 16384 < 4).
  { split; [apply Z.div_pos; lia | apply Z.div_lt_upper_bound; lia]. }
  rewrite Ev. split; [exact Hq|]. split.
  - apply Inside; [exact Hq | lia].
  - intros i Hi Hin. apply Inside in Hin; [|exact Hi]. lia.
Qed.

(** On the fresh EV-159 the address E8010H belongs to viewport 2. *)
Lemma windows_tile_frame_witness :
  flag_set (flags ev159_fresh) FLAG_EMS = true /\
  frame_addr ev159_fresh <= 0xE8010 < frame_addr ev159_fresh + EMS_MAXPAGE * EMS_PGSIZE /\
  inside (mapping (ems ev159_fresh (addr_vpage 0xE8010))) 0xE8010.
Proof.
  assert (He : flag_set (flags ev159_fresh) FLAG_EMS = true) by (vm_compute; reflexivity).
  assert (Ha : frame_addr ev159_fresh <= 0xE8010
               < frame_addr ev159_fresh + EMS_MAXPAGE * EMS_PGSIZE)
    by (vm_compute; split; [discriminate | reflexivity]).
  split; [exact He|]. split; [exact Ha|].
  exact (proj1 (proj2 (windows_tile_frame false 10 (ev159_cfg 512 0 0 1 0x258) host_empty
                         ev159_fresh 0xE8010 (reach_init _) He Ha))).
Defined.

(** * Removing the board *)

(** The EMS flag is fixed once [isamem_init] is done. *)
Lemma step_flag_ems d d' :
  step d d' -> flag_set (flags d') FLAG_EMS = flag_set (flags d) FLAG_EMS.
Proof.
  intros S. destruct S as [op d | a v m d d' E | a v m d d' E | a v m d d' E | a v m d d' E].
  - destruct op as [port | port val]; cbn [io_step fst]; [reflexivity|].
    apply ems_write_keeps_flags.
  - unfold ram_writeb in E.
    destruct (store8 _ _ _); [|discriminate]. injection E as <-. reflexivity.
  - unfold ram_writew in E.
    destruct (store16 _ _ _); [|discriminate]. injection E as <-. reflexivity.
  - unfold ems_writeb in E. destruct (ems_ptr a m d); [|discriminate].
    destruct (store8 _ _ _); [|discriminate]. injection E as <-. reflexivity.
  - unfold ems_writew in E. destruct (ems_ptr a m d); [|discriminate].
    destruct (store16 _ _ _); [|discriminate]. injection E as <-. reflexivity.
Qed.

Lemma reachable_flag_ems d0 d :
  reachable d0 d -> flag_set (flags d) FLAG_EMS = flag_set (flags d0) FLAG_EMS.
Proof.
  intros R. induction R as [|d d' R IH S]; [reflexivity|].
  rewrite <- IH. apply step_flag_ems. exact S.
Qed.

(** The four register pairs of a board lie 16 KB apart in the 64 KB port
    space, so no two of them share their first port. *)
Lemma pair_ports_distinct b i j :
  0 <= i < 4 -> 0 <= j < 4 -> i <> j ->
  (uint16 (b + EMS_PGSIZE * i) =? uint16 (b + EMS_PGSIZE * j)) = false.
Proof.
  intros Hi Hj Hne. apply Z.eqb_neq. unfold uint16. consts.
  intros E.
  pose proof (Z.div_mod (b + 16384 * i) 65536 ltac:(lia)) as Di.
  pose proof (Z.div_mod (b + 16384 * j) 65536 ltac:(lia)) as Dj.
  rewrite E in Di. lia.
Qed.

(** Taking the four pairs out of a table they were put on top of. *)
Lemma remove_pairs b m s l :
  fold_left (fun h i => io_removehandler (b + EMS_PGSIZE * i) 2 h) [0; 1; 2; 3]
    (mkHost m s
       ([ (uint16 (b + EMS_PGSIZE * 3), 2); (uint16 (b + EMS_PGSIZE * 2), 2);
          (uint16 (b + EMS_PGSIZE * 1), 2); (uint16 (b + EMS_PGSIZE * 0), 2) ] ++ l)) =
  mkHost m s l.
Proof.
  cbn [fold_left app]. unfold io_removehandler.
  cbn [remove_first fst snd ram_remapped_mapping mem_state io_handlers].
  rewrite !Z.eqb_refl.
  rewrite (pair_ports_distinct b 3 0), (pair_ports_distinct b 2 0),
    (pair_ports_distinct b 1 0) by lia.
  cbn [andb remove_first fst snd ram_remapped_mapping mem_state io_handlers].
  rewrite !Z.eqb_refl.
  rewrite (pair_ports_distinct b 3 1), (pair_ports_distinct b 2 1) by lia.
  cbn [andb remove_first fst snd ram_remapped_mapping mem_state io_handlers].
  rewrite !Z.eqb_refl.
  rewrite (pair_ports_distinct b 3 2) by lia.
  cbn [andb remove_first fst snd ram_remapped_mapping mem_state io_handlers].
  rewrite !Z.eqb_refl.
  cbn [andb]. reflexivity.
Qed.

(** X14: [isamem_close] takes out of the host's port table exactly what
    [isamem_init] put in.  Whatever the guest did with the board in
    between, the port table after the close is the one from before the
    board was attached; the ranges marked as external RAM and the remap
    window are left as [isamem_init] set them. *)
Theorem close_restores_ports AT local cfg h d :
  reachable (fst (isamem_init AT local cfg h)) d ->
  let h' := snd (isamem_init AT local cfg h) in
  io_handlers (isamem_close d h') = io_handlers h /\
  mem_state (isamem_close d h') = mem_state h' /\
  ram_remapped_mapping (isamem_close d h') = ram_remapped_mapping h'.
Proof.
  intros R. cbv zeta.
  pose proof (reachable_flag_ems _ _ R) as Hfl.
  destruct (reachable_preserves _ _ R (isamem_init_ok AT local cfg h)) as (L & _).
  destruct L as (Hba & _).
  destruct (isamem_init_dev AT local cfg h)
    as (E & Hf & Hb & _ & _ & _ & _ & _ & Hf2 & Hb2 & _).
  destruct (carve_same AT (init_board AT local cfg h)) as (_ & Hio).
  destruct (init_board_host AT local cfg h h) as (_ & _ & _ & _ & _ & Hh).
  rewrite Hh in Hio.
  unfold isamem_close. rewrite Hfl, Hba, Hb, <- Hb2.
  destruct (flag_set (flags (fst (isamem_init AT local cfg h))) FLAG_EMS) eqn:He.
  - rewrite Hf, <- Hf2 in He.
    destruct (setup_ems_info _ He) as (_ & _ & _ & I).
    rewrite E.
    destruct (snd (setup_ems (carve_high AT (carve_conventional (init_board AT local cfg h)))))
      as [m s io].
    cbn [io_handlers] in I. rewrite I, remove_pairs.
    cbn [io_handlers mem_state ram_remapped_mapping].
    split; [exact Hio|]. split; reflexivity.
  - split; [|split; reflexivity].
    rewrite Hf, <- Hf2 in He. rewrite E. unfold setup_ems. rewrite He.
    exact Hio.
Qed.

(** The EV-159 at 258H, after the driver configured it and mapped page 5,
    is taken out again. *)
Lemma close_restores_ports_witness :
  let d := run_io [IoWrite 0x259 0x01; IoWrite 0x258 0x85] ev159_fresh in
  reachable ev159_fresh d /\
  io_handlers
    (isamem_close d (snd (isamem_init false 10 (ev159_cfg 512 0 0 1 0x258) host_empty))) = [].
Proof.
  cbv zeta.
  assert (R : reachable ev159_fresh (run_io [IoWrite 0x259 0x01; IoWrite 0x258 0x85] ev159_fresh))
    by (apply reachable_run_io, reach_init).
  split; [exact R|].
  exact (proj1 (close_restores_ports false 10 (ev159_cfg 512 0 0 1 0x258) host_empty _ R)).
Defined.

(** * The board catalog *)

Lemma table_at_boards board e :
  table_at boards board = Some e ->
  board = 0 \/ board = 1 \/ board = 2 \/ board = 3 \/ board = 4 \/ board = 5 \/ board = 6.
Proof.
  unfold table_at. destruct (Z.ltb_spec board 0) as [|Hb]; [discriminate|].
  intros H.
  assert (Hlt : (Z.to_nat board < List.length boards)%nat)
    by (apply nth_error_Some; congruence).
  cbn [List.length boards] in Hlt. lia.
Qed.

(** X15: the internal names identify the boards.  The name
    [isamem_get_internal_name] gives for a board number is looked up by
    [isamem_get_from_internal_name] to that same number. *)
Theorem internal_name_round_trip board n :
  isamem_get_internal_name board = Some (Some n) ->
  isamem_get_from_internal_name n = Some board.
Proof.
  unfold isamem_get_internal_name. intros H.
  destruct (table_at boards board) as [e|] eqn:E; [|discriminate].
  destruct (table_at_boards board e E) as [-> | [-> | [-> | [-> | [-> | [-> | ->]]]]]];
    vm_compute in E; injection E as <-; cbn in H;
    first [discriminate | injection H as <-; vm_compute; reflexivity].
Qed.

Lemma internal_name_round_trip_witness :
  isamem_get_internal_name 5 = Some (Some "ev159"%string) /\
  isamem_get_from_internal_name "ev159" = Some 5.
Proof.
  assert (H : isamem_get_internal_name 5 = Some (Some "ev159"%string)) by reflexivity.
  split; [exact H|].
  exact (internal_name_round_trip 5 "ev159" H).
Defined.

(** X16: [isamem_get_from_internal_name] always ends with a board number of
    the table: the number of the line named [s], or 0, the line of no board,
    when no line has that name.  [isamem_get_device] and [isamem_get_name]
    are defined on the result, and give no device and no name exactly for
    0. *)
Theorem from_internal_name_in_table s :
  exists c,
    isamem_get_from_internal_name s = Some c /\ 0 <= c <= 5 /\
    (isamem_get_internal_name c = Some (Some s) \/
     c = 0 /\ forall b, isamem_get_internal_name b <> Some (Some s)) /\
    (exists dv, isamem_get_device c = Some dv /\ (dv = None <-> c = 0)) /\
    (exists nm, isamem_get_name c = Some nm /\ (nm = None <-> c = 0)).
Proof.
  unfold isamem_get_from_internal_name, boards, find_internal_name.
  assert (Found : forall c, 1 <= c <= 5 ->
            isamem_get_internal_name c = Some (Some s) ->
            (exists dv, isamem_get_device c = Some dv /\ dv <> None) ->
            (exists nm, isamem_get_name c = Some nm /\ nm <> None) ->
            Some c = Some c /\ 0 <= c <= 5 /\
            (isamem_get_internal_name c = Some (Some s) \/
             c = 0 /\ forall b, isamem_get_internal_name b <> Some (Some s)) /\
            (exists dv, isamem_get_device c = Some dv /\ (dv = None <-> c = 0)) /\
            (exists nm, isamem_get_name c = Some nm /\ (nm = None <-> c = 0))).
  { intros c Hc Hn (dv & Hd & Hdv) (nm & Hm & Hnm).
    split; [reflexivity|]. split; [lia|]. split; [left; exact Hn|].
    split; [exists dv | exists nm]; (split; [assumption|]);
      (split; [intros; contradiction | lia]). }
  assert (None0 : (exists dv, isamem_get_device 0 = Some dv /\ (dv = None <-> 0 = 0)) /\
                  (exists nm, isamem_get_name 0 = Some nm /\ (nm = None <-> 0 = 0))).
  { split; eexists; (split; [reflexivity|]); (split; intros; reflexivity). }
  destruct (String.eqb_spec "none" s) as [<- | N0].
  { exists 0. split; [reflexivity|]. split; [lia|]. split; [left; reflexivity | exact None0]. }
  destruct (String.eqb_spec "ibmxt" s) as [<- | N1].
  { exists 1. apply Found; [lia | reflexivity | |];
      eexists; (split; [reflexivity | discriminate]). }
  destruct (String.eqb_spec "ibmat" s) as [<- | N2].
  { exists 2. apply Found; [lia | reflexivity | |];
      eexists; (split; [reflexivity | discriminate]). }
  destruct (String.eqb_spec "p5pak" s) as [<- | N3].
  { exists 3. apply Found; [lia | reflexivity | |];
      eexists; (split; [reflexivity | discriminate]). }
  destruct (String.eqb_spec "ems5150" s) as [<- | N4].
  { exists 4. apply Found; [lia | reflexivity | |];
      eexists; (split; [reflexivity | discriminate]). }
  destruct (String.eqb_spec "ev159" s) as [<- | N5].
  { exists 5. apply Found; [lia | reflexivity | |];
      eexists; (split; [reflexivity | discriminate]). }
  exists 0. split; [reflexivity|]. split; [lia|]. split; [|exact None0].
  right. split; [reflexivity|]. intros b H.
  unfold isamem_get_internal_name in H.
  destruct (table_at boards b) as [e|] eqn:E; [|discriminate].
  destruct (table_at_boards b e E) as [-> | [-> | [-> | [-> | [-> | [-> | ->]]]]]];
    vm_compute in E; injection E as <-; cbn in H;
    first [discriminate | injection H as H; congruence].
Qed.

(** ** The I/O bases of the option tables *)

Lemma board_setup_base local cfg :
  Z.land local 63 = 3 \/ Z.land local 63 = 10 ->
  base_addr (fst (board_setup local cfg)) = uint32 (cfg_base cfg).
Proof.
  unfold board_setup, memdev_zero. dev_simpl.
  intros [-> | ->]; dev_simpl; [reflexivity|].
  destruct (nonzero (cfg_width cfg)); destruct (nonzero (cfg_speed cfg));
    destruct (nonzero (cfg_ems cfg)); reflexivity.
Qed.

Lemma isamem_init_base AT local cfg h :
  Z.land local 63 = 3 \/ Z.land local 63 = 10 ->
  base_addr (fst (isamem_init AT local cfg h)) = uint32 (cfg_base cfg).
Proof.
  intros Hb. rewrite <- (board_setup_base local cfg Hb).
  destruct (isamem_init_dev AT local cfg h) as (_ & _ & -> & _).
  unfold init_board. destruct (board_setup local cfg) as [dev tot].
  cbv beta iota zeta delta [l_dev fst].
  destruct (negb AT && flag_set (flags (set_start_addr _ dev)) FLAG_WIDE); reflexivity.
Qed.

(** Every base of the two tables leaves room for the register pair below
    the first 16 KB of the port space. *)
Lemma catalog_base_small b :
  In b ems5150_bases \/ In b ev159_bases -> 0 <= b /\ b + 1 < EMS_PGSIZE.
Proof.
  unfold ems5150_bases, ev159_bases. consts. cbn [In].
  intros [H | H]; repeat (destruct H as [<- | H]; [lia|]); contradiction.
Qed.

(** Two bases of one table are at least a register pair apart. *)
Lemma catalog_bases_apart bases b1 b2 :
  bases = ems5150_bases \/ bases = ev159_bases ->
  In b1 bases -> In b2 bases -> b1 <> b2 -> b1 + 2 <= b2 \/ b2 + 2 <= b1.
Proof.
  unfold ems5150_bases, ev159_bases.
  intros [-> | ->] H1 H2 Hne; cbn [In] in H1, H2;
    repeat (destruct H1 as [<- | H1]; [|]); try contradiction;
    repeat (destruct H2 as [<- | H2]; [|]); try contradiction; lia.
Qed.

Lemma decodes_small d i o :
  0 <= base_addr d -> base_addr d + 1 < EMS_PGSIZE ->
  0 <= i <= 3 -> 0 <= o <= 1 -> decodes d i o.
Proof.
  intros H0 Hlt Hi Ho. unfold decodes, port_vpage, port_reg.
  set (b := base_addr d) in *. consts.
  rewrite uint16_small by lia.
  change (16384 - 1) with (Z.ones 14). rewrite Z.land_ones by lia.
  change (2 ^ 14) with 16384.
  replace (b + 16384 * i + o) with ((b + o) + i * 16384) by lia.
  rewrite Z.div_add, Z.mod_add by lia.
  rewrite Z.div_small, Z.mod_small by lia.
  split; [lia|]. replace (b + o - b) with o by lia. apply uint32_small. lia.
Qed.

(** The port handlers a board attached to an empty host has registered. *)
Lemma init_handlers AT local cfg p c :
  In (p, c) (io_handlers (snd (isamem_init AT local cfg host_empty))) ->
  c = 2 /\
  exists i, 0 <= i <= 3 /\
    p = uint16 (base_addr (fst (isamem_init AT local cfg host_empty)) + EMS_PGSIZE * i).
Proof.
  destruct (isamem_init_dev AT local cfg host_empty)
    as (E & Hf & Hb & _ & _ & _ & _ & _ & Hf2 & Hb2 & _).
  destruct (carve_same AT (init_board AT local cfg host_empty)) as (_ & Hio).
  destruct (init_board_host AT local cfg host_empty host_empty) as (_ & _ & _ & _ & _ & Hh).
  rewrite Hh in Hio. rewrite Hb, <- Hb2.
  destruct (flag_set (flags (l_dev (carve_high AT (carve_conventional
              (init_board AT local cfg host_empty))))) FLAG_EMS) eqn:He.
  - destruct (setup_ems_info _ He) as (_ & _ & _ & I).
    rewrite E, I, Hio. cbn [io_handlers host_empty app In].
    intros [H | [H | [H | [H | []]]]]; injection H as <- <-;
      (split; [reflexivity|]);
      [exists 3 | exists 2 | exists 1 | exists 0]; (split; [lia | reflexivity]).
  - rewrite E. unfold setup_ems. rewrite He. cbn [snd]. rewrite Hio.
    intros [].
Qed.

(** X17: every I/O base the option tables of the EMS-5150 and of the EV-159
    offer is one the handlers decode: the board set to it takes the access
    to port base + i*16384 + o for register o of viewport i, for all four
    viewports and both registers. *)
Theorem catalog_bases_decode AT local cfg h :
  (Z.land local 63 = 3 /\ In (cfg_base cfg) ems5150_bases) \/
  (Z.land local 63 = 10 /\ In (cfg_base cfg) ev159_bases) ->
  let d := fst (isamem_init AT local cfg h) in
  base_addr d = cfg_base cfg /\
  forall i o, 0 <= i <= 3 -> 0 <= o <= 1 ->
    decodes d i o /\
    uint16 (base_addr d + EMS_PGSIZE * i + o) = cfg_base cfg + EMS_PGSIZE * i + o.
Proof.
  intros H. cbv zeta.
  assert (Hs : 0 <= cfg_base cfg /\ cfg_base cfg + 1 < EMS_PGSIZE)
    by (apply catalog_base_small; tauto).
  assert (Hb : base_addr (fst (isamem_init AT local cfg h)) = cfg_base cfg).
  { rewrite isamem_init_base by tauto. apply uint32_small. consts. lia. }
  split; [exact Hb|]. intros i o Hi Ho. split.
  - apply decodes_small; rewrite ?Hb; tauto.
  - rewrite Hb. apply uint16_small. consts. lia.
Qed.

(** The EV-159 at 2A8H: port 82A9H is register 1 of viewport 2. *)
Lemma catalog_bases_decode_witness :
  ((Z.land 10 63 = 3 /\ In (cfg_base (ev159_cfg 512 0 0 1 0x2A8)) ems5150_bases) \/
   (Z.land 10 63 = 10 /\ In (cfg_base (ev159_cfg 512 0 0 1 0x2A8)) ev159_bases)) /\
  decodes (fst (isamem_init false 10 (ev159_cfg 512 0 0 1 0x2A8) host_empty)) 2 1.
Proof.
  assert (H : (Z.land 10 63 = 3 /\
               In (cfg_base (ev159_cfg 512 0 0 1 0x2A8)) ems5150_bases) \/
              (Z.land 10 63 = 10 /\
               In (cfg_base (ev159_cfg 512 0 0 1 0x2A8)) ev159_bases)).
  { right. split; [reflexivity|]. simpl. tauto. }
  split; [exact H|].
  exact (proj1 (proj2 (catalog_bases_decode false 10 (ev159_cfg 512 0 0 1 0x2A8)
                         host_empty H) 2 1 ltac:(lia) ltac:(lia))).
Defined.

(** X18: two boards of one kind set to different bases of their option
    table never answer on the same port: the port ranges [isamem_init]
    registers for the one are disjoint from those it registers for the
    other. *)
Theorem catalog_boards_disjoint AT local cfg1 cfg2 p1 c1 p2 c2 :
  (Z.land local 63 = 3 /\
   In (cfg_base cfg1) ems5150_bases /\ In (cfg_base cfg2) ems5150_bases) \/
  (Z.land local 63 = 10 /\
   In (cfg_base cfg1) ev159_bases /\ In (cfg_base cfg2) ev159_bases) ->
  cfg_base cfg1 <> cfg_base cfg2 ->
  In (p1, c1) (io_handlers (snd (isamem_init AT local cfg1 host_empty))) ->
  In (p2, c2) (io_handlers (snd (isamem_init AT local cfg2 host_empty))) ->
  p1 + c1 <= p2 \/ p2 + c2 <= p1.
Proof.
  intros H Hne H1 H2.
  destruct (init_handlers AT local cfg1 p1 c1 H1) as (-> & i & Hi & ->).
  destruct (init_handlers AT local cfg2 p2 c2 H2) as (-> & j & Hj & ->).
  assert (Hb : Z.land local 63 = 3 \/ Z.land local 63 = 10) by tauto.
  rewrite !isamem_init_base by exact Hb.
  assert (S1 : 0 <= cfg_base cfg1 /\ cfg_base cfg1 + 1 < EMS_PGSIZE)
    by (apply catalog_base_small; tauto).
  assert (S2 : 0 <= cfg_base cfg2 /\ cfg_base cfg2 + 1 < EMS_PGSIZE)
    by (apply catalog_base_small; tauto).
  assert (Hap : cfg_base cfg1 + 2 <= cfg_base cfg2 \/ cfg_base cfg2 + 2 <= cfg_base cfg1).
  { destruct H as [(_ & A & B) | (_ & A & B)].
    - apply (catalog_bases_apart ems5150_bases); auto.
    - apply (catalog_bases_apart ev159_bases); auto. }
  consts.
  rewrite (uint32_small (cfg_base cfg1)), (uint32_small (cfg_base cfg2)) by lia.
  rewrite !uint16_small by lia. lia.
Qed.

(** Two EV-159 boards, at 258H and at 268H. *)
Lemma catalog_boards_disjoint_witness :
  let cfg1 := ev159_cfg 512 0 0 1 0x258 in
  let cfg2 := ev159_cfg 512 0 0 1 0x268 in
  cfg_base cfg1 <> cfg_base cfg2 /\
  In (0x8258, 2) (io_handlers (snd (isamem_init false 10 cfg1 host_empty))) /\
  In (0x8268, 2) (io_handlers (snd (isamem_init false 10 cfg2 host_empty))) /\
  (0x8258 + 2 <= 0x8268 \/ 0x8268 + 2 <= 0x8258).
Proof.
  cbv zeta.
  assert (Hne : cfg_base (ev159_cfg 512 0 0 1 0x258) <> cfg_base (ev159_cfg 512 0 0 1 0x268))
    by (simpl; lia).
  assert (H1 : In (0x8258, 2)
                 (io_handlers (snd (isamem_init false 10 (ev159_cfg 512 0 0 1 0x258)
                                      host_empty))))
    by (vm_compute; tauto).
  assert (H2 : In (0x8268, 2)
                 (io_handlers (snd (isamem_init false 10 (ev159_cfg 512 0 0 1 0x268)
                                      host_empty))))
    by (vm_compute; tauto).
  split; [exact Hne|]. split; [exact H1|]. split; [exact H2|].
  refine (catalog_boards_disjoint false 10 _ _ _ _ _ _ _ Hne H1 H2).
  right. split; [reflexivity|]. simpl. tauto.
Defined.

(** * The size of the pool *)

(** [k], the bytes left for EMS, is an unsigned value. *)
Lemma carve_k_nonneg AT local cfg h :
  0 <= l_k (carve_high AT (carve_conventional (init_board AT local cfg h))).
Proof.
  destruct (carve_high_same AT (carve_conventional (init_board AT local cfg h)))
    as (_ & -> & _).
  unfold carve_conventional.
  destruct ((0 <? l_addr (init_board AT local cfg h)) &&
            (0 <? l_tot (init_board AT local cfg h))).
  - match goal with
    | |- context [carve_uma (carve_low ?l1)] =>
        destruct (carve_uma_same (carve_low l1)) as (_ & -> & _);
        destruct (carve_low_same l1) as (_ & -> & _)
    end.
    cbv beta iota delta [l_k]. apply uint32_range.
  - destruct (init_board_shape AT local cfg h)
      as (f & ts & ba & sa & fa & tot & E0 & Hts & _).
    rewrite E0. cbv beta iota delta [l_k]. lia.
Qed.

(** The pool is capped at 2048 KB, which is 128 pages. *)
Lemma isamem_init_pages AT local cfg h :
  let d := fst (isamem_init AT local cfg h) in
  0 <= ems_pages d <= 128 /\ 0 <= ems_size d <= 2048 /\ ems_pages d = ems_size d / 16.
Proof.
  cbv zeta.
  destruct (isamem_init_dev AT local cfg h)
    as (E & _ & _ & _ & _ & _ & _ & _ & _ & _ & _ & _ & _).
  pose proof (carve_k_nonneg AT local cfg h) as Hk.
  rewrite E.
  destruct (flag_set (flags (l_dev (carve_high AT (carve_conventional
              (init_board AT local cfg h))))) FLAG_EMS) eqn:He.
  - destruct (setup_ems_info _ He) as (_ & -> & -> & _).
    set (k := l_k _) in *. clearbody k. consts.
    destruct (Z.ltb_spec 2097152 k) as [Hbig | Hsmall].
    + vm_compute. repeat split; discriminate.
    + rewrite Z.shiftr_div_pow2 by lia. change (2 ^ 10) with 1024.
      assert (H1 : 0 <= k / 1024 <= 2048).
      { split; [apply Z.div_pos; lia | apply Z.div_le_upper_bound; lia]. }
      assert (H2 : 0 <= k / 16384 <= 128).
      { split; [apply Z.div_pos; lia | apply Z.div_le_upper_bound; lia]. }
      rewrite !uint16_small by lia.
      split; [exact H2|]. split; [exact H1|].
      rewrite Z.div_div by lia. reflexivity.
  - rewrite (setup_ems_off _ He). cbn [fst].
    destruct (carve_same AT (init_board AT local cfg h))
      as ((_ & _ & _ & _ & _ & _ & S7 & S8 & _) & _).
    rewrite S7, S8.
    destruct (init_board_shape AT local cfg h)
      as (f & ts & ba & sa & fa & tot & E0 & _).
    rewrite E0. cbn. repeat split; discriminate.
Qed.

Lemma enable_page_bits p :
  0 <= p < 128 ->
  Z.land (Z.lor 0x80 p) 0x7f = p /\ Z.testbit (Z.lor 0x80 p) 7 = true.
Proof.
  intros Hp. rewrite Z.lor_comm, lor_80_small by exact Hp. split.
  - rewrite land_7f_mod. replace (p + 128) with (p + 1 * 128) by lia.
    rewrite Z.mod_add by lia. apply Z.mod_small. exact Hp.
  - apply Z.testbit_true; [lia|]. change (2 ^ 7) with 128.
    replace (p + 128) with (p + 1 * 128) by lia.
    rewrite Z.div_add by lia. rewrite Z.div_small by lia. reflexivity.
Qed.

(** X20: every page of the pool can be brought into every viewport.  The
    pool never has more than 128 pages (2048 KB), so each page number fits
    the 7-bit field of the page-select register: on a configured board,
    writing 80H + p for a page p of the pool enables the viewport on page
    p, binds its window to [ems_start + p * 16384], and the register reads
    back 80H + p. *)
Theorem every_page_selectable AT local cfg h d port p :
  reachable (fst (isamem_init AT local cfg h)) d ->
  configured d = true -> port_reg port d = 0 -> 0 <= p < ems_pages d ->
  let i := port_vpage port in
  let d' := ems_write port (Z.lor 0x80 p) d in
  p < 128 /\ page (ems d' i) = p /\
  viewport_enabled d' i = true /\ window_enabled d' i = true /\
  map_exec (mapping (ems d' i)) = Some (ems_start d + p * EMS_PGSIZE) /\
  ems_read port d' = Z.lor 0x80 p.
Proof.
  intros R Hc H0 Hp. cbv zeta.
  destruct (reachable_preserves _ _ R (isamem_init_ok AT local cfg h)) as (L & _).
  destruct L as (_ & _ & _ & Hpg & _).
  destruct (isamem_init_pages AT local cfg h) as ((_ & H128) & _).
  rewrite <- Hpg in H128.
  assert (Hp7 : 0 <= p < 128) by lia.
  destruct (enable_page_bits p Hp7) as (Hland & Hbit).
  assert (H0' : port_reg port (ems_write port (Z.lor 0x80 p) d) = 0).
  { unfold port_reg in *.
    destruct (ems_write_frame port (Z.lor 0x80 p) d) as (-> & _). exact H0. }
  assert (Hreg : ems (ems_write port (Z.lor 0x80 p) d) (port_vpage port) =
                 page_select_write (Z.lor 0x80 p) d (ems d (port_vpage port))).
  { rewrite ems_write_page_select by exact H0. cbn [ems set_ems].
    rewrite Z.eqb_refl. reflexivity. }
  destruct (page_select_write_cases (Z.lor 0x80 p) d (ems d (port_vpage port)))
    as (Pg & _ & _ & Hok).
  rewrite Hland in Pg, Hok.
  destruct (Hok Hc ltac:(lia)) as (En & Me & Ad & Ex).
  rewrite Hbit in En, Me. specialize (Ex Hbit).
  assert (Hen : viewport_enabled (ems_write port (Z.lor 0x80 p) d) (port_vpage port) = true).
  { unfold viewport_enabled. rewrite Hreg. exact En. }
  split; [lia|]. split; [rewrite Hreg; exact Pg|]. split; [exact Hen|].
  split; [unfold window_enabled; rewrite Hreg; exact Me|].
  split; [rewrite Hreg, Ex; exact Ad|].
  destruct (ems_read_page_select port (ems_write port (Z.lor 0x80 p) d) H0') as (Rd & _).
  { rewrite Hreg, Pg. exact Hp7. }
  rewrite Rd, Hen, Hreg, Pg.
  rewrite land_7f_mod, Z.mod_small by exact Hp7. apply Z.lor_comm.
Qed.

(** Page 31, the last one of the configured 512 KB EV-159, in viewport 1. *)
Lemma every_page_selectable_witness :
  let d := run_io [IoWrite 0x259 0x01] ev159_fresh in
  configured d = true /\ port_reg 0x4258 d = 0 /\ 0 <= 31 < ems_pages d /\
  ems_read 0x4258 (ems_write 0x4258 (Z.lor 0x80 31) d) = Z.lor 0x80 31.
Proof.
  cbv zeta.
  assert (R : reachable ev159_fresh (run_io [IoWrite 0x259 0x01] ev159_fresh))
    by (apply reachable_run_io, reach_init).
  assert (Hc : configured (run_io [IoWrite 0x259 0x01] ev159_fresh) = true)
    by (vm_compute; reflexivity).
  assert (H0 : port_reg 0x4258 (run_io [IoWrite 0x259 0x01] ev159_fresh) = 0)
    by (vm_compute; reflexivity).
  assert (Hp : 0 <= 31 < ems_pages (run_io [IoWrite 0x259 0x01] ev159_fresh))
    by (vm_compute; split; [discriminate | reflexivity]).
  split; [exact Hc|]. split; [exact H0|]. split; [exact Hp|].
  exact (proj2 (proj2 (proj2 (proj2 (proj2
           (every_page_selectable false 10 (ev159_cfg 512 0 0 1 0x258) host_empty
              _ 0x4258 31 R Hc H0 Hp)))))).
Defined.
